(** * lfTPCPID: parameter resolution, Bethe-Bloch response and table filling

    A shallow embedding of [PWGLF/TableProducer/lfTPCPID.cxx].

    - C++ [float] is IEEE-754 binary32, modelled with the Standard Library's
      [SpecFloat] at precision 24 and maximal exponent 128 (module [F32]).
    - The task struct [lfTpcPid] and the services it mutates become one
      state record [St]; member functions become computations in the
      monad [M], which can also stop on [LOG(fatal)] or on a null-pointer
      dereference.
    - ROOT's [TH1F]/[TAxis] is used through the interface [HistLike]; the
      curve [o2::tpc::BetheBlochAleph], [std::pow], the mass tables and the
      tiny-binning encoder are fields of [Collaborators]. *)

From Stdlib Require Import ZArith List String Bool Lia SpecFloat.
From stdpp Require Import base gmap strings.

Import ListNotations.

(** ** Single-precision floats *)

Module F32.

Definition prec : Z := 24.
Definition emax : Z := 128.

Definition float : Type := spec_float.

Definition zero : float := S754_zero false.
Definition nan : float := S754_nan.

Definition mul : float -> float -> float := SFmul prec emax.
Definition add : float -> float -> float := SFadd prec emax.
Definition sub : float -> float -> float := SFsub prec emax.
Definition div : float -> float -> float := SFdiv prec emax.
Definition sqrt : float -> float := SFsqrt prec emax.
Definition abs : float -> float := SFabs.

(** [x < y] and [x >= y] as C++ evaluates them: both are [false] as soon
    as one operand is NaN. *)
Definition ltb (x y : float) : bool := SFltb x y.
Definition geb (x y : float) : bool := SFleb y x.

Definition is_nan (x : float) : bool :=
  match x with S754_nan => true | _ => false end.

(** The decimal literal [m / 10^k], rounded once to the nearest binary32
    (ties to even), as a compiler reads [0.002f] = [decimal 2 3]. *)
Definition decimal (m : positive) (k : Z) : float :=
  SFdiv prec emax (S754_finite false m 0)
                  (S754_finite false (Z.to_pos (10 ^ k)) 0).

(** [x] is a normal positive binary32 within half a unit in the last place
    of [num / den]: a nearest binary32 of that fraction. *)
Definition nearest (num den : Z) (x : float) : bool :=
  match x with
  | S754_finite false m e =>
      (2 ^ (prec - 1) <=? Z.pos m)%Z && (Z.pos m <? 2 ^ prec)%Z &&
      (if (e <? 0)%Z
       then (2 * Z.abs (Z.pos m * den - num * 2 ^ (- e)) <=? den)%Z
       else (2 * Z.abs (Z.pos m * 2 ^ e * den - num) <=? 2 ^ e * den)%Z)
  | _ => false
  end.

(** [static_cast<float>] of a small non-negative integer constant. *)
Definition of_int (n : positive) : float := decimal n 0.

Definition one : float := of_int 1.
Definition one_and_a_half : float := decimal 15 1.

End F32.

Abbreviation float := F32.float.

(** ** Species and labels *)

(** [o2::track::PID::ID], restricted to the nine hypotheses of the task. *)
Inductive ID : Type :=
  | Electron | Muon | Pion | Kaon | Proton | Deuteron | Triton | Helium3 | Alpha.

#[global] Instance ID_eq_dec : EqDecision ID.
Proof. solve_decision. Defined.

Definition allSpecies : list ID :=
  [Electron; Muon; Pion; Kaon; Proton; Deuteron; Triton; Helium3; Alpha].

Definition nSpecies : nat := 9.
Definition nParameters : nat := 11.

Definition particleNames : list string :=
  ["El"; "Mu"; "Pi"; "Ka"; "Pr"; "De"; "Tr"; "He"; "Al"]%string.

Definition parameterNames : list string :=
  ["Use default tiny"; "Use default full"; "Set parameters";
   "bb1"; "bb2"; "bb3"; "bb4"; "bb5";
   "MIP value"; "Charge exponent"; "Resolution"]%string.

(** The token pasted by the macros and passed to [setValues] in [init]. *)
Definition Particle (id : ID) : string :=
  match id with
  | Electron => "El" | Muon => "Mu" | Pion => "Pi" | Kaon => "Ka"
  | Proton => "Pr" | Deuteron => "De" | Triton => "Tr"
  | Helium3 => "He" | Alpha => "Al"
  end%string.

(** The species name used in the log lines of [init]. *)
Definition longName (id : ID) : string :=
  match id with
  | Electron => "Electron" | Muon => "Muon" | Pion => "Pion" | Kaon => "Kaon"
  | Proton => "Proton" | Deuteron => "Deuteron" | Triton => "Triton"
  | Helium3 => "Helium3" | Alpha => "Alpha"
  end%string.

(** ** The labelled configuration table *)

(** Position of a label in a list of labels; the length when absent. *)
Fixpoint labelIndex (l : string) (ls : list string) : nat :=
  match ls with
  | [] => 0
  | x :: ls' => if String.eqb l x then 0 else S (labelIndex l ls')
  end.

(** [LabeledArray<float>] built as
    [{defaultParameters[0], nSpecies, nParameters, particleNames, parameterNames}]:
    row-major values under the two fixed label lists. *)
Record LabeledArray : Type := { values : list float }.

Definition get (p : LabeledArray) (row col : string) : float :=
  nth (labelIndex row particleNames * nParameters + labelIndex col parameterNames)
      (values p) F32.zero.

(** [static constexpr float defaultParameters[nSpecies][nParameters]{}]. *)
Definition defaultParameters : LabeledArray :=
  {| values := repeat F32.zero (nSpecies * nParameters) |}.

(** ** Bethe-Bloch parameters *)

Record bbParams : Type := {
  bb1 : float;  (* Aleph Bethe Bloch parameter 1 *)
  bb2 : float;  (* Aleph Bethe Bloch parameter 2 *)
  bb3 : float;  (* Aleph Bethe Bloch parameter 3 *)
  bb4 : float;  (* Aleph Bethe Bloch parameter 4 *)
  bb5 : float;  (* Aleph Bethe Bloch parameter 5 *)
  mip : float;  (* MIP value *)
  exp : float;  (* Exponent of the charge factor *)
  res : float   (* Resolution *)
}.

(** The default member initialisers of [struct bbParams]. *)
Definition bbParams_default : bbParams := {|
  bb1 := F32.decimal 3209809958934784 17;   (* 0.03209809958934784f *)
  bb2 := F32.decimal 199768009185791 13;    (* 19.9768009185791f *)
  bb3 := F32.decimal 25266601063857674 32;  (* 2.5266601063857674e-16f *)
  bb4 := F32.decimal 27212300300598145 16;  (* 2.7212300300598145f *)
  bb5 := F32.decimal 6080920219421387 15;   (* 6.080920219421387f *)
  mip := F32.decimal 50 0;                  (* 50.f *)
  exp := F32.decimal 2299999952316284 15;   (* 2.299999952316284f *)
  res := F32.decimal 2 3                    (* 0.002f *)
|}.

(** [bb1 = v[0]; ... res = v[7];] for a vector already known to hold 8 values. *)
Definition assign (v : list float) : bbParams := {|
  bb1 := nth 0 v F32.zero; bb2 := nth 1 v F32.zero; bb3 := nth 2 v F32.zero;
  bb4 := nth 3 v F32.zero; bb5 := nth 4 v F32.zero; mip := nth 5 v F32.zero;
  exp := nth 6 v F32.zero; res := nth 7 v F32.zero
|}.

(** ** Logging *)

Inductive severity : Type := debug | info | error | fatal.

Record LogLine : Type := { level : severity; text : string }.

#[global] Instance severity_eq_dec : EqDecision severity.
Proof. solve_decision. Defined.

Definition line (lvl : severity) (txt : string) : LogLine :=
  {| level := lvl; text := txt |}.

(** ** Collaborators outside this repository *)

(** What the task uses of ROOT's [TH1F] and of its x axis.  [FindBin] is
    [TAxis::FindBin] on a label, which is not [const]: looking up a label
    may change the histogram, so it returns the histogram too.
    [GetBinContent] yields the stored [Float_t], which
    [static_cast<float>] of the returned [Double_t] gives back unchanged. *)
Class HistLike (H : Type) : Type := {
  GetNbinsX : H -> Z;
  FindBin : string -> H -> Z * H;
  GetBinContent : Z -> H -> float;
  (** [hasLabel l h]: a bin of the axis carries the label [l]; looking up
      such a label leaves the histogram as it is. *)
  hasLabel : string -> H -> bool;
  FindBin_hasLabel : forall l h, hasLabel l h = true -> snd (FindBin l h) = h
}.

(** The curve and the constants of the O2 libraries, and the tiny-binning
    encoder: [packValue x] is the integer that
    [aod::pidutils::packInTable<aod::pidtpc_tiny::binning>] appends for [x]. *)
Class Collaborators : Type := {
  BetheBlochAleph : float -> float -> float -> float -> float -> float -> float;
  pow : float -> float -> float;
  sMasses : ID -> float;
  sMasses2Z : ID -> float;
  packValue : float -> Z
}.

(** Modelled from the spec: [o2::track::pid_constants::sCharges], the fixed
    integer charge of a species, "charge 2 for Helium-3 and Alpha, 1
    otherwise". *)
Definition sCharges (id : ID) : positive :=
  match id with
  | Helium3 | Alpha => 2
  | _ => 1
  end%positive.

(** Modelled from the spec: the part of [InitContext] that
    [isTableRequiredInWorkflow] inspects, the names of the output tables
    that some consumer of the workflow asks for. *)
Record InitContext : Type := { requiredTables : gset string }.

Definition isTableRequiredInWorkflow (ctx : InitContext) (table : string) : bool :=
  bool_decide (table ∈ requiredTables ctx).

(** A row of [soa::Join<Trks, aod::pidTPC..>]: the columns the task reads. *)
Record Track : Type := {
  tpcInnerParam : float;
  tpcSignal : float;
  tpcNSigmaStore : ID -> Z;
  tpcExpSigma : ID -> float;
  tpcNSigma : ID -> float
}.

(** The configurables and process switches of the task. *)
Record Config : Type := {
  bbParameters : LabeledArray;
  fileParamBb : ID -> string;
  url : string;
  ccdbPath : string;
  ccdbTimestamp : Z;
  doprocess : ID -> bool;
  doprocessFull : ID -> bool
}.

(** The 8 labels read, in this order, from the table and from a histogram. *)
Definition bbLabels : list string :=
  ["bb1"; "bb2"; "bb3"; "bb4"; "bb5";
   "MIP value"; "Charge exponent"; "Resolution"]%string.

(** A well-formed calibration histogram: each of the 8 names labels a bin. *)
Definition wellFormed {H : Type} {HL : HistLike H} (h : H) : Prop :=
  Forall (fun l => hasLabel l h = true) bbLabels.

(** The 8 values such a histogram holds, in the order of [bbLabels]. *)
Definition binContents {H : Type} {HL : HistLike H} (h : H) : list float :=
  map (fun l => GetBinContent (fst (FindBin l h)) h) bbLabels.

(** ** The energy-loss and resolution models *)

Section Models.
Context {C : Collaborators}.

Definition charge (id : ID) : float := F32.of_int (sCharges id).

Definition BetheBlochLf (id : ID) (track : Track) (params : bbParams) : float :=
  let invmass := F32.div F32.one (sMasses2Z id) in
  F32.mul
    (F32.mul (mip params)
       (BetheBlochAleph (F32.mul (tpcInnerParam track) invmass)
          (bb1 params) (bb2 params) (bb3 params) (bb4 params) (bb5 params)))
    (pow (charge id) (exp params)).

Definition BetheBlochResolutionLf (id : ID) (track : Track) (params : bbParams) : float :=
  let invmass := F32.div F32.one (sMasses id) in
  let dEdx := BetheBlochLf id track params in
  let deltaP := F32.mul (res params) (F32.sqrt dEdx) in
  let bgDelta :=
    F32.mul (F32.mul (tpcInnerParam track) (F32.add F32.one deltaP)) invmass in
  let dEdx2 :=
    F32.mul
      (F32.mul (mip params)
         (BetheBlochAleph bgDelta
            (bb1 params) (bb2 params) (bb3 params) (bb4 params) (bb5 params)))
      (pow (charge id) (exp params)) in
  F32.abs (F32.sub dEdx2 dEdx).

(** The expected signal in the words of the specification, to be compared
    with [BetheBlochLf]: mip * curve(betaGamma) * charge^exp with "betaGamma
    = innerParam / restMass(species)", the single-precision quotient. *)
Definition expectedSignal_spec (id : ID) (track : Track) (params : bbParams) : float :=
  let betaGamma := F32.div (tpcInnerParam track) (sMasses2Z id) in
  F32.mul
    (F32.mul (mip params)
       (BetheBlochAleph betaGamma
          (bb1 params) (bb2 params) (bb3 params) (bb4 params) (bb5 params)))
    (pow (charge id) (exp params)).

(** The normalised residual that the process functions compute. *)
Definition nSigma (id : ID) (trk : Track) (params : bbParams) : float :=
  F32.div (F32.sub (tpcSignal trk) (BetheBlochLf id trk params))
          (BetheBlochResolutionLf id trk params).

End Models.

(** ** The task state and its monad *)

Inductive abort : Type :=
  | FatalLog          (* a [LOG(fatal)] line was written: the process stops *)
  | NullDereference.  (* a member was called through a null pointer *)

Section Task.
Context {H : Type} {HL : HistLike H} {C : Collaborators}.

(** A [TFile] opened for reading: its objects by key. *)
Definition TFile : Type := gmap string H.

(** [o2::ccdb::BasicCCDBManager]: the objects it serves by path (the
    pointer it hands out is to its own copy) and the settings [init] makes. *)
Record BasicCCDBManager : Type := {
  objects : gmap string H;
  URL : string;
  caching : bool;
  localObjectValidityChecking : bool;
  createdNotAfter : Z;
  timestamp : Z
}.

Record St : Type := {
  bb : ID -> bbParams;                      (* bbEl, bbMu, ..., bbAl *)
  tablePID : ID -> list Z;                  (* tablePIDEl, ... *)
  tablePIDFull : ID -> list (float * float);(* tablePIDFullEl, ... *)
  ccdb : BasicCCDBManager;
  files : gmap string TFile;                (* what TFile::Open can open *)
  clock : Z;                                (* system_clock::now(), in ms *)
  log : list LogLine;
  modelCalls : nat  (* calls of BetheBloch.. and BetheBlochRes.. made by process.. *)
}.

Inductive outcome (A : Type) : Type :=
  | Done (a : A) (s : St)
  | Aborted (why : abort) (s : St).
Arguments Done {A} a s.
Arguments Aborted {A} why s.

Definition M (A : Type) : Type := St -> outcome A.

Definition ret {A} (a : A) : M A := fun s => Done a s.

Definition bind {A B} (m : M A) (k : A -> M B) : M B :=
  fun s => match m s with
           | Done a s' => k a s'
           | Aborted why s' => Aborted why s'
           end.

Notation "x <- m ;; k" := (bind m (fun x => k))
  (at level 100, m at next level, right associativity).
Notation "m ;;; k" := (bind m (fun _ => k))
  (at level 100, right associativity).

Definition with_log (l : list LogLine) (s : St) : St :=
  {| bb := bb s; tablePID := tablePID s; tablePIDFull := tablePIDFull s;
     ccdb := ccdb s; files := files s; clock := clock s;
     log := l; modelCalls := modelCalls s |}.

Definition with_bb (f : ID -> bbParams) (s : St) : St :=
  {| bb := f; tablePID := tablePID s; tablePIDFull := tablePIDFull s;
     ccdb := ccdb s; files := files s; clock := clock s;
     log := log s; modelCalls := modelCalls s |}.

Definition with_ccdb (c : BasicCCDBManager) (s : St) : St :=
  {| bb := bb s; tablePID := tablePID s; tablePIDFull := tablePIDFull s;
     ccdb := c; files := files s; clock := clock s;
     log := log s; modelCalls := modelCalls s |}.

Definition with_tablePID (t : ID -> list Z) (s : St) : St :=
  {| bb := bb s; tablePID := t; tablePIDFull := tablePIDFull s;
     ccdb := ccdb s; files := files s; clock := clock s;
     log := log s; modelCalls := modelCalls s |}.

Definition with_tablePIDFull (t : ID -> list (float * float)) (s : St) : St :=
  {| bb := bb s; tablePID := tablePID s; tablePIDFull := t;
     ccdb := ccdb s; files := files s; clock := clock s;
     log := log s; modelCalls := modelCalls s |}.

Definition with_modelCalls (n : nat) (s : St) : St :=
  {| bb := bb s; tablePID := tablePID s; tablePIDFull := tablePIDFull s;
     ccdb := ccdb s; files := files s; clock := clock s;
     log := log s; modelCalls := n |}.

(** [f] with the entry of [id] replaced by [x]. *)
Definition upd {A} (id : ID) (x : A) (f : ID -> A) : ID -> A :=
  fun id' => if decide (id' = id) then x else f id'.

(** [LOG(level) << text].  Only the literal text and the names streamed
    into a line are kept; [LOG(fatal)] ends the process. *)
Definition LOG (lvl : severity) (txt : string) : M unit :=
  fun s =>
    let s' := with_log (log s ++ [line lvl txt]) s in
    match lvl with
    | fatal => Aborted FatalLog s'
    | _ => Done tt s'
    end.

(** Calling a member through a pointer. *)
Definition deref {A} (p : option A) : M A :=
  fun s => match p with
           | Some a => Done a s
           | None => Aborted NullDereference s
           end.

(** *** bbParams::setValues, one definition per overload

    [this] names the receiver among [bbEl], ..., [bbAl]. *)

Definition setValues_vector (this : ID) (v : list float) : M bool :=
  if negb (length v =? 8)%nat then
    LOG error "The vector of Bethe-Bloch parameters has the wrong size" ;;;
    ret false
  else
    LOG info "Before: set of parameters" ;;;
    (fun s => Done tt (with_bb (upd this (assign v) (bb s)) s)) ;;;
    LOG info "After: set of parameters" ;;;
    ret true.

Definition setValues_table (this : ID) (particle : string) (p : LabeledArray) : M bool :=
  if F32.ltb (get p particle "Set parameters") F32.one_and_a_half then
    LOG info ("Using default for " +:+ particle +:+ " input vector size < 1.5") ;;;
    ret false
  else
    let v := [get p particle "bb1";
              get p particle "bb2";
              get p particle "bb3";
              get p particle "bb4";
              get p particle "bb5";
              get p particle "MIP value";
              get p particle "Charge exponent";
              get p particle "Resolution"] in
    LOG info ("Setting custom Bethe-Bloch parameters for mass hypothesis " +:+ particle) ;;;
    setValues_vector this v.

(** [h->GetBinContent(axis->FindBin(label))]. *)
Definition readBin (label : string) (h : H) : float * H :=
  let (bin, h') := FindBin label h in (GetBinContent bin h', h').

(** The braced initialiser of [v]: its elements are evaluated left to right. *)
Fixpoint readBins (labels : list string) (h : H) : list float * H :=
  match labels with
  | [] => ([], h)
  | l :: ls =>
      let (x, h1) := readBin l h in
      let (xs, h2) := readBins ls h1 in
      (x :: xs, h2)
  end.

(** [setValues(TH1F* h)].  The histogram is changed in place by the
    lookups; the changed histogram is returned next to the result so that
    the caller can put it back where the pointer came from. *)
Definition setValues_TH1F (this : ID) (h : option H) : M (bool * H) :=
  h0 <- deref h ;;
  let n := GetNbinsX h0 in
  let (v, h1) := readBins bbLabels h0 in
  if negb (GetNbinsX h1 =? n)%Z then
    LOG error "The input histogram of Bethe-Bloch parameters has the wrong size" ;;;
    ret (false, h1)
  else
    LOG info "Setting custom Bethe-Bloch parameters from histogram" ;;;
    b <- setValues_vector this v ;;
    ret (b, h1).

Definition setValues_TFile (this : ID) (f : option TFile) : M bool :=
  f0 <- deref f ;;
  let h : option H := f0 !! "hpar"%string in
  match h with
  | None =>
      LOG error "The input file does not contain the histogram hpar" ;;;
      ret false
  | Some _ =>
      LOG info "Setting parameters from file" ;;;
      r <- setValues_TH1F this h ;;
      ret (fst r)
  end.

(** [ccdbObj->get<TH1F>(s)]: a pointer to the manager's object, null when
    there is none. *)
Definition ccdb_get (path : string) : M (option H) :=
  fun s => Done (objects (ccdb s) !! path) s.

(** The object behind that pointer after the callee changed it. *)
Definition ccdb_put (path : string) (h : H) : M unit :=
  fun s =>
    let c := ccdb s in
    Done tt (with_ccdb {| objects := <[path := h]> (objects c);
                          URL := URL c; caching := caching c;
                          localObjectValidityChecking := localObjectValidityChecking c;
                          createdNotAfter := createdNotAfter c;
                          timestamp := timestamp c |} s).

(** [TFile::Open(path, "READ")]: null when the file cannot be opened. *)
Definition TFile_Open (path : string) : M (option TFile) :=
  fun s => Done (files s !! path) s.

Definition setValues_cfg (this : ID) (name value : string) : M bool :=
  if (String.length value <=? 1)%nat then
    ret false
  else
    LOG info ("Loading parameters " +:+ name +:+ " from file " +:+ value) ;;;
    let s := value in
    if String.prefix "ccdb://" s then
      let s := String.substring 7 (String.length s - 7) s in
      h <- ccdb_get s ;;
      r <- setValues_TH1F this h ;;
      ccdb_put s (snd r) ;;;
      ret (fst r)
    else
      f <- TFile_Open value ;;
      setValues_TFile this f.

(** What a locator of more than one character addresses, if anything:
    the manager's object under the key that follows ["ccdb://"], or the
    file at that path. *)
Definition reachable (value : string) (s : St) : bool :=
  if String.prefix "ccdb://" value then
    bool_decide (is_Some (objects (ccdb s)
                            !! String.substring 7 (String.length value - 7) value))
  else
    bool_decide (is_Some (files s !! value)).

(** The histogram it leads to: that object, or the file's [hpar]. *)
Definition locate (value : string) (s : St) : option H :=
  if String.prefix "ccdb://" value then
    objects (ccdb s) !! String.substring 7 (String.length value - 7) value
  else
    f ← files s !! value; (f : TFile) !! "hpar"%string.

(** *** init *)

(** The two calls made for an enabled species,
    [bbXx.setValues("Xx", bbParameters); bbXx.setValues(fileParamBbXx, ccdb);],
    whose results are discarded. *)
Definition resolve (cfg : Config) (id : ID) : M unit :=
  _ <- setValues_table id (Particle id) (bbParameters cfg) ;;
  _ <- setValues_cfg id ("filePparamBb" +:+ Particle id) (fileParamBb cfg id) ;;
  ret tt.

(** One [if (doprocess.. || doprocessFull..) { ... } else { ... }] block
    of [init].  The Alpha block has no "Enabling" line. *)
Definition init_species (initContext : InitContext) (cfg : Config) (id : ID) : M unit :=
  if doprocess cfg id || doprocessFull cfg id then
    match id with
    | Alpha => ret tt
    | _ => LOG info ("Enabling " +:+ longName id)
    end ;;;
    resolve cfg id
  else
    LOG info ("Skipping " +:+ longName id) ;;;
    if isTableRequiredInWorkflow initContext ("pidTPCLf" +:+ Particle id)
       || isTableRequiredInWorkflow initContext ("pidTPCLfFull" +:+ Particle id)
    then
      LOG fatal ("Requested " +:+ longName id +:+ " table but not enabled in configuration")
    else
      ret tt.

Fixpoint init_blocks (initContext : InitContext) (cfg : Config) (ids : list ID) : M unit :=
  match ids with
  | [] => ret tt
  | id :: ids' => init_species initContext cfg id ;;; init_blocks initContext cfg ids'
  end.

(** The settings made on the manager at the end of [init]. *)
Definition ccdb_setup (cfg : Config) : M unit :=
  let ts := ccdbTimestamp cfg in
  (fun s =>
     let c := ccdb s in
     Done tt (with_ccdb {| objects := objects c;
                           URL := url cfg;
                           caching := true;
                           localObjectValidityChecking := true;
                           createdNotAfter := clock s;
                           timestamp := timestamp c |} s)) ;;;
  if negb (ts =? 0)%Z then
    LOG info "Initialising LF TPC PID response for fixed timestamp" ;;;
    (fun s =>
       let c := ccdb s in
       Done tt (with_ccdb {| objects := objects c;
                             URL := URL c;
                             caching := caching c;
                             localObjectValidityChecking := localObjectValidityChecking c;
                             createdNotAfter := createdNotAfter c;
                             timestamp := ts |} s))
  else
    ret tt.

Definition init (initContext : InitContext) (cfg : Config) : M unit :=
  init_blocks initContext cfg allSpecies ;;;
  ccdb_setup cfg.

(** *** process functions *)

(** [BetheBloch##Particle(trk)] and [BetheBlochRes##Particle(trk)] as
    called from a process function: the model is evaluated on the
    parameters of the species, and the call is counted. *)
Definition call_BetheBloch (id : ID) (trk : Track) : M float :=
  fun s => Done (BetheBlochLf id trk (bb s id))
                (with_modelCalls (S (modelCalls s)) s).

Definition call_BetheBlochRes (id : ID) (trk : Track) : M float :=
  fun s => Done (BetheBlochResolutionLf id trk (bb s id))
                (with_modelCalls (S (modelCalls s)) s).

(** The cursor call [tablePID##Particle(x)] appends one row. *)
Definition fill_tablePID (id : ID) (x : Z) : M unit :=
  fun s => Done tt (with_tablePID (upd id (tablePID s id ++ [x]) (tablePID s)) s).

Definition fill_tablePIDFull (id : ID) (sigma nsigma : float) : M unit :=
  fun s => Done tt (with_tablePIDFull
                      (upd id (tablePIDFull s id ++ [(sigma, nsigma)]) (tablePIDFull s)) s).

(** [for (auto const& trk : tracks) body]. *)
Fixpoint for_each (tracks : list Track) (body : Track -> M unit) : M unit :=
  match tracks with
  | [] => ret tt
  | trk :: rest => body trk ;;; for_each rest body
  end.

(** [process##Particle], the compact table.  [reserve] only sets a
    capacity and leaves the rows as they are. *)
Definition processParticle (cfg : Config) (id : ID) (tracks : list Track) : M unit :=
  LOG debug ("Filling table for particle: " +:+ Particle id) ;;;
  if F32.geb (get (bbParameters cfg) (Particle id) "Use default tiny") F32.one_and_a_half then
    for_each tracks (fun trk => fill_tablePID id (tpcNSigmaStore trk id))
  else
    for_each tracks (fun trk =>
      expected <- call_BetheBloch id trk ;;
      sigma <- call_BetheBlochRes id trk ;;
      fill_tablePID id
        (packValue (F32.div (F32.sub (tpcSignal trk) expected) sigma))).

(** [processFull##Particle], the full table. *)
Definition processFullParticle (cfg : Config) (id : ID) (tracks : list Track) : M unit :=
  LOG debug ("Filling table for particle: " +:+ Particle id) ;;;
  if F32.geb (get (bbParameters cfg) (Particle id) "Use default full") F32.one_and_a_half then
    for_each tracks (fun trk =>
      fill_tablePIDFull id (tpcExpSigma trk id) (tpcNSigma trk id))
  else
    for_each tracks (fun trk =>
      sigma <- call_BetheBlochRes id trk ;;
      expected <- call_BetheBloch id trk ;;
      sigma' <- call_BetheBlochRes id trk ;;
      fill_tablePIDFull id sigma
        (F32.div (F32.sub (tpcSignal trk) expected) sigma')).

(** Modelled from the spec: the host workflow engine, which runs [init]
    once at startup and only then, for a batch of tracks, the process
    functions whose switch is on. *)
Fixpoint process_enabled (switch : ID -> bool) (process : ID -> list Track -> M unit)
    (ids : list ID) (tracks : list Track) : M unit :=
  match ids with
  | [] => ret tt
  | id :: ids' =>
      (if switch id then process id tracks else ret tt) ;;;
      process_enabled switch process ids' tracks
  end.

Definition runTask (initContext : InitContext) (cfg : Config) (tracks : list Track) : M unit :=
  init initContext cfg ;;;
  process_enabled (doprocess cfg) (processParticle cfg) allSpecies tracks ;;;
  process_enabled (doprocessFull cfg) (processFullParticle cfg) allSpecies tracks.

(** The freshly constructed task: default parameters, empty tables. *)
Definition fresh (c : BasicCCDBManager) (fs : gmap string TFile) (now : Z) : St :=
  {| bb := fun _ => bbParams_default;
     tablePID := fun _ => [];
     tablePIDFull := fun _ => [];
     ccdb := c; files := fs; clock := now;
     log := []; modelCalls := 0 |}.

(** *** Vocabulary of the statements below *)

(** The tables and the call counter are the same in both states. *)
Definition sameTables (s s' : St) : Prop :=
  tablePID s' = tablePID s /\ tablePIDFull s' = tablePIDFull s /\
  modelCalls s' = modelCalls s.

(** What initialisation never changes: the tables, the call counter, and
    which locators can be served. *)
Definition initFrame (s s' : St) : Prop :=
  sameTables s s' /\ forall value, reachable value s' = reachable value s.

Definition enabled (cfg : Config) (id : ID) : bool :=
  doprocess cfg id || doprocessFull cfg id.

Definition requested (initContext : InitContext) (id : ID) : bool :=
  isTableRequiredInWorkflow initContext ("pidTPCLf" +:+ Particle id)
  || isTableRequiredInWorkflow initContext ("pidTPCLfFull" +:+ Particle id).

Definition fatalLine (id : ID) : LogLine :=
  line fatal ("Requested " +:+ longName id +:+ " table but not enabled in configuration").

(** How one block of [init] can end. *)
Definition blockOutcome (initContext : InitContext) (cfg : Config) (id : ID) (s : St)
    (o : outcome unit) : Prop :=
  match o with
  | Done _ s' =>
      initFrame s s' /\ (enabled cfg id = true \/ requested initContext id = false)
  | Aborted NullDereference s' =>
      initFrame s s' /\ enabled cfg id = true /\
      (1 < String.length (fileParamBb cfg id))%nat /\
      reachable (fileParamBb cfg id) s = false
  | Aborted FatalLog s' =>
      initFrame s s' /\ enabled cfg id = false /\ requested initContext id = true /\
      last (log s') = Some (fatalLine id)
  end.

(** A species whose block of [init] is passed in state [s]: when disabled,
    none of its tables is requested; when enabled, its locator is at most
    one character long or can be served. *)
Definition passes (initContext : InitContext) (cfg : Config) (s : St) (id : ID) : bool :=
  if enabled cfg id then
    (String.length (fileParamBb cfg id) <=? 1)%nat || reachable (fileParamBb cfg id) s
  else negb (requested initContext id).

End Task.

Arguments Done {H A} a s.
Arguments Aborted {H A} why s.

(** ** A histogram with a labelled axis

    An implementation of [HistLike] after ROOT 6's [TH1F] and [TAxis].
    Cell 0 of [fArray] is the underflow, cells 1 to [fNbins] are the bins
    and cell [fNbins + 1] is the overflow; [TH1::GetBinContent] reads the
    underflow for a bin number below 0 and the overflow for one above it.
    [fLabels] is the axis' list of labels, absent until a label is set or
    looked up.  [TAxis::SetBinLabel] makes an axis alphanumeric and
    extendable once every bin has a label.

    [TAxis::FindBin] on a label first creates the list when there is
    none, which makes the axis alphanumeric and extendable.  It answers
    the bin of a label of the list.  For a label that the list does not
    have it answers -1 and adds nothing when the axis is not alphanumeric
    and has a bin without label or cannot be extended; otherwise it adds
    the label in the bin after the labelled ones, after
    [TH1::LabelsInflate] has doubled the number of bins when every bin
    has a label already.  Doubling keeps the contents of the bins and
    clears the underflow and the overflow. *)

Record TH1F : Type := {
  fNbins : Z;
  fLabels : option (list (string * Z));
  fArray : list float;
  canExtend : bool;     (* TAxis::CanExtend *)
  alphanumeric : bool   (* TAxis::IsAlphanumeric *)
}.

Fixpoint findLabel (label : string) (labels : list (string * Z)) : option Z :=
  match labels with
  | [] => None
  | (l, bin) :: rest => if String.eqb label l then Some bin else findLabel label rest
  end.

Definition labelsOf (h : TH1F) : list (string * Z) :=
  match fLabels h with
  | Some labels => labels
  | None => []
  end.

(** [TAxis::HasBinWithoutLabel]. *)
Definition HasBinWithoutLabel (h : TH1F) : bool :=
  negb (Z.of_nat (length (labelsOf h)) =? fNbins h)%Z.

(** [TH1::LabelsInflate] on the x axis. *)
Definition LabelsInflate (h : TH1F) : TH1F :=
  let n := Z.to_nat (fNbins h) in
  {| fNbins := 2 * fNbins h;
     fLabels := fLabels h;
     fArray := F32.zero :: firstn n (skipn 1 (fArray h)) ++ repeat F32.zero (S n);
     canExtend := canExtend h;
     alphanumeric := alphanumeric h |}.

Definition TH1F_FindBin (label : string) (h : TH1F) : Z * TH1F :=
  let h0 :=
    match fLabels h with
    | Some _ => h
    | None =>
        {| fNbins := fNbins h; fLabels := Some []; fArray := fArray h;
           canExtend := true; alphanumeric := true |}
    end in
  match findLabel label (labelsOf h0) with
  | Some bin => (bin, h0)
  | None =>
      if negb (alphanumeric h0) && (HasBinWithoutLabel h0 || negb (canExtend h0))
      then ((-1)%Z, h0)
      else
        let n := Z.of_nat (length (labelsOf h0)) in
        let h1 := if (fNbins h0 <=? n)%Z then LabelsInflate h0 else h0 in
        ((n + 1)%Z,
         {| fNbins := fNbins h1;
            fLabels := Some (labelsOf h0 ++ [(label, (n + 1)%Z)]);
            fArray := fArray h1;
            canExtend := true;
            alphanumeric := true |})
  end.

Definition TH1F_GetBinContent (bin : Z) (h : TH1F) : float :=
  if (bin <? 0)%Z then nth 0 (fArray h) F32.zero
  else if (fNbins h + 1 <? bin)%Z then nth (Z.to_nat (fNbins h + 1)) (fArray h) F32.zero
  else nth (Z.to_nat bin) (fArray h) F32.zero.

Definition TH1F_hasLabel (label : string) (h : TH1F) : bool :=
  match fLabels h with
  | Some labels =>
      match findLabel label labels with
      | Some _ => true
      | None => false
      end
  | None => false
  end.

#[global, refine] Instance TH1F_HistLike : HistLike TH1F := {|
  GetNbinsX := fNbins;
  FindBin := TH1F_FindBin;
  GetBinContent := TH1F_GetBinContent;
  hasLabel := TH1F_hasLabel;
  FindBin_hasLabel := _
|}.
Proof.
  intros l h. unfold TH1F_hasLabel, TH1F_FindBin, labelsOf.
  destruct (fLabels h) as [labels |] eqn:E; [| discriminate].
  rewrite E. destruct (findLabel l labels); [reflexivity | discriminate].
Defined.

(** ** Sample inputs

    Stand-ins for the collaborators and a few histograms, to run the
    definitions on concrete inputs. *)

Definition truncate (x : float) : Z :=
  match x with
  | S754_finite s m e =>
      let a := if (0 <=? e)%Z then Z.shiftl (Z.pos m) e else Z.shiftr (Z.pos m) (- e) in
      Z.min 127 (Z.max (-127) (if s then - a else a))
  | S754_infinity s => if s then (-127)%Z else 127%Z
  | _ => 0%Z
  end.

Definition sampleMass (id : ID) : float :=
  match id with
  | Electron => F32.decimal 511 6
  | Muon => F32.decimal 105658 6
  | Pion => F32.decimal 139570 6
  | Kaon => F32.decimal 493677 6
  | Proton => F32.decimal 938272 6
  | Deuteron => F32.decimal 1875613 6
  | Triton => F32.decimal 2809250 6
  | Helium3 => F32.decimal 2809230 6
  | Alpha => F32.decimal 3727379 6
  end.

Definition sampleCollaborators : Collaborators := {|
  BetheBlochAleph := fun bg kp1 kp2 kp3 kp4 kp5 =>
    F32.mul kp1 (F32.add kp2 (F32.div F32.one (F32.mul bg bg)));
  pow := fun x y => x;
  sMasses := sampleMass;
  sMasses2Z := fun id => F32.div (sampleMass id) (F32.of_int (sCharges id));
  packValue := truncate
|}.

(** The table whose row of [id] is [row] (3 flags, then 8 values) and
    whose other rows are zero. *)
Definition tableWithRow (id : ID) (row : list float) : LabeledArray :=
  {| values :=
       repeat F32.zero (labelIndex (Particle id) particleNames * nParameters)
       ++ row
       ++ repeat F32.zero ((nSpecies - S (labelIndex (Particle id) particleNames)) * nParameters) |}.

(** The configurables as declared: zero table, empty locators, switches off. *)
Definition defaultConfig : Config := {|
  bbParameters := defaultParameters;
  fileParamBb := fun _ => EmptyString;
  url := "http://alice-ccdb.cern.ch";
  ccdbPath := "Analysis/PID/TPC/Response";
  ccdbTimestamp := (-1)%Z;
  doprocess := fun _ => false;
  doprocessFull := fun _ => false
|}.

(** A calibration histogram as it is meant to be: 8 bins, each labelled. *)
Definition hpar_good : TH1F := {|
  fNbins := 8;
  fLabels := Some [("bb1", 1); ("bb2", 2); ("bb3", 3); ("bb4", 4); ("bb5", 5);
                   ("MIP value", 6); ("Charge exponent", 7); ("Resolution", 8)]%string%Z;
  fArray := [F32.zero; F32.decimal 1 1; F32.decimal 2 0; F32.decimal 3 0;
             F32.decimal 4 0; F32.decimal 5 0; F32.decimal 60 0;
             F32.decimal 2 0; F32.decimal 1 2; F32.zero];
  canExtend := true;
  alphanumeric := true
|}.

(** The same with the last label misspelt: every bin is labelled, so the
    lookup of "Resolution" doubles the axis. *)
Definition hpar_misspelt : TH1F := {|
  fNbins := 8;
  fLabels := Some [("bb1", 1); ("bb2", 2); ("bb3", 3); ("bb4", 4); ("bb5", 5);
                   ("MIP value", 6); ("Charge exponent", 7); ("Resolutoin", 8)]%string%Z;
  fArray := fArray hpar_good;
  canExtend := true;
  alphanumeric := true
|}.

(** Seven of the 8 names label the first seven of 8 bins and the last bin
    has no label, so the axis is not alphanumeric; the underflow holds 7. *)
Definition hpar_partial : TH1F := {|
  fNbins := 8;
  fLabels := Some [("bb1", 1); ("bb2", 2); ("bb3", 3); ("bb4", 4); ("bb5", 5);
                   ("MIP value", 6); ("Charge exponent", 7)]%string%Z;
  fArray := [F32.decimal 7 0; F32.decimal 1 1; F32.decimal 2 0; F32.decimal 3 0;
             F32.decimal 4 0; F32.decimal 5 0; F32.decimal 60 0;
             F32.decimal 2 0; F32.decimal 1 2; F32.zero];
  canExtend := false;
  alphanumeric := false
|}.

(** Three bins and no label at all. *)
Definition hpar_unlabelled : TH1F := {|
  fNbins := 3;
  fLabels := None;
  fArray := [F32.decimal 7 0; F32.decimal 1 0; F32.decimal 2 0; F32.decimal 3 0; F32.zero];
  canExtend := false;
  alphanumeric := false
|}.

(** Ten bins and no label at all. *)
Definition hpar_positional : TH1F := {|
  fNbins := 10;
  fLabels := None;
  fArray := [F32.decimal 7 0; F32.decimal 11 0; F32.decimal 12 0; F32.decimal 13 0;
             F32.decimal 14 0; F32.decimal 15 0; F32.decimal 16 0; F32.decimal 17 0;
             F32.decimal 18 0; F32.decimal 19 0; F32.decimal 20 0; F32.zero];
  canExtend := false;
  alphanumeric := false
|}.

Definition two : float := F32.decimal 2 0.

(** A Kaon row of the table: the three flags, then 8 values. *)
Definition kaonRow (tiny full set : float) : list float :=
  [tiny; full; set;
   F32.decimal 1 2; F32.decimal 20 0; F32.decimal 3 0; F32.decimal 27 1;
   F32.decimal 6 0; F32.decimal 45 0; F32.decimal 23 1; F32.decimal 4 3].

Definition tableKaonSet : LabeledArray := tableWithRow Kaon (kaonRow two two two).
Definition tableKaonNaN : LabeledArray :=
  tableWithRow Kaon (kaonRow F32.zero F32.zero F32.nan).

Definition sampleFiles : gmap string (gmap string TH1F) :=
  <["good.root"%string := <["hpar"%string := hpar_good]> ∅]>
  (<["misspelt.root"%string := <["hpar"%string := hpar_misspelt]> ∅]>
  (<["partial.root"%string := <["hpar"%string := hpar_partial]> ∅]>
  (<["unlabelled.root"%string := <["hpar"%string := hpar_unlabelled]> ∅]>
  (<["positional.root"%string := <["hpar"%string := hpar_positional]> ∅]>
  (<["empty.root"%string := ∅]> ∅))))).

Definition sampleManager : BasicCCDBManager (H := TH1F) := {|
  objects := <["Analysis/PID/TPC/Ka"%string := hpar_good]>
             (<["Users/shared/hpar"%string := hpar_misspelt]> ∅);
  URL := EmptyString;
  caching := true;
  localObjectValidityChecking := false;
  createdNotAfter := 0;
  timestamp := 0
|}.

Definition sampleState : St (H := TH1F) := fresh sampleManager sampleFiles 0.

(** The declared configuration with another table, Kaon locator and
    Kaon switches. *)
Definition kaonConfig (table : LabeledArray) (locator : string) (on : bool) : Config := {|
  bbParameters := table;
  fileParamBb := fun id => match id with Kaon => locator | _ => EmptyString end;
  url := url defaultConfig;
  ccdbPath := ccdbPath defaultConfig;
  ccdbTimestamp := ccdbTimestamp defaultConfig;
  doprocess := fun id => match id with Kaon => on | _ => false end;
  doprocessFull := fun _ => false
|}.

(** Electrons are processed with a locator that leads nowhere; Kaons are not. *)
Definition electronConfig (locator : string) : Config := {|
  bbParameters := defaultParameters;
  fileParamBb := fun id => match id with Electron => locator | _ => EmptyString end;
  url := url defaultConfig;
  ccdbPath := ccdbPath defaultConfig;
  ccdbTimestamp := ccdbTimestamp defaultConfig;
  doprocess := fun id => match id with Electron => true | _ => false end;
  doprocessFull := fun _ => false
|}.

(** A workflow in which some consumer asks for the compact Kaon table. *)
Definition kaonRequested : InitContext := {| requiredTables := {["pidTPCLfKa"%string]} |}.

Definition sampleTracks : list Track :=
  [ {| tpcInnerParam := F32.decimal 5 1; tpcSignal := F32.decimal 50 0;
       tpcNSigmaStore := fun _ => 17%Z;
       tpcExpSigma := fun _ => F32.decimal 31 1;
       tpcNSigma := fun _ => F32.decimal 25 1 |};
    {| tpcInnerParam := F32.decimal 12 1; tpcSignal := F32.decimal 61 0;
       tpcNSigmaStore := fun _ => (-4)%Z;
       tpcExpSigma := fun _ => F32.decimal 28 1;
       tpcNSigma := fun _ => F32.nan |} ].

(** A track of inner momentum 1 and signal 50. *)
Definition unitTrack : Track := {|
  tpcInnerParam := F32.one; tpcSignal := F32.decimal 50 0;
  tpcNSigmaStore := fun _ => 0%Z;
  tpcExpSigma := fun _ => F32.zero;
  tpcNSigma := fun _ => F32.zero
|}.

(** A track of inner momentum 0.5 and signal 50, and one of inner
    momentum 0.007. *)
Definition halfTrack : Track := {|
  tpcInnerParam := F32.decimal 5 1; tpcSignal := F32.decimal 50 0;
  tpcNSigmaStore := fun _ => 0%Z;
  tpcExpSigma := fun _ => F32.zero;
  tpcNSigma := fun _ => F32.zero
|}.

Definition slowTrack : Track := {|
  tpcInnerParam := F32.decimal 7 3; tpcSignal := F32.decimal 50 0;
  tpcNSigmaStore := fun _ => 0%Z;
  tpcExpSigma := fun _ => F32.zero;
  tpcNSigma := fun _ => F32.zero
|}.

(** The default parameters with a NaN scale constant. *)
Definition nanParams : bbParams := {|
  bb1 := bb1 bbParams_default; bb2 := bb2 bbParams_default;
  bb3 := bb3 bbParams_default; bb4 := bb4 bbParams_default;
  bb5 := bb5 bbParams_default;
  mip := F32.nan;
  exp := exp bbParams_default; res := res bbParams_default
|}.

(** ** Vocabulary of the further properties *)

(** A number that is not an infinity: a zero or a finite value. *)
Definition isFinite (x : float) : bool :=
  match x with
  | S754_zero _ | S754_finite _ _ _ => true
  | _ => false
  end.

Definition isZero (x : float) : bool :=
  match x with
  | S754_zero _ => true
  | _ => false
  end.

(** Negative and not a zero: a negative finite value or minus infinity. *)
Definition isNegative (x : float) : bool :=
  match x with
  | S754_finite true _ _ | S754_infinity true => true
  | _ => false
  end.

(** The 8 entries of a row of the table, each under the name it is read by. *)
Definition fromTable (p : LabeledArray) (particle : string) : bbParams := {|
  bb1 := get p particle "bb1";
  bb2 := get p particle "bb2";
  bb3 := get p particle "bb3";
  bb4 := get p particle "bb4";
  bb5 := get p particle "bb5";
  mip := get p particle "MIP value";
  exp := get p particle "Charge exponent";
  res := get p particle "Resolution"
|}.

Section Vocabulary.
Context {H : Type} {HL : HistLike H} {C : Collaborators}.

(** The contents of the 8 bins of a histogram, each under the label it is
    looked up by. *)
Definition fromHistogram (h : H) : bbParams := {|
  bb1 := GetBinContent (fst (FindBin "bb1" h)) h;
  bb2 := GetBinContent (fst (FindBin "bb2" h)) h;
  bb3 := GetBinContent (fst (FindBin "bb3" h)) h;
  bb4 := GetBinContent (fst (FindBin "bb4" h)) h;
  bb5 := GetBinContent (fst (FindBin "bb5" h)) h;
  mip := GetBinContent (fst (FindBin "MIP value" h)) h;
  exp := GetBinContent (fst (FindBin "Charge exponent" h)) h;
  res := GetBinContent (fst (FindBin "Resolution" h)) h
|}.

(** The row that [process##Particle] appends for a track, and the number of
    model calls it makes for it, on parameters [b]. *)
Definition compactRow (cfg : Config) (id : ID) (b : ID -> bbParams) (trk : Track) : Z :=
  if F32.geb (get (bbParameters cfg) (Particle id) "Use default tiny") F32.one_and_a_half
  then tpcNSigmaStore trk id
  else packValue (nSigma id trk (b id)).

Definition compactCalls (cfg : Config) (id : ID) : nat :=
  if F32.geb (get (bbParameters cfg) (Particle id) "Use default tiny") F32.one_and_a_half
  then 0 else 2.

(** The same for [processFull##Particle]. *)
Definition fullRow (cfg : Config) (id : ID) (b : ID -> bbParams) (trk : Track)
    : float * float :=
  if F32.geb (get (bbParameters cfg) (Particle id) "Use default full") F32.one_and_a_half
  then (tpcExpSigma trk id, tpcNSigma trk id)
  else (BetheBlochResolutionLf id trk (b id), nSigma id trk (b id)).

Definition fullCalls (cfg : Config) (id : ID) : nat :=
  if F32.geb (get (bbParameters cfg) (Particle id) "Use default full") F32.one_and_a_half
  then 0 else 3.

(** What filling the compact table of [id] leaves alone: the parameters,
    the full tables, the compact tables of the other species, the services
    and the log. *)
Definition compactFrame (id : ID) (s s' : St (H := H)) : Prop :=
  bb s' = bb s /\ tablePIDFull s' = tablePIDFull s /\
  (forall id', id' <> id -> tablePID s' id' = tablePID s id') /\
  ccdb s' = ccdb s /\ files s' = files s /\ clock s' = clock s /\ log s' = log s.

Definition fullFrame (id : ID) (s s' : St (H := H)) : Prop :=
  bb s' = bb s /\ tablePID s' = tablePID s /\
  (forall id', id' <> id -> tablePIDFull s' id' = tablePIDFull s id') /\
  ccdb s' = ccdb s /\ files s' = files s /\ clock s' = clock s /\ log s' = log s.

(** The state a computation ends in, however it ends. *)
Definition final {A : Type} (o : outcome (H := H) A) : St :=
  match o with
  | Done _ s => s
  | Aborted _ s => s
  end.

(** The settings of the manager, as opposed to the objects it serves. *)
Definition sameSettings (c c' : BasicCCDBManager (H := H)) : Prop :=
  URL c' = URL c /\ caching c' = caching c /\
  localObjectValidityChecking c' = localObjectValidityChecking c /\
  createdNotAfter c' = createdNotAfter c /\ timestamp c' = timestamp c.

(** What loading the parameters of the species in [P] leaves alone: the
    parameters of the other species, the tables and the call counter, the
    settings of the manager, the files and the clock; the log only grows. *)
Definition loadFrame (P : ID -> Prop) (s s' : St (H := H)) : Prop :=
  (forall id, ~ P id -> bb s' id = bb s id) /\
  sameTables s s' /\
  sameSettings (ccdb s) (ccdb s') /\
  files s' = files s /\ clock s' = clock s /\
  exists l, log s' = log s ++ l.

End Vocabulary.

(** ** Further sample inputs *)

(** A track whose signal is exactly the expected pion signal at the member
    initialisers, and a parameter set with a negative scale constant. *)
Definition exactTrack : Track := {|
  tpcInnerParam := F32.one;
  tpcSignal := BetheBlochLf (C := sampleCollaborators) Pion unitTrack bbParams_default;
  tpcNSigmaStore := fun _ => 0%Z;
  tpcExpSigma := fun _ => F32.zero;
  tpcNSigma := fun _ => F32.zero
|}.

Definition negativeParams : bbParams := {|
  bb1 := bb1 bbParams_default; bb2 := bb2 bbParams_default;
  bb3 := bb3 bbParams_default; bb4 := bb4 bbParams_default;
  bb5 := bb5 bbParams_default;
  mip := F32.sub F32.zero (F32.decimal 50 0);
  exp := exp bbParams_default; res := res bbParams_default
|}.

(** A workflow in which no consumer asks for a table of the task. *)
Definition nothingRequested : InitContext := {| requiredTables := ∅ |}.

(** Every species is processed, with the declared table and one locator
    for all of them. *)
Definition sharedConfig (locator : string) : Config := {|
  bbParameters := defaultParameters;
  fileParamBb := fun _ => locator;
  url := url defaultConfig;
  ccdbPath := ccdbPath defaultConfig;
  ccdbTimestamp := ccdbTimestamp defaultConfig;
  doprocess := fun _ => true;
  doprocessFull := fun _ => false
|}.

(** * Properties *)

(** ** Comparisons of single-precision floats *)

Lemma SFcompare_antisym (x y : float) (c : comparison) :
  SFcompare x y = Some c -> SFcompare y x = Some (CompOpp c).
Proof.
  destruct x as [sx | sx | | sx mx ex], y as [sy | sy | | sy my ey];
    simpl; intros Hc; try discriminate;
    try (destruct sx; try destruct sy; inversion Hc; reflexivity);
    try (destruct sy; inversion Hc; reflexivity).
  destruct sx, sy; inversion Hc as [Hc']; clear Hc; try reflexivity;
    rewrite (Z.compare_antisym ex ey);
    change (Pcompare my mx Eq) with (Pos.compare my mx);
    change (Pcompare mx my Eq) with (Pos.compare mx my);
    rewrite (Pos.compare_antisym mx my);
    destruct (ex ?= ey)%Z; simpl; try reflexivity;
    destruct (mx ?= my)%positive; reflexivity.
Qed.

(** [x >= y] excludes [x < y]. *)
Lemma geb_not_ltb (x y : float) : F32.geb x y = true -> F32.ltb x y = false.
Proof.
  unfold F32.geb, F32.ltb, SFleb, SFltb.
  destruct (SFcompare y x) as [c |] eqn:Hc; [| discriminate].
  rewrite (SFcompare_antisym _ _ _ Hc).
  destruct c; simpl; congruence.
Qed.

(** Without a NaN operand, [x >= y] is the negation of [x < y]. *)
Lemma geb_negb_ltb (x y : float) :
  F32.is_nan x = false -> F32.is_nan y = false ->
  F32.geb x y = negb (F32.ltb x y).
Proof.
  unfold F32.geb, F32.ltb, SFleb, SFltb. intros Hx Hy.
  destruct (SFcompare y x) as [c |] eqn:Hc.
  - rewrite (SFcompare_antisym _ _ _ Hc). destruct c; reflexivity.
  - destruct x, y; simpl in *; discriminate.
Qed.

Lemma abs_not_negative (x : float) : F32.ltb (F32.abs x) F32.zero = false.
Proof. destruct x as [s | s | | s m e]; reflexivity. Qed.

Lemma abs_nan_or_nonnegative (x : float) :
  F32.is_nan (F32.abs x) = true \/ F32.geb (F32.abs x) F32.zero = true.
Proof. destruct x as [s | s | | s m e]; simpl; auto. Qed.

Lemma mul_nan_l (x : float) : F32.mul F32.nan x = F32.nan.
Proof. destruct x; reflexivity. Qed.

Lemma sub_nan_l (x : float) : F32.sub F32.nan x = F32.nan.
Proof. destruct x; reflexivity. Qed.

(** ** The literals of the source as bit patterns *)

Lemma bbParams_default_bits :
  bbParams_default =
  {| bb1 := S754_finite false 8616268 (-28);
     bb2 := S754_finite false 10473597 (-19);
     bb3 := S754_finite false 9545452 (-75);
     bb4 := S754_finite false 11413666 (-22);
     bb5 := S754_finite false 12752614 (-21);
     mip := S754_finite false 13107200 (-18);
     exp := S754_finite false 9646899 (-22);
     res := S754_finite false 8589935 (-32) |}.
Proof. vm_compute. reflexivity. Qed.

Lemma one_and_a_half_bits : F32.one_and_a_half = S754_finite false 12582912 (-23).
Proof. vm_compute. reflexivity. Qed.

(** Each default is a binary32 nearest to the decimal literal it is
    written as in the source. *)
Lemma bbParams_default_nearest :
  F32.nearest 3209809958934784 (10 ^ 17) (bb1 bbParams_default) = true /\
  F32.nearest 199768009185791 (10 ^ 13) (bb2 bbParams_default) = true /\
  F32.nearest 25266601063857674 (10 ^ 32) (bb3 bbParams_default) = true /\
  F32.nearest 27212300300598145 (10 ^ 16) (bb4 bbParams_default) = true /\
  F32.nearest 6080920219421387 (10 ^ 15) (bb5 bbParams_default) = true /\
  F32.nearest 50 1 (mip bbParams_default) = true /\
  F32.nearest 2299999952316284 (10 ^ 15) (exp bbParams_default) = true /\
  F32.nearest 2 1000 (res bbParams_default) = true /\
  F32.nearest 15 10 F32.one_and_a_half = true.
Proof. vm_compute. repeat split. Qed.

(** ** Labels *)

Lemma bbLabels_parameterNames : bbLabels = skipn 3 parameterNames.
Proof. reflexivity. Qed.

Lemma Particle_particleNames : map Particle allSpecies = particleNames.
Proof. reflexivity. Qed.

Lemma get_defaultParameters (row col : string) :
  get defaultParameters row col = F32.zero.
Proof. unfold get, defaultParameters, values. apply nth_repeat. Qed.

(** ** The overloads of setValues, step by step *)

(** Past the length test of a locator that is longer than one character. *)
Ltac long_locator value :=
  destruct (Nat.leb_spec (String.length value) 1) as [? | _]; [lia |].

(** Run the [LOG] line that a computation starts with. *)
Ltac step_LOG := unfold bind at 1; unfold LOG at 1; cbn match.

Section Resolution.
Context {H : Type} {HL : HistLike H}.
Implicit Types (st : St (H := H)) (this id : ID) (h : H) (v : list float).

Lemma setValues_vector_wrong_size this v st :
  length v <> 8%nat ->
  setValues_vector this v st =
  Done false
    (with_log (log st ++ [line error "The vector of Bethe-Bloch parameters has the wrong size"]) st).
Proof.
  intros Hlen. unfold setValues_vector.
  destruct (Nat.eqb_spec (length v) 8) as [E | _]; [contradiction |].
  reflexivity.
Qed.

Lemma setValues_vector_size8 this v st :
  length v = 8%nat ->
  setValues_vector this v st =
  Done true
    (with_log ((log st ++ [line info "Before: set of parameters"])
               ++ [line info "After: set of parameters"])
       (with_bb (upd this (assign v) (bb st)) st)).
Proof.
  intros Hlen. unfold setValues_vector. rewrite Hlen. reflexivity.
Qed.

Lemma readBins_length (labels : list string) h :
  length (fst (readBins labels h)) = length labels.
Proof.
  revert h. induction labels as [| l ls IH]; intros h; [reflexivity |].
  simpl. destruct (readBin l h) as [x h1].
  specialize (IH h1). destruct (readBins ls h1) as [xs h2].
  simpl in *. congruence.
Qed.

(** Looking up labels that the axis has leaves the histogram alone and
    reads the contents of their bins. *)
Lemma readBins_hasLabel (labels : list string) h :
  Forall (fun l => hasLabel l h = true) labels ->
  readBins labels h =
  (map (fun l => GetBinContent (fst (FindBin l h)) h) labels, h).
Proof.
  induction 1 as [| l ls Hl _ IH]; [reflexivity |].
  simpl. unfold readBin.
  pose proof (FindBin_hasLabel l h Hl) as Hsame.
  destruct (FindBin l h) as [bin h']. simpl in Hsame. subst h'.
  rewrite IH. reflexivity.
Qed.

Lemma wellFormed_readBins h :
  wellFormed h -> readBins bbLabels h = (binContents h, h).
Proof. apply readBins_hasLabel. Qed.

Lemma setValues_TH1F_null this st :
  setValues_TH1F this None st = Aborted NullDereference st.
Proof. reflexivity. Qed.

Lemma setValues_TH1F_rejected this h st :
  GetNbinsX (snd (readBins bbLabels h)) <> GetNbinsX h ->
  setValues_TH1F this (Some h) st =
  Done (false, snd (readBins bbLabels h))
    (with_log (log st ++ [line error "The input histogram of Bethe-Bloch parameters has the wrong size"]) st).
Proof.
  intros Hn. unfold setValues_TH1F, bind, deref.
  destruct (readBins bbLabels h) as [v h1]. cbn [snd] in *.
  destruct (Z.eqb_spec (GetNbinsX h1) (GetNbinsX h)) as [E | _]; [contradiction |].
  reflexivity.
Qed.

Lemma setValues_TH1F_accepted this h st :
  GetNbinsX (snd (readBins bbLabels h)) = GetNbinsX h ->
  setValues_TH1F this (Some h) st =
  Done (true, snd (readBins bbLabels h))
    (with_log
       (((log st ++ [line info "Setting custom Bethe-Bloch parameters from histogram"])
         ++ [line info "Before: set of parameters"])
        ++ [line info "After: set of parameters"])
       (with_bb (upd this (assign (fst (readBins bbLabels h))) (bb st)) st)).
Proof.
  intros Hn. unfold setValues_TH1F, bind, deref.
  pose proof (readBins_length bbLabels h) as Hlen.
  destruct (readBins bbLabels h) as [v h1]. cbn [fst snd] in *.
  rewrite Hn, Z.eqb_refl. cbn [negb].
  unfold LOG at 1. cbn match.
  rewrite setValues_vector_size8 by exact Hlen.
  reflexivity.
Qed.

Lemma setValues_TFile_null this st :
  setValues_TFile this None st = Aborted NullDereference st.
Proof. reflexivity. Qed.

Lemma setValues_TFile_no_hpar this (f : TFile) st :
  f !! "hpar"%string = None ->
  setValues_TFile this (Some f) st =
  Done false
    (with_log (log st ++ [line error "The input file does not contain the histogram hpar"]) st).
Proof.
  intros Hf. unfold setValues_TFile, bind, deref. rewrite Hf. reflexivity.
Qed.

Lemma setValues_TFile_hpar this (f : TFile) h st :
  f !! "hpar"%string = Some h ->
  setValues_TFile this (Some f) st =
  match setValues_TH1F this (Some h)
          (with_log (log st ++ [line info "Setting parameters from file"]) st) with
  | Done r s => Done (fst r) s
  | Aborted why s => Aborted why s
  end.
Proof.
  intros Hf. unfold setValues_TFile, bind, deref. rewrite Hf. reflexivity.
Qed.

End Resolution.

Section Locator.
Context {H : Type} {HL : HistLike H}.
Implicit Types (st : St (H := H)) (this id : ID) (h : H).

Lemma setValues_cfg_short this name value st :
  (String.length value <= 1)%nat ->
  setValues_cfg this name value st = Done false st.
Proof.
  intros Hlen. unfold setValues_cfg.
  destruct (Nat.leb_spec (String.length value) 1) as [_ | Hgt]; [reflexivity | lia].
Qed.

(** The fetch that finds nothing: the null pointer is passed on and a
    member is called through it. *)
Lemma setValues_cfg_unreachable this name value st :
  (1 < String.length value)%nat ->
  reachable value st = false ->
  setValues_cfg this name value st =
  Aborted NullDereference
    (with_log (log st ++ [line info ("Loading parameters " +:+ name +:+ " from file " +:+ value)]) st).
Proof.
  intros Hlen Hreach. unfold setValues_cfg, reachable in *.
  long_locator value.
  unfold bind, LOG, ccdb_get, TFile_Open.
  destruct (String.prefix "ccdb://" value).
  - apply bool_decide_eq_false in Hreach.
    cbn [ccdb with_log].
    destruct (objects (ccdb st) !! _) as [h |] eqn:E.
    + exfalso. apply Hreach. eauto.
    + reflexivity.
  - apply bool_decide_eq_false in Hreach.
    cbn [files with_log].
    destruct (files st !! value) as [f |] eqn:E.
    + exfalso. apply Hreach. eauto.
    + reflexivity.
Qed.

Lemma setValues_cfg_accepted this name value h st :
  (1 < String.length value)%nat ->
  locate value st = Some h ->
  GetNbinsX (snd (readBins bbLabels h)) = GetNbinsX h ->
  exists st',
    setValues_cfg this name value st = Done true st' /\
    bb st' = upd this (assign (fst (readBins bbLabels h))) (bb st) /\
    sameTables st st'.
Proof.
  intros Hlen Hloc Hn. unfold setValues_cfg, locate in *.
  long_locator value.
  step_LOG.
  destruct (String.prefix "ccdb://" value).
  - unfold bind, ccdb_get. cbn [ccdb with_log]. rewrite Hloc.
    rewrite setValues_TH1F_accepted by exact Hn.
    eexists. split; [reflexivity |]. cbn. repeat split.
  - unfold bind, TFile_Open. cbn [files with_log].
    destruct (files st !! value) as [f |]; [| discriminate].
    cbn in Hloc. rewrite (setValues_TFile_hpar _ _ _ _ Hloc).
    rewrite setValues_TH1F_accepted by exact Hn.
    eexists. split; [reflexivity |]. cbn. repeat split.
Qed.

(** The file that opens but holds no [hpar]: the one failed fetch that is
    checked for. *)
Lemma setValues_cfg_no_hpar this name value (f : TFile) st :
  (1 < String.length value)%nat ->
  String.prefix "ccdb://" value = false ->
  files st !! value = Some f ->
  f !! "hpar"%string = None ->
  exists st',
    setValues_cfg this name value st = Done false st' /\
    bb st' = bb st /\
    last (log st') =
      Some (line error "The input file does not contain the histogram hpar").
Proof.
  intros Hlen Hpre Hf Hh. unfold setValues_cfg.
  long_locator value.
  rewrite Hpre. step_LOG.
  unfold bind, TFile_Open. cbn [files with_log]. rewrite Hf.
  rewrite (setValues_TFile_no_hpar _ _ _ Hh).
  eexists. split; [reflexivity |]. cbn. split; [reflexivity |].
  apply last_snoc.
Qed.

End Locator.

(** ** The parameter cascade *)

Section Cascade.
Context {H : Type} {HL : HistLike H}.
Implicit Types (st : St (H := H)) (this id : ID) (h : H) (p : LabeledArray).

Lemma setValues_table_below this particle p st :
  F32.ltb (get p particle "Set parameters") F32.one_and_a_half = true ->
  setValues_table this particle p st =
  Done false
    (with_log (log st ++ [line info ("Using default for " +:+ particle +:+ " input vector size < 1.5")]) st).
Proof. intros Hflag. unfold setValues_table. rewrite Hflag. reflexivity. Qed.

Lemma setValues_table_not_below this particle p st :
  F32.ltb (get p particle "Set parameters") F32.one_and_a_half = false ->
  setValues_table this particle p st =
  Done true
    (with_log
       (((log st ++ [line info ("Setting custom Bethe-Bloch parameters for mass hypothesis " +:+ particle)])
         ++ [line info "Before: set of parameters"])
        ++ [line info "After: set of parameters"])
       (with_bb (upd this (assign (map (get p particle) bbLabels)) (bb st)) st)).
Proof.
  intros Hflag. unfold setValues_table. rewrite Hflag.
  step_LOG.
  rewrite setValues_vector_size8 by reflexivity.
  reflexivity.
Qed.

Lemma upd_same {A} id (x : A) (f : ID -> A) : upd id x f id = x.
Proof. unfold upd. destruct (decide (id = id)); [reflexivity | contradiction]. Qed.

Lemma upd_other {A} id id' (x : A) (f : ID -> A) : id' <> id -> upd id x f id' = f id'.
Proof. intros Hne. unfold upd. destruct (decide (id' = id)); [contradiction | reflexivity]. Qed.

Lemma resolve_without_override (cfg : Config) id st :
  F32.ltb (get (bbParameters cfg) (Particle id) "Set parameters") F32.one_and_a_half = true ->
  (String.length (fileParamBb cfg id) <= 1)%nat ->
  resolve cfg id st =
  Done tt
    (with_log (log st ++ [line info ("Using default for " +:+ Particle id +:+ " input vector size < 1.5")]) st).
Proof.
  intros Hflag Hlen. unfold resolve, bind.
  rewrite setValues_table_below by exact Hflag.
  rewrite setValues_cfg_short by exact Hlen.
  reflexivity.
Qed.

(** C6.  With the "Set parameters" flag of the species below 1.5 and a
    locator of at most one character, resolving a species whose
    parameters are the member initialisers ends normally and leaves them
    exactly at those compiled-in values; no parameter set is touched. *)
Theorem resolve_keeps_compiled_in_defaults (cfg : Config) id st :
  F32.ltb (get (bbParameters cfg) (Particle id) "Set parameters") F32.one_and_a_half = true ->
  (String.length (fileParamBb cfg id) <= 1)%nat ->
  bb st id = bbParams_default ->
  exists st',
    resolve cfg id st = Done tt st' /\
    bb st' = bb st /\
    bb st' id =
      {| bb1 := F32.decimal 3209809958934784 17;   (* 0.03209809958934784 *)
         bb2 := F32.decimal 199768009185791 13;    (* 19.9768009185791 *)
         bb3 := F32.decimal 25266601063857674 32;  (* 2.5266601063857674e-16 *)
         bb4 := F32.decimal 27212300300598145 16;  (* 2.7212300300598145 *)
         bb5 := F32.decimal 6080920219421387 15;   (* 6.080920219421387 *)
         mip := F32.decimal 50 0;                  (* 50 *)
         exp := F32.decimal 2299999952316284 15;   (* 2.299999952316284 *)
         res := F32.decimal 2 3 |}.                (* 0.002 *)
Proof.
  intros Hflag Hlen Hdef.
  rewrite resolve_without_override by assumption.
  eexists. split; [reflexivity |]. split; [reflexivity |].
  cbn [bb with_log]. exact Hdef.
Qed.

(** C10.  The compiled-in parameters are the same for all species: from
    the freshly constructed task, two species without a table override
    and without a locator resolve to the same 8 constants, those of the
    member initialisers; and every entry of the table's compile-time
    default is zero. *)
Theorem defaults_are_not_species_specific (cfg : Config) (s1 s2 : ID)
    (c : BasicCCDBManager) (fs : gmap string TFile) (now : Z) :
  F32.ltb (get (bbParameters cfg) (Particle s1) "Set parameters") F32.one_and_a_half = true ->
  F32.ltb (get (bbParameters cfg) (Particle s2) "Set parameters") F32.one_and_a_half = true ->
  (String.length (fileParamBb cfg s1) <= 1)%nat ->
  (String.length (fileParamBb cfg s2) <= 1)%nat ->
  exists st1 st2,
    resolve cfg s1 (fresh c fs now) = Done tt st1 /\
    resolve cfg s2 (fresh c fs now) = Done tt st2 /\
    bb st1 s1 = bb st2 s2 /\
    bb st1 s1 = bbParams_default /\
    (forall id param, get defaultParameters (Particle id) param = F32.zero).
Proof.
  intros Hf1 Hf2 Hl1 Hl2.
  rewrite !resolve_without_override by assumption.
  eexists _, _. split; [reflexivity |]. split; [reflexivity |].
  repeat split. intros id param. apply get_defaultParameters.
Qed.

(** C7.  The config-table source overwrites all 8 constants of the
    species, from the 8 table entries in the order of [bbLabels], exactly
    when its "Set parameters" flag is not below 1.5: for a flag that is a
    number this is the test "at least 1.5", and a NaN flag overwrites too.
    The vector built from the table always has 8 entries; with a flag below
    1.5 every parameter set is as before.  The vector setter rejects a
    vector whose length is not 8 with an error line and no change, and
    takes over a vector of length 8. *)
Theorem table_overrides_unless_flag_below this particle p (v : list float) st :
  let flag := get p particle "Set parameters" in
  (exists b st',
      setValues_table this particle p st = Done b st' /\
      b = negb (F32.ltb flag F32.one_and_a_half) /\
      bb st' = (if b then upd this (assign (map (get p particle) bbLabels)) (bb st)
                else bb st) /\
      length (map (get p particle) bbLabels) = 8%nat /\
      (F32.is_nan flag = false -> b = F32.geb flag F32.one_and_a_half) /\
      (F32.is_nan flag = true -> b = true)) /\
  (length v <> 8%nat ->
     exists st',
       setValues_vector this v st = Done false st' /\
       bb st' = bb st /\
       last (log st') =
         Some (line error "The vector of Bethe-Bloch parameters has the wrong size")) /\
  (length v = 8%nat ->
     exists st',
       setValues_vector this v st = Done true st' /\
       bb st' = upd this (assign v) (bb st)).
Proof.
  intros flag. split; [| split].
  - exists (negb (F32.ltb flag F32.one_and_a_half)).
    assert (Hnum : F32.is_nan flag = false ->
                   negb (F32.ltb flag F32.one_and_a_half) = F32.geb flag F32.one_and_a_half).
    { intros Hflag. symmetry. apply geb_negb_ltb; [exact Hflag | reflexivity]. }
    assert (Hnan : F32.is_nan flag = true -> negb (F32.ltb flag F32.one_and_a_half) = true).
    { intros Hflag. destruct flag; try discriminate. reflexivity. }
    destruct (F32.ltb flag F32.one_and_a_half) eqn:Hlt.
    + eexists. rewrite setValues_table_below by exact Hlt.
      split; [reflexivity |]. repeat split; assumption.
    + eexists. rewrite setValues_table_not_below by exact Hlt.
      split; [reflexivity |]. repeat split; assumption.
  - intros Hlen. rewrite setValues_vector_wrong_size by exact Hlen.
    eexists. split; [reflexivity |]. split; [reflexivity |].
    cbn [log with_log]. apply last_snoc.
  - intros Hlen. rewrite setValues_vector_size8 by exact Hlen.
    eexists. split; reflexivity.
Qed.

(** C2.  When the table override is valid (flag at least 1.5) and the
    locator, longer than one character, leads to a well-formed
    histogram, resolution ends with each of the 8 constants of the
    species equal to the content of the histogram bin labelled with its
    name, whatever the table holds; the 8 table entries were in place
    after the first step and have been replaced; the other species are
    left alone. *)
Theorem external_source_wins (cfg : Config) id h st :
  F32.geb (get (bbParameters cfg) (Particle id) "Set parameters") F32.one_and_a_half = true ->
  (1 < String.length (fileParamBb cfg id))%nat ->
  locate (fileParamBb cfg id) st = Some h ->
  wellFormed h ->
  exists st2 st',
    setValues_table id (Particle id) (bbParameters cfg) st = Done true st2 /\
    bb st2 id =
      {| bb1 := get (bbParameters cfg) (Particle id) "bb1";
         bb2 := get (bbParameters cfg) (Particle id) "bb2";
         bb3 := get (bbParameters cfg) (Particle id) "bb3";
         bb4 := get (bbParameters cfg) (Particle id) "bb4";
         bb5 := get (bbParameters cfg) (Particle id) "bb5";
         mip := get (bbParameters cfg) (Particle id) "MIP value";
         exp := get (bbParameters cfg) (Particle id) "Charge exponent";
         res := get (bbParameters cfg) (Particle id) "Resolution" |} /\
    resolve cfg id st = Done tt st' /\
    bb st' id =
      {| bb1 := GetBinContent (fst (FindBin "bb1" h)) h;
         bb2 := GetBinContent (fst (FindBin "bb2" h)) h;
         bb3 := GetBinContent (fst (FindBin "bb3" h)) h;
         bb4 := GetBinContent (fst (FindBin "bb4" h)) h;
         bb5 := GetBinContent (fst (FindBin "bb5" h)) h;
         mip := GetBinContent (fst (FindBin "MIP value" h)) h;
         exp := GetBinContent (fst (FindBin "Charge exponent" h)) h;
         res := GetBinContent (fst (FindBin "Resolution" h)) h |} /\
    (forall id', id' <> id -> bb st' id' = bb st id').
Proof.
  intros Hflag Hlen Hloc Hwf.
  apply geb_not_ltb in Hflag.
  pose proof (wellFormed_readBins h Hwf) as Hread.
  unfold resolve, bind.
  rewrite setValues_table_not_below by exact Hflag.
  match goal with
  | |- context [setValues_cfg id ?n ?v ?s] =>
      destruct (setValues_cfg_accepted id n v h s Hlen Hloc) as (st' & Hrun & Hbb & _)
  end.
  { rewrite Hread. reflexivity. }
  rewrite Hrun. eexists _, st'. split; [reflexivity |].
  split; [cbn [bb with_log with_bb]; rewrite upd_same; reflexivity |].
  split; [reflexivity |].
  rewrite Hbb, Hread. cbn [fst bb with_log with_bb]. split.
  - rewrite upd_same. reflexivity.
  - intros id' Hne. rewrite !upd_other by exact Hne. reflexivity.
Qed.

(** C5, as the code has it.  When the 8 lookups change the number of bins
    of the histogram that the locator leads to, the source is rejected:
    [setValues] answers false and ends normally, every parameter set and
    table is as before, and the lines written are info lines followed by
    one error line, so nothing fatal. *)
Theorem grown_histogram_is_rejected this name value h st :
  (1 < String.length value)%nat ->
  locate value st = Some h ->
  GetNbinsX (snd (readBins bbLabels h)) <> GetNbinsX h ->
  exists st' l,
    setValues_cfg this name value st = Done false st' /\
    bb st' = bb st /\
    log st' =
      log st ++ l ++
      [line error "The input histogram of Bethe-Bloch parameters has the wrong size"] /\
    Forall (fun x => level x = info) l /\
    sameTables st st'.
Proof.
  intros Hlen Hloc Hn. unfold setValues_cfg, locate in *.
  long_locator value.
  step_LOG.
  destruct (String.prefix "ccdb://" value).
  - unfold bind, ccdb_get. cbn [ccdb with_log]. rewrite Hloc.
    rewrite setValues_TH1F_rejected by exact Hn.
    eexists _, [_]. split; [reflexivity |].
    cbn. rewrite <- app_assoc. repeat split. repeat constructor.
  - unfold bind, TFile_Open. cbn [files with_log].
    destruct (files st !! value) as [f |]; [| discriminate].
    cbn in Hloc. rewrite (setValues_TFile_hpar _ _ _ _ Hloc).
    rewrite setValues_TH1F_rejected by exact Hn.
    eexists _, [_; _]. split; [reflexivity |].
    cbn. rewrite <- !app_assoc. repeat split. repeat constructor.
Qed.

(** C4, what the code does.  A locator of more than one character that
    the manager or the file system cannot serve makes resolution stop on
    a null-pointer dereference, for every species and whatever the table
    step did before. *)
Theorem failed_fetch_is_dereferenced (cfg : Config) id st :
  (1 < String.length (fileParamBb cfg id))%nat ->
  reachable (fileParamBb cfg id) st = false ->
  exists st', resolve cfg id st = Aborted NullDereference st' /\
              (forall id', id' <> id -> bb st' id' = bb st id').
Proof.
  intros Hlen Hreach. unfold resolve, bind.
  destruct (F32.ltb (get (bbParameters cfg) (Particle id) "Set parameters")
              F32.one_and_a_half) eqn:Hflag.
  - rewrite setValues_table_below by exact Hflag.
    rewrite setValues_cfg_unreachable by assumption.
    eexists. split; [reflexivity |]. intros; reflexivity.
  - rewrite setValues_table_not_below by exact Hflag.
    rewrite setValues_cfg_unreachable by assumption.
    eexists. split; [reflexivity |]. intros id' Hne.
    cbn [bb with_log with_bb]. apply upd_other, Hne.
Qed.

End Cascade.

(** ** Initialisation *)

Section Init.
Context {H : Type} {HL : HistLike H} {C : Collaborators}.
Implicit Types (st : St (H := H)) (this id : ID) (h : H).

Lemma initFrame_refl st : initFrame st st.
Proof. repeat split. Qed.

Lemma initFrame_trans st1 st2 st3 :
  initFrame st1 st2 -> initFrame st2 st3 -> initFrame st1 st3.
Proof.
  intros [(A1 & B1 & C1) R1] [(A2 & B2 & C2) R2].
  split; [repeat split; congruence |].
  intros value. rewrite R2. apply R1.
Qed.

(** States that differ in parameters and log lines only. *)
Lemma initFrame_same_services st st' :
  sameTables st st' -> ccdb st' = ccdb st -> files st' = files st ->
  initFrame st st'.
Proof.
  intros Ht Hc Hf. split; [exact Ht |]. intros value.
  unfold reachable. rewrite Hc, Hf. reflexivity.
Qed.

(** Putting back an object that the manager already has. *)
Lemma initFrame_ccdb_put key h h' st :
  objects (ccdb st) !! key = Some h ->
  exists st', ccdb_put key h' st = Done tt st' /\ initFrame st st' /\
              bb st' = bb st /\ log st' = log st.
Proof.
  intros Hkey. unfold ccdb_put. eexists. split; [reflexivity |].
  split; [| split; reflexivity].
  split; [repeat split |].
  intros value. unfold reachable. cbn [ccdb files objects with_ccdb].
  destruct (String.prefix "ccdb://" value); [| reflexivity].
  apply bool_decide_ext.
  destruct (decide (String.substring 7 (String.length value - 7) value = key)) as [-> | Hne].
  - rewrite lookup_insert_eq, Hkey. split; eauto.
  - rewrite lookup_insert_ne by congruence. reflexivity.
Qed.

(** A histogram that is there is looked up and either taken or rejected;
    the services are not involved. *)
Lemma setValues_TH1F_some this h st :
  exists b st',
    setValues_TH1F this (Some h) st = Done (b, snd (readBins bbLabels h)) st' /\
    sameTables st st' /\ ccdb st' = ccdb st /\ files st' = files st.
Proof.
  destruct (Z.eq_dec (GetNbinsX (snd (readBins bbLabels h))) (GetNbinsX h)) as [E | E].
  - rewrite setValues_TH1F_accepted by exact E. eexists _, _. split; [reflexivity |].
    repeat split.
  - rewrite setValues_TH1F_rejected by exact E. eexists _, _. split; [reflexivity |].
    repeat split.
Qed.

(** [setValues] from a locator either ends normally or stops on the null
    pointer of a fetch that found nothing. *)
Lemma setValues_cfg_outcomes this name value st :
  (exists b st', setValues_cfg this name value st = Done b st' /\ initFrame st st') \/
  (exists st', setValues_cfg this name value st = Aborted NullDereference st' /\
               initFrame st st' /\
               (1 < String.length value)%nat /\ reachable value st = false).
Proof.
  destruct (Nat.leb_spec (String.length value) 1) as [Hle | Hgt].
  { left. rewrite setValues_cfg_short by exact Hle.
    eexists _, _. split; [reflexivity | apply initFrame_refl]. }
  destruct (reachable value st) eqn:Hreach.
  2:{ right. rewrite setValues_cfg_unreachable by assumption.
      eexists. split; [reflexivity |].
      split; [apply initFrame_same_services; repeat split | auto]. }
  left. unfold setValues_cfg, reachable in *.
  long_locator value.
  step_LOG.
  set (st0 := with_log _ st).
  destruct (String.prefix "ccdb://" value).
  - unfold bind at 1. unfold ccdb_get.
    apply bool_decide_eq_true in Hreach.
    destruct Hreach as [h Hh]. change (ccdb st0) with (ccdb st). rewrite Hh.
    unfold bind at 1.
    destruct (setValues_TH1F_some this h st0) as (b & st1 & Hrun & Ht & Hc & Hf).
    rewrite Hrun. unfold bind at 1. cbn [snd fst].
    destruct (initFrame_ccdb_put (String.substring 7 (String.length value - 7) value)
                h (snd (readBins bbLabels h)) st1) as (st2 & Hput & Hframe & _).
    { rewrite Hc. exact Hh. }
    rewrite Hput. eexists _, _. split; [reflexivity |].
    eapply initFrame_trans; [| exact Hframe].
    apply initFrame_same_services; assumption.
  - unfold bind at 1. unfold TFile_Open.
    apply bool_decide_eq_true in Hreach.
    destruct Hreach as [f Hf]. change (files st0) with (files st). rewrite Hf.
    destruct (f !! "hpar"%string) as [h |] eqn:Hh.
    + rewrite (setValues_TFile_hpar _ _ _ _ Hh).
      destruct (setValues_TH1F_some this h
                  (with_log (log st0 ++ [line info "Setting parameters from file"]) st0))
        as (b & st1 & Hrun & Ht & Hc & Hf1).
      rewrite Hrun. eexists _, _. split; [reflexivity |].
      apply initFrame_same_services; assumption.
    + rewrite (setValues_TFile_no_hpar _ _ _ Hh).
      eexists _, _. split; [reflexivity |].
      apply initFrame_same_services; repeat split.
Qed.

Lemma setValues_table_outcomes this particle p st :
  exists b st',
    setValues_table this particle p st = Done b st' /\ initFrame st st'.
Proof.
  destruct (F32.ltb (get p particle "Set parameters") F32.one_and_a_half) eqn:Hflag.
  - rewrite setValues_table_below by exact Hflag. eexists _, _.
    split; [reflexivity |]. apply initFrame_same_services; repeat split.
  - rewrite setValues_table_not_below by exact Hflag. eexists _, _.
    split; [reflexivity |]. apply initFrame_same_services; repeat split.
Qed.

Lemma resolve_outcomes (cfg : Config) id st :
  (exists st', resolve cfg id st = Done tt st' /\ initFrame st st') \/
  (exists st', resolve cfg id st = Aborted NullDereference st' /\
               initFrame st st' /\
               (1 < String.length (fileParamBb cfg id))%nat /\
               reachable (fileParamBb cfg id) st = false).
Proof.
  unfold resolve, bind.
  destruct (setValues_table_outcomes id (Particle id) (bbParameters cfg) st)
    as (b & st1 & Hrun1 & Hframe1).
  rewrite Hrun1.
  destruct (setValues_cfg_outcomes id ("filePparamBb" +:+ Particle id) (fileParamBb cfg id) st1)
    as [(b2 & st2 & Hrun2 & Hframe2) | (st2 & Hrun2 & Hframe2 & Hlen & Hreach)];
    rewrite Hrun2.
  - left. eexists. split; [reflexivity |]. eapply initFrame_trans; eassumption.
  - right. eexists. split; [reflexivity |].
    split; [eapply initFrame_trans; eassumption |].
    split; [exact Hlen |].
    destruct Hframe1 as [_ Hr]. rewrite <- Hr. exact Hreach.
Qed.

Lemma init_species_outcomes initContext cfg id st :
  blockOutcome initContext cfg id st (init_species initContext cfg id st).
Proof.
  unfold init_species, blockOutcome.
  fold (enabled cfg id). fold (requested initContext id).
  destruct (enabled cfg id) eqn:Hen.
  - unfold bind at 1.
    assert (Hlog : exists st1,
               match id with
               | Alpha => ret tt
               | _ => LOG info ("Enabling " +:+ longName id)
               end st = Done tt st1 /\ initFrame st st1).
    { destruct id; eexists; (split; [reflexivity |]);
        apply initFrame_same_services; repeat split. }
    destruct Hlog as (st1 & Hrun1 & Hframe1). rewrite Hrun1.
    destruct (resolve_outcomes cfg id st1)
      as [(st2 & Hrun2 & Hframe2) | (st2 & Hrun2 & Hframe2 & Hlen & Hreach)];
      rewrite Hrun2.
    + split; [eapply initFrame_trans; eassumption | auto].
    + split; [eapply initFrame_trans; eassumption |].
      split; [reflexivity |]. split; [exact Hlen |].
      destruct Hframe1 as [_ Hr]. rewrite <- Hr. exact Hreach.
  - unfold bind, LOG at 1. cbn match.
    destruct (requested initContext id) eqn:Hreq.
    + unfold LOG. split; [apply initFrame_same_services; repeat split |].
      split; [reflexivity |]. split; [reflexivity |].
      cbn [log with_log]. apply last_snoc.
    + unfold ret. split; [apply initFrame_same_services; repeat split | auto].
Qed.

(** How the sequence of blocks can end: normally when no disabled species
    has a requested table; on the null pointer of an enabled species whose
    locator cannot be served; on the fatal line of a disabled species
    with a requested table. *)
Lemma init_blocks_outcomes initContext cfg ids st :
  match init_blocks initContext cfg ids st with
  | Done _ st' =>
      initFrame st st' /\
      Forall (fun id => enabled cfg id = true \/ requested initContext id = false) ids
  | Aborted NullDereference st' =>
      initFrame st st' /\
      Exists (fun id => enabled cfg id = true /\
                        (1 < String.length (fileParamBb cfg id))%nat /\
                        reachable (fileParamBb cfg id) st = false) ids
  | Aborted FatalLog st' =>
      initFrame st st' /\
      Exists (fun id => enabled cfg id = false /\ requested initContext id = true /\
                        last (log st') = Some (fatalLine id)) ids
  end.
Proof.
  revert st. induction ids as [| id ids IH]; intros st.
  - cbn. split; [apply initFrame_refl | constructor].
  - cbn [init_blocks]. unfold bind at 1.
    pose proof (init_species_outcomes initContext cfg id st) as Hblock.
    unfold blockOutcome in Hblock.
    destruct (init_species initContext cfg id st) as [[] st1 | [] st1].
    + destruct Hblock as [Hframe1 Hok]. specialize (IH st1).
      destruct (init_blocks initContext cfg ids st1) as [[] st2 | [] st2].
      * destruct IH as [Hframe2 Hall].
        split; [eapply initFrame_trans; eassumption | constructor; assumption].
      * destruct IH as [Hframe2 Hex].
        split; [eapply initFrame_trans; eassumption |].
        apply Exists_cons_tl. exact Hex.
      * destruct IH as [Hframe2 Hex].
        split; [eapply initFrame_trans; eassumption |].
        apply Exists_cons_tl. eapply Exists_impl; [exact Hex |].
        cbn beta. intros id' (He & Hl & Hr). repeat split; try assumption.
        destruct Hframe1 as [_ Hreach]. rewrite <- Hreach. exact Hr.
    + destruct Hblock as (Hframe1 & He & Hreq & Hlast).
      split; [exact Hframe1 |]. apply Exists_cons_hd. auto.
    + destruct Hblock as (Hframe1 & He & Hl & Hr).
      split; [exact Hframe1 |]. apply Exists_cons_hd. auto.
Qed.

Lemma ccdb_setup_done (cfg : Config) st :
  exists st', ccdb_setup cfg st = Done tt st' /\ sameTables st st' /\ bb st' = bb st.
Proof.
  unfold ccdb_setup, bind. destruct (negb (ccdbTimestamp cfg =? 0)%Z);
    eexists; (split; [reflexivity |]); repeat split.
Qed.

Lemma In_allSpecies id : In id allSpecies.
Proof. destruct id; cbn; tauto. Qed.

(** *** The blocks in terms of [passes] *)

Lemma passes_initFrame initContext (cfg : Config) st st' id :
  initFrame st st' -> passes initContext cfg st' id = passes initContext cfg st id.
Proof. intros [_ Hr]. unfold passes. rewrite Hr. reflexivity. Qed.

Lemma passes_spec initContext (cfg : Config) st :
  (forall id, passes initContext cfg st id = true) <->
  (forall id, enabled cfg id = false -> requested initContext id = false) /\
  (forall id, enabled cfg id = true ->
              (1 < String.length (fileParamBb cfg id))%nat ->
              reachable (fileParamBb cfg id) st = true).
Proof.
  unfold passes. split.
  - intros Hall. split; intros id Hen; specialize (Hall id); rewrite Hen in Hall.
    + apply negb_true_iff, Hall.
    + intros Hlen. apply orb_true_iff in Hall. destruct Hall as [Hle | Hr]; [| exact Hr].
      apply Nat.leb_le in Hle. lia.
  - intros [Hoff Hon] id. destruct (enabled cfg id) eqn:Hen.
    + destruct (Nat.leb_spec (String.length (fileParamBb cfg id)) 1) as [_ | Hgt];
        [reflexivity |].
      cbn [orb]. apply Hon; assumption.
    + rewrite Hoff by exact Hen. reflexivity.
Qed.

(** A locator that cannot be served stops the resolution, whatever the
    table step did. *)
Lemma resolve_unreachable (cfg : Config) id st :
  (1 < String.length (fileParamBb cfg id))%nat ->
  reachable (fileParamBb cfg id) st = false ->
  exists st', resolve cfg id st = Aborted NullDereference st'.
Proof.
  intros Hlen Hreach. unfold resolve, bind.
  destruct (setValues_table_outcomes id (Particle id) (bbParameters cfg) st)
    as (b & st1 & Hrun1 & [_ Hr]).
  rewrite Hrun1, setValues_cfg_unreachable; [eauto | exact Hlen |].
  rewrite Hr. exact Hreach.
Qed.

Lemma init_species_unreachable initContext (cfg : Config) id st :
  enabled cfg id = true ->
  (1 < String.length (fileParamBb cfg id))%nat ->
  reachable (fileParamBb cfg id) st = false ->
  exists st', init_species initContext cfg id st = Aborted NullDereference st'.
Proof.
  intros Hen Hlen Hreach. unfold init_species. fold (enabled cfg id). rewrite Hen.
  unfold bind at 1.
  destruct id; unfold LOG, ret; cbn match;
    apply resolve_unreachable; assumption.
Qed.

(** How a block ends. *)
Lemma init_species_result initContext (cfg : Config) id st :
  match init_species initContext cfg id st with
  | Done _ st' => passes initContext cfg st id = true /\ initFrame st st'
  | Aborted why st' =>
      passes initContext cfg st id = false /\
      why = (if enabled cfg id then NullDereference else FatalLog) /\
      (enabled cfg id = false -> initFrame st st' /\ last (log st') = Some (fatalLine id))
  end.
Proof.
  pose proof (init_species_outcomes initContext cfg id st) as Hblock.
  unfold blockOutcome in Hblock. unfold passes.
  destruct (init_species initContext cfg id st) as [[] st1 | [] st1] eqn:Hrun.
  - destruct Hblock as [Hframe Hok]. split; [| exact Hframe].
    destruct (enabled cfg id) eqn:Hen.
    + destruct (Nat.leb_spec (String.length (fileParamBb cfg id)) 1) as [_ | Hgt];
        [reflexivity |].
      cbn [orb]. destruct (reachable (fileParamBb cfg id) st) eqn:Hreach; [reflexivity |].
      destruct (init_species_unreachable initContext cfg id st Hen Hgt Hreach) as (st2 & Hrun2).
      congruence.
    + destruct Hok as [Hok | Hok]; [discriminate |]. rewrite Hok. reflexivity.
  - destruct Hblock as (Hframe & Hen & Hreq & Hlast). rewrite Hen, Hreq. auto.
  - destruct Hblock as (_ & Hen & Hlen & Hreach). rewrite Hen, Hreach.
    destruct (Nat.leb_spec (String.length (fileParamBb cfg id)) 1) as [Hle | _]; [lia |].
    repeat split; discriminate.
Qed.

Lemma init_blocks_app initContext (cfg : Config) (pre post : list ID) st :
  init_blocks initContext cfg (pre ++ post) st =
  bind (init_blocks initContext cfg pre) (fun _ => init_blocks initContext cfg post) st.
Proof.
  revert st. induction pre as [| id pre IH]; intros st; [reflexivity |].
  cbn [init_blocks app]. unfold bind in *.
  destruct (init_species initContext cfg id st) as [[] st1 | why st1]; [| reflexivity].
  apply IH.
Qed.

(** The blocks of species that all pass are run to their end. *)
Lemma init_blocks_pass initContext (cfg : Config) (ids : list ID) st :
  (forall id, In id ids -> passes initContext cfg st id = true) ->
  exists st', init_blocks initContext cfg ids st = Done tt st' /\ initFrame st st'.
Proof.
  revert st. induction ids as [| id ids IH]; intros st Hall.
  - exists st. split; [reflexivity | apply initFrame_refl].
  - cbn [init_blocks]. unfold bind.
    pose proof (init_species_result initContext cfg id st) as Hres.
    destruct (init_species initContext cfg id st) as [[] st1 | why st1].
    + destruct Hres as [_ Hframe1].
      destruct (IH st1) as (st2 & Hrun2 & Hframe2).
      { intros id' Hin. rewrite (passes_initFrame _ _ _ _ _ Hframe1).
        apply Hall. right. exact Hin. }
      exists st2. split; [exact Hrun2 | eapply initFrame_trans; eassumption].
    + destruct Hres as [Hfail _]. rewrite Hall in Hfail by (left; reflexivity). discriminate.
Qed.

(** Conversely, blocks that were run to their end all passed. *)
Lemma init_blocks_done initContext (cfg : Config) (ids : list ID) st st' :
  init_blocks initContext cfg ids st = Done tt st' ->
  forall id, In id ids -> passes initContext cfg st id = true.
Proof.
  revert st. induction ids as [| id ids IH]; intros st Hrun id' Hin; [destruct Hin |].
  cbn [init_blocks] in Hrun. unfold bind in Hrun.
  pose proof (init_species_result initContext cfg id st) as Hres.
  destruct (init_species initContext cfg id st) as [[] st1 | why st1]; [| discriminate].
  destruct Hres as [Hpass Hframe1].
  destruct Hin as [<- | Hin]; [exact Hpass |].
  rewrite <- (passes_initFrame _ _ _ _ _ Hframe1). eapply IH; eassumption.
Qed.

(** The first block that is not passed ends the run of the blocks: on the
    null pointer when its species is enabled, on the fatal line that
    names it when it is not. *)
Lemma init_blocks_first_failure initContext (cfg : Config) (pre post : list ID) id st :
  (forall id', In id' pre -> passes initContext cfg st id' = true) ->
  passes initContext cfg st id = false ->
  exists st',
    init_blocks initContext cfg (pre ++ id :: post) st =
      Aborted (if enabled cfg id then NullDereference else FatalLog) st' /\
    (enabled cfg id = false -> initFrame st st' /\ last (log st') = Some (fatalLine id)).
Proof.
  intros Hpre Hfail.
  rewrite init_blocks_app. unfold bind at 1.
  destruct (init_blocks_pass initContext cfg pre st Hpre) as (st1 & Hrun1 & Hframe1).
  rewrite Hrun1. cbn [init_blocks]. unfold bind at 1.
  pose proof (init_species_result initContext cfg id st1) as Hres.
  rewrite (passes_initFrame _ _ _ _ _ Hframe1), Hfail in Hres.
  destruct (init_species initContext cfg id st1) as [[] st2 | why st2].
  - destruct Hres as [Hres _]. discriminate.
  - destruct Hres as (_ & -> & Hlast).
    exists st2. split; [reflexivity |].
    intros Hen. destruct (Hlast Hen) as [Hframe2 Hline].
    split; [eapply initFrame_trans; eassumption | exact Hline].
Qed.

(** The species before the first one that does not pass. *)
Lemma first_failure (f : ID -> bool) (ids : list ID) :
  (exists id, In id ids /\ f id = false) ->
  exists pre id post,
    ids = pre ++ id :: post /\ (forall id', In id' pre -> f id' = true) /\ f id = false.
Proof.
  induction ids as [| id0 ids IH]; intros (id & Hin & Hf); [destruct Hin |].
  destruct (f id0) eqn:Hf0.
  - destruct IH as (pre & id1 & post & -> & Hpre & Hf1).
    { exists id. split; [| exact Hf]. destruct Hin as [-> | Hin]; [congruence | exact Hin]. }
    exists (id0 :: pre), id1, post. split; [reflexivity |]. split; [| exact Hf1].
    intros id' [<- | Hin']; [exact Hf0 | apply Hpre, Hin'].
  - exists [], id0, ids. split; [reflexivity |]. split; [intros id' [] | exact Hf0].
Qed.

(** C9, what the code does.  A species has both process switches off and
    one of its two tables is requested by the workflow.  Where the
    locator of every enabled species is at most one character long or can
    be served, [init] stops on a [LOG(fatal)] line "Requested .. table
    but not enabled in configuration" of a species with both switches off
    and a requested table, and so does the task before any process
    function runs, with every output table and the call counter as they
    were.  Where instead the first block that is not passed is the one
    of an enabled species whose locator cannot be served, its null
    pointer is dereferenced in that block and no fatal line is reached. *)
Theorem requested_table_of_disabled_species_stops_init
    (initContext : InitContext) (cfg : Config) id (tracks : list Track) st :
  doprocess cfg id = false ->
  doprocessFull cfg id = false ->
  isTableRequiredInWorkflow initContext ("pidTPCLf" +:+ Particle id) = true \/
  isTableRequiredInWorkflow initContext ("pidTPCLfFull" +:+ Particle id) = true ->
  ((forall id', enabled cfg id' = true ->
                (1 < String.length (fileParamBb cfg id'))%nat ->
                reachable (fileParamBb cfg id') st = true) ->
   exists id' st',
     init initContext cfg st = Aborted FatalLog st' /\
     runTask initContext cfg tracks st = Aborted FatalLog st' /\
     enabled cfg id' = false /\ requested initContext id' = true /\
     last (log st') = Some (fatalLine id') /\
     tablePID st' = tablePID st /\
     tablePIDFull st' = tablePIDFull st /\
     modelCalls st' = modelCalls st) /\
  (forall (pre post : list ID) id0,
     allSpecies = pre ++ id0 :: post ->
     (forall id', In id' pre -> passes initContext cfg st id' = true) ->
     enabled cfg id0 = true ->
     (1 < String.length (fileParamBb cfg id0))%nat ->
     reachable (fileParamBb cfg id0) st = false ->
     exists st',
       init initContext cfg st = Aborted NullDereference st' /\
       runTask initContext cfg tracks st = Aborted NullDereference st').
Proof.
  intros Hoff Hoff' Hreq.
  assert (Hen : enabled cfg id = false) by (unfold enabled; rewrite Hoff, Hoff'; reflexivity).
  assert (Hrq : requested initContext id = true).
  { unfold requested. destruct Hreq as [-> | ->]; [reflexivity | apply orb_true_r]. }
  assert (Hfail : passes initContext cfg st id = false)
    by (unfold passes; rewrite Hen, Hrq; reflexivity).
  split.
  - intros Hserved.
    destruct (first_failure (passes initContext cfg st) allSpecies)
      as (pre & id' & post & Hsplit & Hpre & Hfail').
    { exists id. split; [apply In_allSpecies | exact Hfail]. }
    assert (Hen' : enabled cfg id' = false).
    { destruct (enabled cfg id') eqn:E; [| reflexivity].
      unfold passes in Hfail'. rewrite E in Hfail'.
      destruct (Nat.leb_spec (String.length (fileParamBb cfg id')) 1) as [_ | Hgt];
        [discriminate |].
      rewrite (Hserved id' E Hgt) in Hfail'. discriminate. }
    assert (Hrq' : requested initContext id' = true).
    { unfold passes in Hfail'. rewrite Hen' in Hfail'.
      destruct (requested initContext id'); [reflexivity | discriminate]. }
    destruct (init_blocks_first_failure initContext cfg pre post id' st Hpre Hfail')
      as (st' & Hrun & Hlast).
    rewrite Hen' in Hrun. destruct (Hlast Hen') as [[(Ht & Hf & Hm) _] Hline].
    exists id', st'. unfold runTask, init, bind. rewrite Hsplit, Hrun.
    repeat split; assumption.
  - intros pre post id0 Hsplit Hpre Hen0 Hlen Hreach.
    assert (Hfail0 : passes initContext cfg st id0 = false).
    { unfold passes. rewrite Hen0, Hreach.
      destruct (Nat.leb_spec (String.length (fileParamBb cfg id0)) 1) as [Hle | _];
        [lia | reflexivity]. }
    destruct (init_blocks_first_failure initContext cfg pre post id0 st Hpre Hfail0)
      as (st' & Hrun & _).
    rewrite Hen0 in Hrun.
    exists st'. unfold runTask, init, bind. rewrite Hsplit, Hrun. split; reflexivity.
Qed.

End Init.

(** ** Filling the tables *)

Section Process.
Context {H : Type} {HL : HistLike H} {C : Collaborators}.
Implicit Types (st : St (H := H)) (id : ID) (tracks : list Track).

(** A loop whose body appends one row and calls the models [k] times. *)
Lemma for_each_rows {R : Type} (table : St -> ID -> list R) (k : nat)
    (body : Track -> M unit) (row : (ID -> bbParams) -> Track -> R) id tracks :
  (forall trk st, exists st',
      body trk st = Done tt st' /\
      table st' id = table st id ++ [row (bb st) trk] /\
      modelCalls st' = (modelCalls st + k)%nat /\
      bb st' = bb st /\ log st' = log st) ->
  forall st, exists st',
    for_each tracks body st = Done tt st' /\
    table st' id = table st id ++ map (row (bb st)) tracks /\
    modelCalls st' = (modelCalls st + k * length tracks)%nat /\
    bb st' = bb st /\ log st' = log st.
Proof.
  intros Hbody. induction tracks as [| trk rest IH]; intros st.
  - exists st. cbn. rewrite app_nil_r. repeat split. lia.
  - cbn [for_each]. unfold bind.
    destruct (Hbody trk st) as (st1 & Hrun1 & Hrow1 & Hcalls1 & Hbb1 & Hlog1).
    rewrite Hrun1.
    destruct (IH st1) as (st2 & Hrun2 & Hrow2 & Hcalls2 & Hbb2 & Hlog2).
    exists st2. split; [exact Hrun2 |].
    rewrite Hrow2, Hrow1, Hcalls2, Hcalls1, Hbb2, Hbb1, Hlog2, Hlog1.
    cbn [map length]. rewrite <- app_assoc. repeat split. lia.
Qed.

Lemma processParticle_stored (cfg : Config) id tracks st :
  F32.geb (get (bbParameters cfg) (Particle id) "Use default tiny") F32.one_and_a_half = true ->
  exists st',
    processParticle cfg id tracks st = Done tt st' /\
    tablePID st' id = tablePID st id ++ map (fun trk => tpcNSigmaStore trk id) tracks /\
    modelCalls st' = modelCalls st.
Proof.
  intros Hflag. unfold processParticle. rewrite Hflag.
  unfold bind, LOG. cbn match.
  match goal with
  | |- context [for_each tracks ?body ?s] =>
      destruct (for_each_rows tablePID 0 body (fun _ trk => tpcNSigmaStore trk id) id tracks)
        with (st := s) as (st' & Hrun & Hrow & Hcalls & _)
  end.
  { intros trk s. eexists. split; [reflexivity |].
    cbn. rewrite upd_same. repeat split. lia. }
  exists st'. split; [exact Hrun |]. rewrite Hrow, Hcalls. cbn. split; [reflexivity | lia].
Qed.

Lemma processFullParticle_stored (cfg : Config) id tracks st :
  F32.geb (get (bbParameters cfg) (Particle id) "Use default full") F32.one_and_a_half = true ->
  exists st',
    processFullParticle cfg id tracks st = Done tt st' /\
    tablePIDFull st' id =
      tablePIDFull st id ++ map (fun trk => (tpcExpSigma trk id, tpcNSigma trk id)) tracks /\
    modelCalls st' = modelCalls st.
Proof.
  intros Hflag. unfold processFullParticle. rewrite Hflag.
  unfold bind, LOG. cbn match.
  match goal with
  | |- context [for_each tracks ?body ?s] =>
      destruct (for_each_rows tablePIDFull 0 body
                  (fun _ trk => (tpcExpSigma trk id, tpcNSigma trk id)) id tracks)
        with (st := s) as (st' & Hrun & Hrow & Hcalls & _)
  end.
  { intros trk s. eexists. split; [reflexivity |].
    cbn. rewrite upd_same. repeat split. lia. }
  exists st'. split; [exact Hrun |]. rewrite Hrow, Hcalls. cbn. split; [reflexivity | lia].
Qed.

(** The other branch does call the models: twice per track for the
    compact table, three times per track for the full one. *)
Lemma processParticle_computed (cfg : Config) id tracks st :
  F32.geb (get (bbParameters cfg) (Particle id) "Use default tiny") F32.one_and_a_half = false ->
  exists st',
    processParticle cfg id tracks st = Done tt st' /\
    tablePID st' id =
      tablePID st id ++ map (fun trk => packValue (nSigma id trk (bb st id))) tracks /\
    modelCalls st' = (modelCalls st + 2 * length tracks)%nat.
Proof.
  intros Hflag. unfold processParticle. rewrite Hflag.
  unfold bind at 1. unfold LOG. cbn match.
  match goal with
  | |- context [for_each tracks ?body ?s] =>
      destruct (for_each_rows tablePID 2 body
                  (fun b trk => packValue (nSigma id trk (b id))) id tracks)
        with (st := s) as (st' & Hrun & Hrow & Hcalls & _)
  end.
  { intros trk s. eexists. split; [reflexivity |].
    cbn. rewrite upd_same. repeat split. lia. }
  exists st'. split; [exact Hrun |]. rewrite Hrow, Hcalls. cbn. split; reflexivity.
Qed.

Lemma processFullParticle_computed (cfg : Config) id tracks st :
  F32.geb (get (bbParameters cfg) (Particle id) "Use default full") F32.one_and_a_half = false ->
  exists st',
    processFullParticle cfg id tracks st = Done tt st' /\
    tablePIDFull st' id =
      tablePIDFull st id ++
      map (fun trk => (BetheBlochResolutionLf id trk (bb st id), nSigma id trk (bb st id))) tracks /\
    modelCalls st' = (modelCalls st + 3 * length tracks)%nat.
Proof.
  intros Hflag. unfold processFullParticle. rewrite Hflag.
  unfold bind at 1. unfold LOG. cbn match.
  match goal with
  | |- context [for_each tracks ?body ?s] =>
      destruct (for_each_rows tablePIDFull 3 body
                  (fun b trk => (BetheBlochResolutionLf id trk (b id), nSigma id trk (b id)))
                  id tracks)
        with (st := s) as (st' & Hrun & Hrow & Hcalls & _)
  end.
  { intros trk s. eexists. split; [reflexivity |].
    cbn. rewrite upd_same. repeat split. lia. }
  exists st'. split; [exact Hrun |]. rewrite Hrow, Hcalls. cbn. split; reflexivity.
Qed.

(** C8.  With the species' "Use default tiny" flag at least 1.5 the
    compact process function ends normally having appended to the
    species' table, in track order, exactly the stored compact residual
    of each track, and with "Use default full" at least 1.5 the full one
    has appended exactly the stored pair of each track; in both cases the
    number of model calls is what it was before: no model is evaluated. *)
Theorem stored_values_pass_through (cfg : Config) id tracks st :
  (F32.geb (get (bbParameters cfg) (Particle id) "Use default tiny") F32.one_and_a_half = true ->
   exists st',
     processParticle cfg id tracks st = Done tt st' /\
     tablePID st' id = tablePID st id ++ map (fun trk => tpcNSigmaStore trk id) tracks /\
     modelCalls st' = modelCalls st) /\
  (F32.geb (get (bbParameters cfg) (Particle id) "Use default full") F32.one_and_a_half = true ->
   exists st',
     processFullParticle cfg id tracks st = Done tt st' /\
     tablePIDFull st' id =
       tablePIDFull st id ++ map (fun trk => (tpcExpSigma trk id, tpcNSigma trk id)) tracks /\
     modelCalls st' = modelCalls st).
Proof.
  split; intros Hflag.
  - apply processParticle_stored, Hflag.
  - apply processFullParticle_stored, Hflag.
Qed.

End Process.

(** ** The energy-loss and resolution models *)

Section Model_facts.
Context {C : Collaborators}.

(** The expected signal divides by the mass over charge by multiplying
    with its rounded reciprocal.  For half a unit of inner momentum and a
    pion mass of 0.13957039 or 0.139570 this is the rounded quotient, so
    the expected signal is the single-precision
    mip * curve(0.5 / mass) * charge^exp. *)
Lemma BetheBlochLf_pion_at_half (track : Track) (params : bbParams) :
  sMasses2Z Pion = F32.decimal 13957039 8 \/ sMasses2Z Pion = F32.decimal 139570 6 ->
  tpcInnerParam track = F32.decimal 5 1 ->
  BetheBlochLf Pion track params =
  F32.mul
    (F32.mul (mip params)
       (BetheBlochAleph (F32.div (F32.decimal 5 1) (sMasses2Z Pion))
          (bb1 params) (bb2 params) (bb3 params) (bb4 params) (bb5 params)))
    (pow F32.one (exp params)).
Proof.
  intros Hmass Hp. unfold BetheBlochLf. rewrite Hp.
  replace (F32.mul (F32.decimal 5 1) (F32.div F32.one (sMasses2Z Pion)))
    with (F32.div (F32.decimal 5 1) (sMasses2Z Pion))
    by (destruct Hmass as [-> | ->]; vm_compute; reflexivity).
  reflexivity.
Qed.

(** In general it is not: at an inner momentum of 1.5 and a mass of
    0.13957039 the two differ in the last place. *)
Lemma reciprocal_is_not_division :
  F32.mul (F32.decimal 15 1) (F32.div F32.one (F32.decimal 13957039 8))
  <> F32.div (F32.decimal 15 1) (F32.decimal 13957039 8).
Proof. vm_compute. discriminate. Qed.

(** C1, as the code has it.  The expected signal is the single-precision
    mip * curve(betaGamma; bb1..bb5) * charge^exp with betaGamma the
    product of the inner momentum and the rounded reciprocal of the
    charge-normalised mass [sMasses2Z].  For pions of mass 0.13957039 or
    0.139570 at an inner momentum of 0.5 this product is the rounded
    quotient 0.5 / mass, so the expected signal is exactly the
    single-precision curve value at betaGamma = 0.5 / pionMass times the
    mip and charge factors, for the member initialisers as for every other
    parameter set. *)
Theorem expected_signal_is_at_the_reciprocal_product
    (id : ID) (track : Track) (params : bbParams) :
  BetheBlochLf id track params =
    F32.mul
      (F32.mul (mip params)
         (BetheBlochAleph
            (F32.mul (tpcInnerParam track) (F32.div F32.one (sMasses2Z id)))
            (bb1 params) (bb2 params) (bb3 params) (bb4 params) (bb5 params)))
      (pow (F32.of_int (sCharges id)) (exp params)) /\
  (sMasses2Z Pion = F32.decimal 13957039 8 \/ sMasses2Z Pion = F32.decimal 139570 6 ->
   tpcInnerParam track = F32.decimal 5 1 ->
   BetheBlochLf Pion track params = expectedSignal_spec Pion track params /\
   BetheBlochLf Pion track params =
     F32.mul
       (F32.mul (mip params)
          (BetheBlochAleph (F32.div (F32.decimal 5 1) (sMasses2Z Pion))
             (bb1 params) (bb2 params) (bb3 params) (bb4 params) (bb5 params)))
       (pow F32.one (exp params))).
Proof.
  split; [reflexivity |].
  intros Hmass Hp.
  rewrite (BetheBlochLf_pion_at_half track params Hmass Hp).
  split; [| reflexivity].
  unfold expectedSignal_spec. rewrite Hp. reflexivity.
Qed.

(** C3, as the code has it.  The expected resolution is the
    single-precision |dEdx2 - dEdx|, with dEdx the expected signal,
    deltaP = res * sqrt(dEdx), bgDelta = innerParam * (1 + deltaP) times
    the rounded reciprocal of the full mass [sMasses], and dEdx2 the curve
    at bgDelta with the same mip and charge factors.  It is never
    negative: it is a NaN, or it is at least 0. *)
Theorem resolution_is_nan_or_nonnegative (id : ID) (track : Track) (params : bbParams) :
  let dEdx := BetheBlochLf id track params in
  let deltaP := F32.mul (res params) (F32.sqrt dEdx) in
  let bgDelta :=
    F32.mul (F32.mul (tpcInnerParam track) (F32.add F32.one deltaP))
            (F32.div F32.one (sMasses id)) in
  let dEdx2 :=
    F32.mul
      (F32.mul (mip params)
         (BetheBlochAleph bgDelta (bb1 params) (bb2 params) (bb3 params)
            (bb4 params) (bb5 params)))
      (pow (charge id) (exp params)) in
  BetheBlochResolutionLf id track params = F32.abs (F32.sub dEdx2 dEdx) /\
  F32.ltb (BetheBlochResolutionLf id track params) F32.zero = false /\
  (F32.is_nan (BetheBlochResolutionLf id track params) = true \/
   F32.geb (BetheBlochResolutionLf id track params) F32.zero = true).
Proof.
  cbv zeta. split; [reflexivity |]. unfold BetheBlochResolutionLf.
  split; [apply abs_not_negative | apply abs_nan_or_nonnegative].
Qed.

(** A NaN scale constant makes the expected signal, and with it the
    expected resolution, a NaN, whatever the curve. *)
Lemma BetheBlochLf_nan_mip id track params :
  mip params = F32.nan -> BetheBlochLf id track params = F32.nan.
Proof.
  intros Hmip. unfold BetheBlochLf. rewrite Hmip, !mul_nan_l. reflexivity.
Qed.

Lemma BetheBlochResolutionLf_nan_mip id track params :
  mip params = F32.nan -> BetheBlochResolutionLf id track params = F32.nan.
Proof.
  intros Hmip. unfold BetheBlochResolutionLf.
  rewrite Hmip, !mul_nan_l, sub_nan_l. reflexivity.
Qed.

End Model_facts.

(** ** The statements at concrete inputs *)

Section Concrete.

Lemma hpar_good_wellFormed : wellFormed hpar_good.
Proof. unfold wellFormed. repeat constructor. Qed.

(** C2 at the Kaon table with flag 2 and the well-formed [hpar] of
    good.root: the 8 constants are the histogram's, none is the table's. *)
Lemma external_source_wins_witness :
  F32.geb (get tableKaonSet "Ka" "Set parameters") F32.one_and_a_half = true /\
  locate "good.root" sampleState = Some hpar_good /\
  exists st2 st',
    setValues_table Kaon "Ka" tableKaonSet sampleState = Done true st2 /\
    bb st2 Kaon =
      {| bb1 := F32.decimal 1 2; bb2 := F32.decimal 20 0; bb3 := F32.decimal 3 0;
         bb4 := F32.decimal 27 1; bb5 := F32.decimal 6 0; mip := F32.decimal 45 0;
         exp := F32.decimal 23 1; res := F32.decimal 4 3 |} /\
    resolve (kaonConfig tableKaonSet "good.root" true) Kaon sampleState = Done tt st' /\
    bb st' Kaon =
      {| bb1 := F32.decimal 1 1; bb2 := F32.decimal 2 0; bb3 := F32.decimal 3 0;
         bb4 := F32.decimal 4 0; bb5 := F32.decimal 5 0; mip := F32.decimal 60 0;
         exp := F32.decimal 2 0; res := F32.decimal 1 2 |} /\
    (forall id', id' <> Kaon -> bb st' id' = bb sampleState id').
Proof.
  split; [vm_compute; reflexivity |]. split; [vm_compute; reflexivity |].
  destruct (external_source_wins (kaonConfig tableKaonSet "good.root" true) Kaon
              hpar_good sampleState)
    as (st2 & st' & Hrun2 & Hbb2 & Hrun & Hbb & Hothers).
  - vm_compute. reflexivity.
  - cbn. lia.
  - vm_compute. reflexivity.
  - exact hpar_good_wellFormed.
  - exists st2, st'. split; [exact Hrun2 |].
    split; [rewrite Hbb2; vm_compute; reflexivity |].
    split; [exact Hrun |].
    split; [rewrite Hbb; vm_compute; reflexivity | exact Hothers].
Defined.

(** C4 at a file that does not exist. *)
Lemma failed_fetch_is_dereferenced_witness :
  reachable "missing.root" sampleState = false /\
  exists st',
    resolve (kaonConfig defaultParameters "missing.root" true) Kaon sampleState
      = Aborted NullDereference st' /\
    (forall id', id' <> Kaon -> bb st' id' = bb sampleState id').
Proof.
  split; [vm_compute; reflexivity |].
  apply (failed_fetch_is_dereferenced
           (kaonConfig defaultParameters "missing.root" true) Kaon sampleState).
  - cbn. lia.
  - vm_compute. reflexivity.
Defined.

(** The same for a key that the manager does not have. *)
Lemma missing_ccdb_object_stops_resolution :
  exists st',
    resolve (kaonConfig defaultParameters "ccdb://Analysis/PID/TPC/Pr" true) Kaon sampleState
      = Aborted NullDereference st'.
Proof. eexists. vm_compute. reflexivity. Qed.

(** The one failed fetch that is handled: a file that opens and holds no
    [hpar] leaves the parameters alone and writes an error line. *)
Lemma file_without_hpar_falls_back :
  exists st',
    resolve (kaonConfig defaultParameters "empty.root" true) Kaon sampleState = Done tt st' /\
    bb st' Kaon = bbParams_default /\
    last (log st') = Some (line error "The input file does not contain the histogram hpar").
Proof. eexists. vm_compute. repeat split. Qed.

(** C5, as the code has it, at the histogram with a misspelt label. *)
Lemma grown_histogram_is_rejected_witness :
  locate "misspelt.root" sampleState = Some hpar_misspelt /\
  GetNbinsX (snd (readBins bbLabels hpar_misspelt)) = 16%Z /\
  GetNbinsX hpar_misspelt = 8%Z /\
  exists st' l,
    setValues_cfg Kaon "filePparamBbKa" "misspelt.root" sampleState = Done false st' /\
    bb st' = bb sampleState /\
    log st' =
      log sampleState ++ l ++
      [line error "The input histogram of Bethe-Bloch parameters has the wrong size"] /\
    Forall (fun x => level x = info) l /\
    sameTables sampleState st'.
Proof.
  split; [vm_compute; reflexivity |]. split; [vm_compute; reflexivity |].
  split; [reflexivity |].
  apply (grown_histogram_is_rejected Kaon "filePparamBbKa" "misspelt.root"
           hpar_misspelt sampleState).
  - cbn. lia.
  - vm_compute. reflexivity.
  - vm_compute. discriminate.
Defined.

(** C5 as stated fails: "Resolution" labels no bin of [hpar_partial],
    whose axis answers -1 for it and stays as it is, so the 8 lookups
    resolve to 7 bins.  The histogram is taken all the same: [setValues]
    answers true, no error line is written, and all 8 constants are
    overwritten, the resolution with the content of the underflow cell. *)
Lemma partially_labelled_histogram_is_taken :
  hasLabel "Resolution" hpar_partial = false /\
  FindBin "Resolution" hpar_partial = ((-1)%Z, hpar_partial) /\
  locate "partial.root" sampleState = Some hpar_partial /\
  exists st',
    setValues_cfg Kaon "filePparamBbKa" "partial.root" sampleState = Done true st' /\
    bb st' Kaon =
      {| bb1 := F32.decimal 1 1; bb2 := F32.decimal 2 0; bb3 := F32.decimal 3 0;
         bb4 := F32.decimal 4 0; bb5 := F32.decimal 5 0; mip := F32.decimal 60 0;
         exp := F32.decimal 2 0; res := F32.decimal 7 0 |} /\
    bb st' Kaon <> bb sampleState Kaon /\
    Forall (fun x => level x = info) (log st').
Proof.
  split; [reflexivity |]. split; [reflexivity |]. split; [vm_compute; reflexivity |].
  eexists. split; [vm_compute; reflexivity |].
  split; [vm_compute; reflexivity |].
  split; [vm_compute; discriminate | repeat constructor].
Qed.

(** A histogram without any label is rejected: the first lookup creates
    the list of labels, the lookups label the 3 bins and then double the
    axis twice, to 12 bins. *)
Lemma unlabelled_histogram_grows_and_is_rejected :
  GetNbinsX (snd (readBins bbLabels hpar_unlabelled)) = 12%Z /\
  exists st',
    setValues_cfg Kaon "filePparamBbKa" "unlabelled.root" sampleState = Done false st' /\
    bb st' = bb sampleState /\
    last (log st') =
      Some (line error "The input histogram of Bethe-Bloch parameters has the wrong size").
Proof.
  split; [vm_compute; reflexivity |].
  eexists. split; [vm_compute; reflexivity |]. split; reflexivity.
Qed.

(** Ten bins without any label are not: the lookups label the first 8
    bins, the number of bins stays 10, and the 8 constants are read by
    position, without an error line. *)
Lemma unlabelled_bins_are_read_by_position :
  Forall (fun l => hasLabel l hpar_positional = false) bbLabels /\
  exists st',
    setValues_cfg Kaon "filePparamBbKa" "positional.root" sampleState = Done true st' /\
    bb st' Kaon =
      {| bb1 := F32.decimal 11 0; bb2 := F32.decimal 12 0; bb3 := F32.decimal 13 0;
         bb4 := F32.decimal 14 0; bb5 := F32.decimal 15 0; mip := F32.decimal 16 0;
         exp := F32.decimal 17 0; res := F32.decimal 18 0 |} /\
    Forall (fun x => level x = info) (log st').
Proof.
  split; [repeat constructor |].
  eexists. split; [vm_compute; reflexivity |].
  split; [vm_compute; reflexivity | repeat constructor].
Qed.

(** The manager hands out its own object, and the lookups of a first
    reader change it: the histogram with the misspelt label is rejected
    for Kaons, whose lookups have then grown and labelled it, and the same
    object is taken for Protons, with an empty bin as resolution. *)
Lemma second_reader_takes_the_grown_histogram :
  exists st1 st2,
    setValues_cfg Kaon "filePparamBbKa" "ccdb://Users/shared/hpar" sampleState
      = Done false st1 /\
    setValues_cfg Proton "filePparamBbPr" "ccdb://Users/shared/hpar" st1
      = Done true st2 /\
    bb st2 Kaon = bbParams_default /\
    res (bb st2 Proton) = F32.zero /\
    mip (bb st2 Proton) = F32.decimal 60 0.
Proof.
  eexists _, _. split; [vm_compute; reflexivity |].
  split; [vm_compute; reflexivity |].
  repeat split.
Qed.

(** C6 at the declared configuration. *)
Lemma resolve_keeps_compiled_in_defaults_witness :
  F32.ltb (get (bbParameters defaultConfig) "Ka" "Set parameters") F32.one_and_a_half = true /\
  exists st',
    resolve defaultConfig Kaon sampleState = Done tt st' /\
    bb st' = bb sampleState /\
    bb st' Kaon = bbParams_default.
Proof.
  split; [vm_compute; reflexivity |].
  apply (resolve_keeps_compiled_in_defaults defaultConfig Kaon sampleState).
  - vm_compute. reflexivity.
  - cbn. lia.
  - reflexivity.
Defined.

(** C7 at a table whose Kaon flag is 2, and at a vector of 3 values. *)
Lemma table_overrides_unless_flag_below_witness :
  F32.is_nan (get tableKaonSet "Ka" "Set parameters") = false /\
  F32.geb (get tableKaonSet "Ka" "Set parameters") F32.one_and_a_half = true /\
  (exists st',
      setValues_table Kaon "Ka" tableKaonSet sampleState = Done true st' /\
      bb st' Kaon = assign (map (get tableKaonSet "Ka") bbLabels)) /\
  (exists st',
      setValues_vector Kaon [two; two; two] sampleState = Done false st' /\
      bb st' = bb sampleState /\
      last (log st') =
        Some (line error "The vector of Bethe-Bloch parameters has the wrong size")).
Proof.
  destruct (table_overrides_unless_flag_below Kaon "Ka" tableKaonSet [two; two; two] sampleState)
    as ((b & st' & Hrun & Hb & Hbb & _ & Hnum & _) & Hshort & _).
  split; [vm_compute; reflexivity |]. split; [vm_compute; reflexivity |].
  split.
  - assert (b = true) as -> by (rewrite Hnum; vm_compute; reflexivity).
    exists st'. split; [exact Hrun |]. rewrite Hbb. apply upd_same.
  - apply Hshort. cbn. lia.
Defined.

(** C7 as stated fails at a NaN flag: the flag is not at least 1.5, and
    the table overwrites the 8 constants all the same. *)
Lemma nan_flag_overrides :
  F32.geb (get tableKaonNaN "Ka" "Set parameters") F32.one_and_a_half = false /\
  length (map (get tableKaonNaN "Ka") bbLabels) = 8%nat /\
  exists st',
    setValues_table Kaon "Ka" tableKaonNaN sampleState = Done true st' /\
    bb st' Kaon = assign (map (get tableKaonNaN "Ka") bbLabels) /\
    bb st' Kaon <> bb sampleState Kaon.
Proof.
  split; [vm_compute; reflexivity |]. split; [reflexivity |].
  eexists. split; [vm_compute; reflexivity |].
  split; [vm_compute; reflexivity | vm_compute; discriminate].
Qed.

(** C8 at two tracks, with both Kaon flags 2. *)
Lemma stored_values_pass_through_witness :
  (exists st',
      processParticle (C := sampleCollaborators)
        (kaonConfig tableKaonSet EmptyString true) Kaon sampleTracks sampleState = Done tt st' /\
      tablePID st' Kaon = [17; -4]%Z /\
      modelCalls st' = 0%nat) /\
  (exists st',
      processFullParticle (C := sampleCollaborators)
        (kaonConfig tableKaonSet EmptyString true) Kaon sampleTracks sampleState = Done tt st' /\
      tablePIDFull st' Kaon =
        [(F32.decimal 31 1, F32.decimal 25 1); (F32.decimal 28 1, F32.nan)] /\
      modelCalls st' = 0%nat).
Proof.
  destruct (stored_values_pass_through (C := sampleCollaborators)
              (kaonConfig tableKaonSet EmptyString true) Kaon sampleTracks sampleState)
    as [Htiny Hfull].
  split.
  - destruct Htiny as (st' & Hrun & Hrows & Hcalls); [vm_compute; reflexivity |].
    exists st'. split; [exact Hrun |]. split; [exact Hrows | exact Hcalls].
  - destruct Hfull as (st' & Hrun & Hrows & Hcalls); [vm_compute; reflexivity |].
    exists st'. split; [exact Hrun |]. split; [exact Hrows | exact Hcalls].
Defined.

(** C9 at the declared configuration, every switch off, when the compact
    Kaon table is requested: the fatal line is the one for Kaons.  And
    with electrons processed from a file that cannot be opened: the null
    pointer is dereferenced in the Electron block, before the check of
    the Kaon tables. *)
Lemma requested_table_of_disabled_species_stops_init_witness :
  isTableRequiredInWorkflow kaonRequested "pidTPCLfKa" = true /\
  reachable "missing.root" sampleState = false /\
  (exists st',
     init kaonRequested defaultConfig sampleState = Aborted FatalLog st' /\
     runTask (C := sampleCollaborators) kaonRequested defaultConfig sampleTracks sampleState
       = Aborted FatalLog st' /\
     tablePID st' = tablePID sampleState /\
     tablePIDFull st' = tablePIDFull sampleState /\
     modelCalls st' = modelCalls sampleState) /\
  (exists st',
     init kaonRequested (electronConfig "missing.root") sampleState
       = Aborted NullDereference st' /\
     runTask (C := sampleCollaborators) kaonRequested (electronConfig "missing.root")
       sampleTracks sampleState = Aborted NullDereference st').
Proof.
  split; [vm_compute; reflexivity |]. split; [vm_compute; reflexivity |].
  split.
  - destruct (requested_table_of_disabled_species_stops_init (C := sampleCollaborators)
                kaonRequested defaultConfig Kaon sampleTracks sampleState)
      as [Hfatal _].
    + reflexivity.
    + reflexivity.
    + left. vm_compute. reflexivity.
    + destruct Hfatal as (id' & st' & Hinit & Hrun & _ & _ & _ & Ht & Hf & Hc).
      * intros id' Hen. discriminate Hen.
      * exists st'. repeat split; assumption.
  - destruct (requested_table_of_disabled_species_stops_init (C := sampleCollaborators)
                kaonRequested (electronConfig "missing.root") Kaon sampleTracks sampleState)
      as [_ Hnull].
    + reflexivity.
    + reflexivity.
    + left. vm_compute. reflexivity.
    + apply (Hnull [] [Muon; Pion; Kaon; Proton; Deuteron; Triton; Helium3; Alpha] Electron).
      * reflexivity.
      * intros id' [].
      * reflexivity.
      * cbn. lia.
      * vm_compute. reflexivity.
Defined.

(** There the last line written is the fatal one for Kaons. *)
Lemma kaon_scenario_is_fatal :
  exists st',
    init kaonRequested defaultConfig sampleState = Aborted FatalLog st' /\
    last (log st') =
      Some (line fatal "Requested Kaon table but not enabled in configuration") /\
    tablePID st' Kaon = [] /\ tablePIDFull st' Kaon = [].
Proof. eexists. vm_compute. repeat split. Qed.

(** With electrons processed from a file that cannot be opened, [init]
    stops in the Electron block, before the check of the Kaon tables. *)
Lemma unreachable_locator_stops_init_first :
  exists st',
    init kaonRequested (electronConfig "missing.root") sampleState
      = Aborted NullDereference st' /\
    Forall (fun x => level x = info) (log st').
Proof. eexists. split; [vm_compute; reflexivity | repeat constructor]. Qed.

(** C10 at the declared configuration, for pions and alphas. *)
Lemma defaults_are_not_species_specific_witness :
  exists st1 st2,
    resolve defaultConfig Pion (fresh sampleManager sampleFiles 0) = Done tt st1 /\
    resolve defaultConfig Alpha (fresh sampleManager sampleFiles 0) = Done tt st2 /\
    bb st1 Pion = bb st2 Alpha /\
    bb st1 Pion = bbParams_default /\
    (forall id param, get defaultParameters (Particle id) param = F32.zero).
Proof.
  apply (defaults_are_not_species_specific defaultConfig Pion Alpha
           sampleManager sampleFiles 0).
  - vm_compute. reflexivity.
  - vm_compute. reflexivity.
  - cbn. lia.
  - cbn. lia.
Defined.

(** C1 at the pion scenario: mass 0.139570, the member initialisers, an
    inner momentum of 0.5 and a signal of 50. *)
Lemma expected_signal_is_at_the_reciprocal_product_witness :
  sMasses2Z (Collaborators := sampleCollaborators) Pion = F32.decimal 139570 6 /\
  BetheBlochLf (C := sampleCollaborators) Pion halfTrack bbParams_default =
    expectedSignal_spec (C := sampleCollaborators) Pion halfTrack bbParams_default.
Proof.
  split; [vm_compute; reflexivity |].
  destruct (expected_signal_is_at_the_reciprocal_product (C := sampleCollaborators)
              Pion halfTrack bbParams_default) as [_ Hpion].
  apply Hpion; [right; vm_compute; reflexivity | reflexivity].
Defined.

(** C1 as stated fails: the curve is not evaluated at the quotient.  For
    a pion mass of 0.13957039 and an inner momentum of 1.5, and for a kaon
    mass of 0.493677 and an inner momentum of 0.7, the argument that the
    code passes to the curve differs from innerParam / restMass in the
    last place; and with the stand-in curve, at the kaon mass and an inner
    momentum of 0.007, so does the expected signal. *)
Lemma expected_signal_is_not_at_the_quotient :
  F32.mul (F32.decimal 15 1) (F32.div F32.one (F32.decimal 13957039 8))
    <> F32.div (F32.decimal 15 1) (F32.decimal 13957039 8) /\
  F32.mul (F32.decimal 7 1) (F32.div F32.one (F32.decimal 493677 6))
    <> F32.div (F32.decimal 7 1) (F32.decimal 493677 6) /\
  sMasses2Z (Collaborators := sampleCollaborators) Kaon = F32.decimal 493677 6 /\
  BetheBlochLf (C := sampleCollaborators) Kaon slowTrack bbParams_default
    <> expectedSignal_spec (C := sampleCollaborators) Kaon slowTrack bbParams_default.
Proof.
  split; [vm_compute; discriminate |].
  split; [vm_compute; discriminate |].
  split; [vm_compute; reflexivity | vm_compute; discriminate].
Qed.

(** C3 as stated fails: for the default parameters with a NaN scale
    constant and a track of positive inner momentum, the expected
    resolution is a NaN for every species and whatever the curve and the
    masses are, so it is not at least 0. *)
Lemma resolution_of_nan_scale_is_not_nonnegative :
  F32.ltb F32.zero (tpcInnerParam unitTrack) = true /\
  forall (C : Collaborators) (id : ID),
    BetheBlochResolutionLf id unitTrack nanParams = F32.nan /\
    F32.geb (BetheBlochResolutionLf id unitTrack nanParams) F32.zero = false.
Proof.
  split; [vm_compute; reflexivity |].
  intros C id.
  rewrite BetheBlochResolutionLf_nan_mip by reflexivity.
  split; reflexivity.
Qed.

End Concrete.

(** * Further properties *)

(** ** Filling the tables, continued *)

Section Process_rows.
Context {H : Type} {HL : HistLike H} {C : Collaborators}.
Implicit Types (st : St (H := H)) (id : ID) (tracks : list Track).

(** A loop whose body appends one row of [id] to the compact table. *)
Lemma for_each_compact (k : nat) (body : Track -> M unit)
    (row : (ID -> bbParams) -> Track -> Z) id tracks :
  (forall trk st, exists st',
      body trk st = Done tt st' /\
      tablePID st' id = tablePID st id ++ [row (bb st) trk] /\
      modelCalls st' = (modelCalls st + k)%nat /\
      compactFrame id st st') ->
  forall st, exists st',
    for_each tracks body st = Done tt st' /\
    tablePID st' id = tablePID st id ++ map (row (bb st)) tracks /\
    modelCalls st' = (modelCalls st + k * length tracks)%nat /\
    compactFrame id st st'.
Proof.
  intros Hbody. induction tracks as [| trk rest IH]; intros st.
  - exists st. cbn. rewrite app_nil_r. repeat split. lia.
  - cbn [for_each]. unfold bind.
    destruct (Hbody trk st) as (st1 & Hrun1 & Hrow1 & Hcalls1 & Hf1).
    rewrite Hrun1.
    destruct (IH st1) as (st2 & Hrun2 & Hrow2 & Hcalls2 & Hf2).
    exists st2. split; [exact Hrun2 |].
    destruct Hf1 as (Hb1 & Hfull1 & Ho1 & Hc1 & Hfi1 & Hcl1 & Hl1).
    destruct Hf2 as (Hb2 & Hfull2 & Ho2 & Hc2 & Hfi2 & Hcl2 & Hl2).
    rewrite Hrow2, Hrow1, Hcalls2, Hcalls1, Hb1.
    cbn [map length]. rewrite <- app_assoc.
    split; [reflexivity |]. split; [lia |].
    repeat split; try congruence.
    intros id' Hne. rewrite Ho2, Ho1 by exact Hne. reflexivity.
Qed.

Lemma for_each_full (k : nat) (body : Track -> M unit)
    (row : (ID -> bbParams) -> Track -> float * float) id tracks :
  (forall trk st, exists st',
      body trk st = Done tt st' /\
      tablePIDFull st' id = tablePIDFull st id ++ [row (bb st) trk] /\
      modelCalls st' = (modelCalls st + k)%nat /\
      fullFrame id st st') ->
  forall st, exists st',
    for_each tracks body st = Done tt st' /\
    tablePIDFull st' id = tablePIDFull st id ++ map (row (bb st)) tracks /\
    modelCalls st' = (modelCalls st + k * length tracks)%nat /\
    fullFrame id st st'.
Proof.
  intros Hbody. induction tracks as [| trk rest IH]; intros st.
  - exists st. cbn. rewrite app_nil_r. repeat split. lia.
  - cbn [for_each]. unfold bind.
    destruct (Hbody trk st) as (st1 & Hrun1 & Hrow1 & Hcalls1 & Hf1).
    rewrite Hrun1.
    destruct (IH st1) as (st2 & Hrun2 & Hrow2 & Hcalls2 & Hf2).
    exists st2. split; [exact Hrun2 |].
    destruct Hf1 as (Hb1 & Hfull1 & Ho1 & Hc1 & Hfi1 & Hcl1 & Hl1).
    destruct Hf2 as (Hb2 & Hfull2 & Ho2 & Hc2 & Hfi2 & Hcl2 & Hl2).
    rewrite Hrow2, Hrow1, Hcalls2, Hcalls1, Hb1.
    cbn [map length]. rewrite <- app_assoc.
    split; [reflexivity |]. split; [lia |].
    repeat split; try congruence.
    intros id' Hne. rewrite Ho2, Ho1 by exact Hne. reflexivity.
Qed.

(** What [process##Particle] does in either branch. *)
Lemma processParticle_rows (cfg : Config) id tracks st :
  exists st',
    processParticle cfg id tracks st = Done tt st' /\
    log st' = log st ++ [line debug ("Filling table for particle: " +:+ Particle id)] /\
    files st' = files st /\ clock st' = clock st /\
    bb st' = bb st /\
    tablePIDFull st' = tablePIDFull st /\
    (forall id', id' <> id -> tablePID st' id' = tablePID st id') /\
    ccdb st' = ccdb st /\
    tablePID st' id = tablePID st id ++ map (compactRow cfg id (bb st)) tracks /\
    modelCalls st' = (modelCalls st + compactCalls cfg id * length tracks)%nat.
Proof.
  unfold processParticle, compactRow, compactCalls.
  unfold bind at 1. unfold LOG at 1. cbn match.
  set (st0 := with_log _ st).
  destruct (F32.geb _ _).
  - destruct (for_each_compact 0 (fun trk => fill_tablePID id (tpcNSigmaStore trk id))
                (fun _ trk => tpcNSigmaStore trk id) id tracks) with (st := st0)
      as (st' & Hrun & Hrow & Hcalls & Hf).
    { intros trk s. eexists. split; [reflexivity |].
      cbn. rewrite upd_same. repeat split; try lia.
      intros id' Hne. apply upd_other, Hne. }
    exists st'. split; [exact Hrun |].
    destruct Hf as (Hb & Hfull & Ho & Hc & Hfi & Hcl & Hl).
    rewrite Hb, Hfull, Hc, Hrow, Hcalls, Hfi, Hcl, Hl. repeat split; try reflexivity.
    intros id' Hne. rewrite Ho by exact Hne. reflexivity.
  - match goal with
    | |- context [for_each tracks ?body st0] =>
        destruct (for_each_compact 2 body
                    (fun b trk => packValue (nSigma id trk (b id))) id tracks)
          with (st := st0) as (st' & Hrun & Hrow & Hcalls & Hf)
    end.
    { intros trk s. eexists. split; [reflexivity |].
      cbn. rewrite upd_same. repeat split; try lia.
      intros id' Hne. apply upd_other, Hne. }
    exists st'. split; [exact Hrun |].
    destruct Hf as (Hb & Hfull & Ho & Hc & Hfi & Hcl & Hl).
    rewrite Hb, Hfull, Hc, Hrow, Hcalls, Hfi, Hcl, Hl. repeat split; try reflexivity.
    intros id' Hne. rewrite Ho by exact Hne. reflexivity.
Qed.

Lemma processFullParticle_rows (cfg : Config) id tracks st :
  exists st',
    processFullParticle cfg id tracks st = Done tt st' /\
    log st' = log st ++ [line debug ("Filling table for particle: " +:+ Particle id)] /\
    files st' = files st /\ clock st' = clock st /\
    bb st' = bb st /\
    tablePID st' = tablePID st /\
    (forall id', id' <> id -> tablePIDFull st' id' = tablePIDFull st id') /\
    ccdb st' = ccdb st /\
    tablePIDFull st' id = tablePIDFull st id ++ map (fullRow cfg id (bb st)) tracks /\
    modelCalls st' = (modelCalls st + fullCalls cfg id * length tracks)%nat.
Proof.
  unfold processFullParticle, fullRow, fullCalls.
  unfold bind at 1. unfold LOG at 1. cbn match.
  set (st0 := with_log _ st).
  destruct (F32.geb _ _).
  - destruct (for_each_full 0
                (fun trk => fill_tablePIDFull id (tpcExpSigma trk id) (tpcNSigma trk id))
                (fun _ trk => (tpcExpSigma trk id, tpcNSigma trk id)) id tracks)
      with (st := st0) as (st' & Hrun & Hrow & Hcalls & Hf).
    { intros trk s. eexists. split; [reflexivity |].
      cbn. rewrite upd_same. repeat split; try lia.
      intros id' Hne. apply upd_other, Hne. }
    exists st'. split; [exact Hrun |].
    destruct Hf as (Hb & Hcomp & Ho & Hc & Hfi & Hcl & Hl).
    rewrite Hb, Hcomp, Hc, Hrow, Hcalls, Hfi, Hcl, Hl. repeat split; try reflexivity.
    intros id' Hne. rewrite Ho by exact Hne. reflexivity.
  - match goal with
    | |- context [for_each tracks ?body st0] =>
        destruct (for_each_full 3 body
                    (fun b trk => (BetheBlochResolutionLf id trk (b id), nSigma id trk (b id)))
                    id tracks)
          with (st := st0) as (st' & Hrun & Hrow & Hcalls & Hf)
    end.
    { intros trk s. eexists. split; [reflexivity |].
      cbn. rewrite upd_same. repeat split; try lia.
      intros id' Hne. apply upd_other, Hne. }
    exists st'. split; [exact Hrun |].
    destruct Hf as (Hb & Hcomp & Ho & Hc & Hfi & Hcl & Hl).
    rewrite Hb, Hcomp, Hc, Hrow, Hcalls, Hfi, Hcl, Hl. repeat split; try reflexivity.
    intros id' Hne. rewrite Ho by exact Hne. reflexivity.
Qed.

(** X1.  When the "Use default tiny" flag of the species is not at least
    1.5 (also when it is NaN), the compact process function ends normally
    having appended, per track and in track order, the packed value of
    (signal - expected signal) / expected resolution, both computed on the
    species' current parameters, and having called the models twice per
    track. *)
Theorem compact_rows_are_computed (cfg : Config) id tracks st :
  F32.geb (get (bbParameters cfg) (Particle id) "Use default tiny") F32.one_and_a_half = false ->
  exists st',
    processParticle cfg id tracks st = Done tt st' /\
    tablePID st' id =
      tablePID st id ++
      map (fun trk =>
             packValue
               (F32.div (F32.sub (tpcSignal trk) (BetheBlochLf id trk (bb st id)))
                        (BetheBlochResolutionLf id trk (bb st id)))) tracks /\
    modelCalls st' = (modelCalls st + 2 * length tracks)%nat.
Proof.
  intros Hflag.
  destruct (processParticle_rows cfg id tracks st)
    as (st' & Hrun & _ & _ & _ & _ & _ & _ & _ & Hrow & Hcalls).
  exists st'. split; [exact Hrun |].
  unfold compactRow, compactCalls in *. rewrite Hflag in *.
  split; [exact Hrow | exact Hcalls].
Qed.

(** X2.  When the "Use default full" flag of the species is not at least
    1.5, the full process function ends normally having appended, per track
    and in track order, the pair of the expected resolution and of
    (signal - expected signal) / expected resolution, unquantised, and
    having called the models three times per track. *)
Theorem full_rows_are_computed (cfg : Config) id tracks st :
  F32.geb (get (bbParameters cfg) (Particle id) "Use default full") F32.one_and_a_half = false ->
  exists st',
    processFullParticle cfg id tracks st = Done tt st' /\
    tablePIDFull st' id =
      tablePIDFull st id ++
      map (fun trk =>
             (BetheBlochResolutionLf id trk (bb st id),
              F32.div (F32.sub (tpcSignal trk) (BetheBlochLf id trk (bb st id)))
                      (BetheBlochResolutionLf id trk (bb st id)))) tracks /\
    modelCalls st' = (modelCalls st + 3 * length tracks)%nat.
Proof.
  intros Hflag.
  destruct (processFullParticle_rows cfg id tracks st)
    as (st' & Hrun & _ & _ & _ & _ & _ & _ & _ & Hrow & Hcalls).
  exists st'. split; [exact Hrun |].
  unfold fullRow, fullCalls in *. rewrite Hflag in *.
  split; [exact Hrow | exact Hcalls].
Qed.

(** X3.  Whatever the flags and the tracks, a process function ends
    normally and only appends rows: exactly one row per track to the table
    of its species and family, and one debug line to the log; the
    parameters of every species, the tables of the other family, the
    tables of the other species and the manager are as before. *)
Theorem process_only_appends_rows (cfg : Config) id tracks st :
  (exists st',
      processParticle cfg id tracks st = Done tt st' /\
      length (tablePID st' id) = (length (tablePID st id) + length tracks)%nat /\
      (exists rows, tablePID st' id = tablePID st id ++ rows) /\
      (forall id', id' <> id -> tablePID st' id' = tablePID st id') /\
      tablePIDFull st' = tablePIDFull st /\
      bb st' = bb st /\ ccdb st' = ccdb st /\
      log st' = log st ++ [line debug ("Filling table for particle: " +:+ Particle id)]) /\
  (exists st',
      processFullParticle cfg id tracks st = Done tt st' /\
      length (tablePIDFull st' id) = (length (tablePIDFull st id) + length tracks)%nat /\
      (exists rows, tablePIDFull st' id = tablePIDFull st id ++ rows) /\
      (forall id', id' <> id -> tablePIDFull st' id' = tablePIDFull st id') /\
      tablePID st' = tablePID st /\
      bb st' = bb st /\ ccdb st' = ccdb st /\
      log st' = log st ++ [line debug ("Filling table for particle: " +:+ Particle id)]).
Proof.
  split.
  - destruct (processParticle_rows cfg id tracks st)
      as (st' & Hrun & Hlog & _ & _ & Hb & Hfull & Ho & Hc & Hrow & _).
    exists st'. split; [exact Hrun |].
    split; [rewrite Hrow, length_app, length_map; reflexivity |].
    split; [eexists; exact Hrow |]. auto.
  - destruct (processFullParticle_rows cfg id tracks st)
      as (st' & Hrun & Hlog & _ & _ & Hb & Hcomp & Ho & Hc & Hrow & _).
    exists st'. split; [exact Hrun |].
    split; [rewrite Hrow, length_app, length_map; reflexivity |].
    split; [eexists; exact Hrow |]. auto.
Qed.

(** X4.  Batches compose: filling a table from one batch and then from a
    second one leaves every table, the parameters and the call counter
    exactly as filling it from the two batches joined, for the compact and
    for the full process function and for either branch. *)
Theorem batches_compose (cfg : Config) id (tracks1 tracks2 : list Track) st :
  (exists s1 s2 s12,
      processParticle cfg id tracks1 st = Done tt s1 /\
      processParticle cfg id tracks2 s1 = Done tt s2 /\
      processParticle cfg id (tracks1 ++ tracks2) st = Done tt s12 /\
      (forall id', tablePID s2 id' = tablePID s12 id') /\
      tablePIDFull s2 = tablePIDFull s12 /\
      bb s2 = bb s12 /\ modelCalls s2 = modelCalls s12) /\
  (exists s1 s2 s12,
      processFullParticle cfg id tracks1 st = Done tt s1 /\
      processFullParticle cfg id tracks2 s1 = Done tt s2 /\
      processFullParticle cfg id (tracks1 ++ tracks2) st = Done tt s12 /\
      (forall id', tablePIDFull s2 id' = tablePIDFull s12 id') /\
      tablePID s2 = tablePID s12 /\
      bb s2 = bb s12 /\ modelCalls s2 = modelCalls s12).
Proof.
  split.
  - destruct (processParticle_rows cfg id tracks1 st)
      as (s1 & Hrun1 & _ & _ & _ & Hb1 & Hf1 & Ho1 & _ & Hrow1 & Hcalls1).
    destruct (processParticle_rows cfg id tracks2 s1)
      as (s2 & Hrun2 & _ & _ & _ & Hb2 & Hf2 & Ho2 & _ & Hrow2 & Hcalls2).
    destruct (processParticle_rows cfg id (tracks1 ++ tracks2) st)
      as (s12 & Hrun12 & _ & _ & _ & Hb12 & Hf12 & Ho12 & _ & Hrow12 & Hcalls12).
    exists s1, s2, s12. repeat split; try assumption; try congruence.
    + intros id'. destruct (decide (id' = id)) as [-> | Hne].
      * rewrite Hrow2, Hrow1, Hrow12, Hb1, map_app, app_assoc. reflexivity.
      * rewrite Ho2, Ho1, Ho12 by exact Hne. reflexivity.
    + rewrite Hcalls2, Hcalls1, Hcalls12, length_app. lia.
  - destruct (processFullParticle_rows cfg id tracks1 st)
      as (s1 & Hrun1 & _ & _ & _ & Hb1 & Hf1 & Ho1 & _ & Hrow1 & Hcalls1).
    destruct (processFullParticle_rows cfg id tracks2 s1)
      as (s2 & Hrun2 & _ & _ & _ & Hb2 & Hf2 & Ho2 & _ & Hrow2 & Hcalls2).
    destruct (processFullParticle_rows cfg id (tracks1 ++ tracks2) st)
      as (s12 & Hrun12 & _ & _ & _ & Hb12 & Hf12 & Ho12 & _ & Hrow12 & Hcalls12).
    exists s1, s2, s12. repeat split; try assumption; try congruence.
    + intros id'. destruct (decide (id' = id)) as [-> | Hne].
      * rewrite Hrow2, Hrow1, Hrow12, Hb1, map_app, app_assoc. reflexivity.
      * rewrite Ho2, Ho1, Ho12 by exact Hne. reflexivity.
    + rewrite Hcalls2, Hcalls1, Hcalls12, length_app. lia.
Qed.

(** X15.  With both flags of a species not at least 1.5, the compact
    rows are the packed residuals of the full rows: from the same state
    and tracks, the compact process function appends the packed second
    component of each row that the full one appends. *)
Theorem compact_rows_are_the_packed_full_rows (cfg : Config) id tracks st :
  F32.geb (get (bbParameters cfg) (Particle id) "Use default tiny") F32.one_and_a_half = false ->
  F32.geb (get (bbParameters cfg) (Particle id) "Use default full") F32.one_and_a_half = false ->
  exists sc sf rows,
    processParticle cfg id tracks st = Done tt sc /\
    processFullParticle cfg id tracks st = Done tt sf /\
    tablePIDFull sf id = tablePIDFull st id ++ rows /\
    tablePID sc id = tablePID st id ++ map (fun r => packValue (snd r)) rows.
Proof.
  intros Htiny Hfull.
  destruct (processParticle_rows cfg id tracks st)
    as (sc & Hrunc & _ & _ & _ & _ & _ & _ & _ & Hrowc & _).
  destruct (processFullParticle_rows cfg id tracks st)
    as (sf & Hrunf & _ & _ & _ & _ & _ & _ & _ & Hrowf & _).
  exists sc, sf, (map (fullRow cfg id (bb st)) tracks).
  split; [exact Hrunc |]. split; [exact Hrunf |]. split; [exact Hrowf |].
  rewrite Hrowc, map_map. f_equal. apply map_ext. intros trk.
  unfold compactRow, fullRow. rewrite Htiny, Hfull. reflexivity.
Qed.

(** X16.  In the computing branch of the full process function no
    appended row has a negative expected resolution: the first component
    of each is a NaN or at least 0. *)
Theorem computed_resolutions_are_not_negative (cfg : Config) id tracks st :
  F32.geb (get (bbParameters cfg) (Particle id) "Use default full") F32.one_and_a_half = false ->
  exists st' rows,
    processFullParticle cfg id tracks st = Done tt st' /\
    tablePIDFull st' id = tablePIDFull st id ++ rows /\
    length rows = length tracks /\
    Forall (fun r => F32.ltb (fst r) F32.zero = false /\
                     (F32.is_nan (fst r) = true \/ F32.geb (fst r) F32.zero = true)) rows.
Proof.
  intros Hfull.
  destruct (processFullParticle_rows cfg id tracks st)
    as (st' & Hrun & _ & _ & _ & _ & _ & _ & _ & Hrow & _).
  exists st', (map (fullRow cfg id (bb st)) tracks).
  split; [exact Hrun |]. split; [exact Hrow |]. split; [apply length_map |].
  apply Forall_forall. intros r Hin. apply list_elem_of_In, in_map_iff in Hin.
  destruct Hin as (trk & <- & _).
  unfold fullRow. rewrite Hfull. cbn [fst]. unfold BetheBlochResolutionLf.
  split; [apply abs_not_negative | apply abs_nan_or_nonnegative].
Qed.

End Process_rows.

(** ** What loading leaves alone *)

Section Frames.
Context {H : Type} {HL : HistLike H} {C : Collaborators}.
Implicit Types (st : St (H := H)) (this id : ID) (h : H) (P : ID -> Prop).

Lemma loadFrame_refl P st : loadFrame P st st.
Proof.
  repeat split. exists []. symmetry. apply app_nil_r.
Qed.

Lemma loadFrame_trans P st1 st2 st3 :
  loadFrame P st1 st2 -> loadFrame P st2 st3 -> loadFrame P st1 st3.
Proof.
  intros (B1 & (T1 & F1 & M1) & (U1 & K1 & V1 & N1 & S1) & Fi1 & Cl1 & l1 & L1)
         (B2 & (T2 & F2 & M2) & (U2 & K2 & V2 & N2 & S2) & Fi2 & Cl2 & l2 & L2).
  split; [intros id Hid; rewrite B2, B1 by exact Hid; reflexivity |].
  split; [repeat split; congruence |].
  split; [repeat split; congruence |].
  split; [congruence |]. split; [congruence |].
  exists (l1 ++ l2). rewrite L2, L1, app_assoc. reflexivity.
Qed.

Lemma loadFrame_weaken (P Q : ID -> Prop) st st' :
  (forall id, P id -> Q id) -> loadFrame P st st' -> loadFrame Q st st'.
Proof.
  intros HPQ (B & rest). split; [| exact rest].
  intros id Hid. apply B. intros HP. apply Hid, HPQ, HP.
Qed.

(** A frame that holds for the first computation and, from wherever it
    ends normally, for the second one, holds for the two in sequence. *)
Lemma final_bind {A B : Type} (R : St (H := H) -> St (H := H) -> Prop)
    (m : M A) (k : A -> M B) st :
  (forall s1 s2 s3, R s1 s2 -> R s2 s3 -> R s1 s3) ->
  R st (final (m st)) ->
  (forall a s1, m st = Done a s1 -> R s1 (final (k a s1))) ->
  R st (final (bind m k st)).
Proof.
  intros Htrans Hm Hk. unfold bind.
  destruct (m st) as [a s1 | why s1]; cbn [final] in *.
  - eapply Htrans; [exact Hm | apply Hk; reflexivity].
  - exact Hm.
Qed.

Lemma loadFrame_log P st (l : list LogLine) :
  loadFrame P st (with_log (log st ++ l) st).
Proof. repeat split. exists l. reflexivity. Qed.

Lemma loadFrame_upd this (x : bbParams) st (l : list LogLine) :
  loadFrame (eq this) st (with_log (log st ++ l) (with_bb (upd this x (bb st)) st)).
Proof.
  split; [| repeat split; exists l; reflexivity].
  intros id Hid. cbn [bb with_log with_bb]. apply upd_other. congruence.
Qed.

Lemma LOG_frame P lvl txt st : loadFrame P st (final (LOG lvl txt st)).
Proof.
  unfold LOG. destruct lvl; cbn [final]; apply loadFrame_log.
Qed.

Lemma setValues_vector_frame this (v : list float) st :
  loadFrame (eq this) st (final (setValues_vector this v st)).
Proof.
  destruct (Nat.eq_dec (length v) 8) as [E | E].
  - rewrite setValues_vector_size8 by exact E. cbn [final].
    rewrite <- app_assoc. apply loadFrame_upd.
  - rewrite setValues_vector_wrong_size by exact E. apply loadFrame_log.
Qed.

Lemma setValues_table_frame this particle (p : LabeledArray) st :
  loadFrame (eq this) st (final (setValues_table this particle p st)).
Proof.
  destruct (F32.ltb (get p particle "Set parameters") F32.one_and_a_half) eqn:Hflag.
  - rewrite setValues_table_below by exact Hflag. apply loadFrame_log.
  - rewrite setValues_table_not_below by exact Hflag. cbn [final].
    rewrite <- !app_assoc. apply loadFrame_upd.
Qed.

Lemma setValues_TH1F_frame this (h : option H) st :
  loadFrame (eq this) st (final (setValues_TH1F this h st)).
Proof.
  destruct h as [h |]; [| apply loadFrame_refl].
  destruct (Z.eq_dec (GetNbinsX (snd (readBins bbLabels h))) (GetNbinsX h)) as [E | E].
  - rewrite setValues_TH1F_accepted by exact E. cbn [final].
    rewrite <- !app_assoc. apply loadFrame_upd.
  - rewrite setValues_TH1F_rejected by exact E. apply loadFrame_log.
Qed.

Lemma setValues_TFile_frame this (f : option TFile) st :
  loadFrame (eq this) st (final (setValues_TFile this f st)).
Proof.
  destruct f as [f |]; [| apply loadFrame_refl].
  destruct (f !! "hpar"%string) as [h |] eqn:Hh.
  - rewrite (setValues_TFile_hpar _ _ _ _ Hh).
    eapply loadFrame_trans;
      [apply (loadFrame_log _ _ [line info "Setting parameters from file"]) |].
    pose proof (setValues_TH1F_frame this (Some h)
                  (with_log (log st ++ [line info "Setting parameters from file"]) st)) as Hf.
    destruct (setValues_TH1F this (Some h) _) as [r s | why s]; exact Hf.
  - rewrite (setValues_TFile_no_hpar _ _ _ Hh). apply loadFrame_log.
Qed.

Lemma ccdb_put_frame P key h st : loadFrame P st (final (ccdb_put key h st)).
Proof. unfold ccdb_put. cbn [final]. repeat split. exists []. symmetry. apply app_nil_r. Qed.

Lemma setValues_cfg_frame this name value st :
  loadFrame (eq this) st (final (setValues_cfg this name value st)).
Proof.
  unfold setValues_cfg.
  destruct (String.length value <=? 1)%nat; [apply loadFrame_refl |].
  apply final_bind; [apply loadFrame_trans | apply LOG_frame |].
  intros [] s1 _.
  destruct (String.prefix "ccdb://" value).
  - apply final_bind; [apply loadFrame_trans | apply loadFrame_refl |].
    intros h s2 _.
    apply final_bind; [apply loadFrame_trans | apply setValues_TH1F_frame |].
    intros r s3 _.
    apply final_bind; [apply loadFrame_trans | apply ccdb_put_frame |].
    intros [] s4 _. apply loadFrame_refl.
  - apply final_bind; [apply loadFrame_trans | apply loadFrame_refl |].
    intros f s2 _. apply setValues_TFile_frame.
Qed.

Lemma resolve_frame (cfg : Config) id st :
  loadFrame (eq id) st (final (resolve cfg id st)).
Proof.
  unfold resolve.
  apply final_bind; [apply loadFrame_trans | apply setValues_table_frame |].
  intros b s1 _.
  apply final_bind; [apply loadFrame_trans | apply setValues_cfg_frame |].
  intros b' s2 _. apply loadFrame_refl.
Qed.

Lemma init_species_frame initContext (cfg : Config) id st :
  loadFrame (fun id' => id' = id /\ enabled cfg id' = true) st
    (final (init_species initContext cfg id st)).
Proof.
  unfold init_species. fold (enabled cfg id).
  destruct (enabled cfg id) eqn:Hen.
  - apply loadFrame_weaken with (P := eq id); [intros id' <-; auto |].
    apply final_bind; [apply loadFrame_trans | |].
    + destruct id; try apply LOG_frame. apply loadFrame_refl.
    + intros [] s1 _. apply resolve_frame.
  - apply final_bind; [apply loadFrame_trans | apply LOG_frame |].
    intros [] s1 _.
    destruct (_ || _); [apply LOG_frame | apply loadFrame_refl].
Qed.

Lemma init_blocks_frame initContext (cfg : Config) (ids : list ID) st :
  loadFrame (fun id => In id ids /\ enabled cfg id = true) st
    (final (init_blocks initContext cfg ids st)).
Proof.
  revert st. induction ids as [| id ids IH]; intros st.
  - apply loadFrame_refl.
  - cbn [init_blocks].
    apply final_bind; [apply loadFrame_trans | |].
    + eapply loadFrame_weaken; [| apply init_species_frame].
      intros id' [-> Hen]. split; [left; reflexivity | exact Hen].
    + intros [] s1 _.
      eapply loadFrame_weaken; [| apply IH].
      intros id' [Hin Hen]. split; [right; exact Hin | exact Hen].
Qed.

End Frames.

(** ** Which blocks of init are passed *)

Section Blocks.
Context {H : Type} {HL : HistLike H} {C : Collaborators}.
Implicit Types (st : St (H := H)) (this id : ID) (h : H).

Lemma ccdb_setup_settings (cfg : Config) st :
  exists st',
    ccdb_setup cfg st = Done tt st' /\
    URL (ccdb st') = url cfg /\
    caching (ccdb st') = true /\
    localObjectValidityChecking (ccdb st') = true /\
    createdNotAfter (ccdb st') = clock st /\
    timestamp (ccdb st') =
      (if (ccdbTimestamp cfg =? 0)%Z then timestamp (ccdb st) else ccdbTimestamp cfg) /\
    objects (ccdb st') = objects (ccdb st) /\
    bb st' = bb st /\ sameTables st st' /\ files st' = files st /\ clock st' = clock st /\
    log st' =
      log st ++
      (if (ccdbTimestamp cfg =? 0)%Z then []
       else [line info "Initialising LF TPC PID response for fixed timestamp"]).
Proof.
  unfold ccdb_setup, bind, LOG.
  destruct (ccdbTimestamp cfg =? 0)%Z; cbn [negb]; eexists; (split; [reflexivity |]);
    cbn; rewrite ?app_nil_r; repeat split.
Qed.

Lemma NoDup_allSpecies : NoDup allSpecies.
Proof. apply (bool_decide_unpack _). vm_compute. exact I. Qed.

(** X5.  A resolution that ends normally has changed the parameters of
    its own species at most: those of every other species, all tables,
    the call counter, the files, the clock and the settings of the
    manager are as before, and the log has only grown. *)
Theorem resolving_touches_one_species (cfg : Config) id st st' :
  resolve cfg id st = Done tt st' ->
  (forall id', id' <> id -> bb st' id' = bb st id') /\
  tablePID st' = tablePID st /\ tablePIDFull st' = tablePIDFull st /\
  modelCalls st' = modelCalls st /\
  files st' = files st /\ clock st' = clock st /\
  sameSettings (ccdb st) (ccdb st') /\
  exists l, log st' = log st ++ l.
Proof.
  intros Hrun.
  pose proof (resolve_frame cfg id st) as Hf. rewrite Hrun in Hf. cbn [final] in Hf.
  destruct Hf as (B & (T & F & M) & S & Fi & Cl & L).
  split; [intros id' Hne; apply B; congruence |].
  repeat (split; [assumption |]). exact L.
Qed.

(** X6.  When [init] returns or stops on a fatal line, the parameters of
    every species whose two process switches are off are as they were,
    and so are the tables, the call counter, the files and the clock; the
    log has only grown. *)
Theorem init_leaves_disabled_species_alone (initContext : InitContext) (cfg : Config) st :
  match init initContext cfg st with
  | Aborted NullDereference _ => True
  | Done _ st' | Aborted FatalLog st' =>
      (forall id, doprocess cfg id = false -> doprocessFull cfg id = false ->
                  bb st' id = bb st id) /\
      tablePID st' = tablePID st /\ tablePIDFull st' = tablePIDFull st /\
      modelCalls st' = modelCalls st /\
      files st' = files st /\ clock st' = clock st /\
      exists l, log st' = log st ++ l
  end.
Proof.
  unfold init, bind.
  pose proof (init_blocks_frame initContext cfg allSpecies st) as Hf.
  destruct (init_blocks initContext cfg allSpecies st) as [[] st1 | [] st1];
    cbn [final] in Hf; [| | exact I];
    destruct Hf as (B & (T & F & M) & S & Fi & Cl & l & L).
  - destruct (ccdb_setup_settings cfg st1)
      as (st2 & Hrun & _ & _ & _ & _ & _ & _ & B2 & (T2 & F2 & M2) & Fi2 & Cl2 & L2).
    rewrite Hrun.
    split.
    { intros id Hoff Hoff'. rewrite B2. apply B. intros [_ Hen].
      unfold enabled in Hen. rewrite Hoff, Hoff' in Hen. discriminate. }
    repeat (split; [congruence |]).
    eexists. rewrite L2, L, <- app_assoc. reflexivity.
  - split.
    { intros id Hoff Hoff'. apply B. intros [_ Hen].
      unfold enabled in Hen. rewrite Hoff, Hoff' in Hen. discriminate. }
    repeat (split; [assumption |]). eauto.
Qed.

(** X7.  [init] returns exactly when every block is passed: no species
    with both switches off has a requested table, and the locator of every
    enabled species is at most one character long or can be served.  In
    every other case it stops. *)
Theorem init_returns_iff_every_block_passes (initContext : InitContext) (cfg : Config) st :
  (exists st', init initContext cfg st = Done tt st') <->
  (forall id, enabled cfg id = false -> requested initContext id = false) /\
  (forall id, enabled cfg id = true ->
              (1 < String.length (fileParamBb cfg id))%nat ->
              reachable (fileParamBb cfg id) st = true).
Proof.
  rewrite <- passes_spec. unfold init, bind. split.
  - intros (st' & Hrun) id.
    destruct (init_blocks initContext cfg allSpecies st) as [[] st1 | why st1] eqn:Hblocks;
      [| discriminate].
    eapply init_blocks_done; [exact Hblocks | apply In_allSpecies].
  - intros Hall.
    destruct (init_blocks_pass initContext cfg allSpecies st) as (st1 & Hrun1 & _).
    { intros id _. apply Hall. }
    rewrite Hrun1.
    destruct (ccdb_setup_settings cfg st1) as (st2 & Hrun2 & _). eauto.
Qed.

(** X8.  The manager is set up after the parameters are loaded: when the
    nine blocks have run, and when [init] stops on a fatal line, the
    settings of the manager are those it had before; when [init] returns,
    its URL is the configured one, caching and the local validity check
    are on, the creation bound is the time of the call, and the timestamp
    is the configured one unless that is 0, in which case it is as
    before. *)
Theorem manager_is_set_up_after_loading (initContext : InitContext) (cfg : Config) st :
  (forall st1, init_blocks initContext cfg allSpecies st = Done tt st1 ->
               sameSettings (ccdb st) (ccdb st1)) /\
  match init initContext cfg st with
  | Done _ st' =>
      URL (ccdb st') = url cfg /\
      caching (ccdb st') = true /\
      localObjectValidityChecking (ccdb st') = true /\
      createdNotAfter (ccdb st') = clock st /\
      timestamp (ccdb st') =
        (if (ccdbTimestamp cfg =? 0)%Z then timestamp (ccdb st) else ccdbTimestamp cfg)
  | Aborted FatalLog st' => sameSettings (ccdb st) (ccdb st')
  | Aborted NullDereference _ => True
  end.
Proof.
  pose proof (init_blocks_frame initContext cfg allSpecies st) as Hf.
  destruct Hf as (_ & _ & S & _ & Cl & _).
  split; [intros st1 Hrun; rewrite Hrun in S; exact S |].
  unfold init, bind.
  destruct (init_blocks initContext cfg allSpecies st) as [[] st1 | [] st1];
    cbn [final] in *; [| exact S | exact I].
  destruct (ccdb_setup_settings cfg st1) as (st2 & Hrun & HU & HK & HV & HN & HT & _).
  rewrite Hrun. destruct S as (_ & _ & _ & _ & S5).
  rewrite HU, HK, HV, HN, HT, Cl, S5. repeat split.
Qed.

(** X9.  The blocks run in the order of the species and the first one
    that is not passed ends [init]: on the null pointer when that species
    is enabled, and otherwise on the fatal line that names it, in which
    case the species after it have kept their parameters and the manager
    its settings. *)
Theorem first_failing_block_ends_init (initContext : InitContext) (cfg : Config)
    (pre post : list ID) id st :
  allSpecies = pre ++ id :: post ->
  (forall id', In id' pre -> passes initContext cfg st id' = true) ->
  passes initContext cfg st id = false ->
  exists st',
    init initContext cfg st =
      Aborted (if enabled cfg id then NullDereference else FatalLog) st' /\
    (enabled cfg id = false ->
     last (log st') = Some (fatalLine id) /\
     (forall id', In id' post -> bb st' id' = bb st id') /\
     sameSettings (ccdb st) (ccdb st')).
Proof.
  intros Hsplit Hpre Hfail.
  assert (Hnd : NoDup (pre ++ id :: post))
    by (rewrite <- Hsplit; apply NoDup_allSpecies).
  unfold init. unfold bind at 1. rewrite Hsplit.
  rewrite init_blocks_app. unfold bind at 1.
  pose proof (init_blocks_frame initContext cfg pre st) as Hf1.
  destruct (init_blocks_pass initContext cfg pre st Hpre) as (st1 & Hrun1 & Hframe1).
  rewrite Hrun1 in *. cbn [init_blocks final] in *. unfold bind at 1.
  pose proof (init_species_result initContext cfg id st1) as Hres.
  pose proof (init_species_frame initContext cfg id st1) as Hf2.
  rewrite (passes_initFrame _ _ _ _ _ Hframe1), Hfail in Hres.
  destruct (init_species initContext cfg id st1) as [[] st2 | why st2].
  - destruct Hres as [Hres _]. discriminate.
  - destruct Hres as (_ & -> & Hlast). cbn [final] in Hf2.
    destruct Hf1 as (B1 & _ & (U1 & K1 & V1 & N1 & S1) & _).
    destruct Hf2 as (B2 & _ & (U2 & K2 & V2 & N2 & S2) & _).
    exists st2. split; [reflexivity |]. intros Hen.
    split; [apply Hlast, Hen |]. split; [| repeat split; congruence].
    apply NoDup_app in Hnd. destruct Hnd as (_ & Hdisj & Hnd).
    apply NoDup_cons in Hnd. destruct Hnd as [Hnotin _].
    intros id' Hin. apply list_elem_of_In in Hin.
    rewrite B2, B1; [reflexivity | |].
    + intros [Hin' _]. apply list_elem_of_In in Hin'.
      apply (Hdisj id' Hin'). right. exact Hin.
    + intros [-> _]. exact (Hnotin Hin).
Qed.

End Blocks.

(** ** External sources: rejected, shared, and served by the manager *)

Section Sources.
Context {H : Type} {HL : HistLike H} {C : Collaborators}.
Implicit Types (st : St (H := H)) (this id : ID) (h : H).

(** A histogram that the lookups have grown is rejected. *)
Lemma setValues_cfg_grown this name value h st :
  (1 < String.length value)%nat ->
  locate value st = Some h ->
  GetNbinsX (snd (readBins bbLabels h)) <> GetNbinsX h ->
  exists st', setValues_cfg this name value st = Done false st' /\ bb st' = bb st.
Proof.
  intros Hlen Hloc Hn. unfold setValues_cfg, locate in *.
  long_locator value.
  step_LOG.
  destruct (String.prefix "ccdb://" value).
  - unfold bind, ccdb_get. cbn [ccdb with_log]. rewrite Hloc.
    rewrite setValues_TH1F_rejected by exact Hn.
    eexists. split; reflexivity.
  - unfold bind, TFile_Open. cbn [files with_log].
    destruct (files st !! value) as [f |]; [| discriminate].
    cbn in Hloc. rewrite (setValues_TFile_hpar _ _ _ _ Hloc).
    rewrite setValues_TH1F_rejected by exact Hn.
    eexists. split; reflexivity.
Qed.

(** Putting back the object that was fetched leaves the manager as it is. *)
Lemma ccdb_put_same key h st :
  objects (ccdb st) !! key = Some h ->
  exists st', ccdb_put key h st = Done tt st' /\
              ccdb st' = ccdb st /\ files st' = files st /\
              bb st' = bb st /\ log st' = log st.
Proof.
  intros Hkey. unfold ccdb_put. eexists. split; [reflexivity |].
  cbn [ccdb files bb log with_ccdb]. rewrite insert_id by exact Hkey.
  destruct (ccdb st). repeat split.
Qed.

(** A well-formed histogram is taken, and reading it changes neither the
    manager nor the files. *)
Lemma setValues_cfg_wellFormed this name value h st :
  (1 < String.length value)%nat ->
  locate value st = Some h ->
  wellFormed h ->
  exists st',
    setValues_cfg this name value st = Done true st' /\
    bb st' = upd this (assign (binContents h)) (bb st) /\
    ccdb st' = ccdb st /\ files st' = files st.
Proof.
  intros Hlen Hloc Hwf.
  pose proof (wellFormed_readBins h Hwf) as Hread.
  assert (Hn : GetNbinsX (snd (readBins bbLabels h)) = GetNbinsX h)
    by (rewrite Hread; reflexivity).
  unfold setValues_cfg, locate in *.
  long_locator value.
  step_LOG.
  destruct (String.prefix "ccdb://" value).
  - unfold bind at 1. unfold ccdb_get. cbn [ccdb with_log]. rewrite Hloc.
    unfold bind at 1.
    rewrite setValues_TH1F_accepted by exact Hn.
    unfold bind at 1. rewrite Hread. cbn [fst snd].
    match goal with
    | |- context [ccdb_put ?k h ?s] =>
        destruct (ccdb_put_same k h s) as (st' & Hput & Hc & Hf & Hb & _);
          [exact Hloc |]
    end.
    rewrite Hput. exists st'. split; [reflexivity |].
    rewrite Hb, Hc, Hf. repeat split.
  - unfold bind, TFile_Open. cbn [files with_log].
    destruct (files st !! value) as [f |]; [| discriminate].
    cbn in Hloc. rewrite (setValues_TFile_hpar _ _ _ _ Hloc).
    rewrite setValues_TH1F_accepted by exact Hn.
    rewrite Hread. eexists. split; [reflexivity |]. repeat split.
Qed.

Lemma locate_same_services value st st' :
  ccdb st' = ccdb st -> files st' = files st -> locate value st' = locate value st.
Proof. intros Hc Hf. unfold locate. rewrite Hc, Hf. reflexivity. Qed.

Lemma resolve_wellFormed (cfg : Config) id h st :
  (1 < String.length (fileParamBb cfg id))%nat ->
  locate (fileParamBb cfg id) st = Some h ->
  wellFormed h ->
  exists st',
    resolve cfg id st = Done tt st' /\
    bb st' id = assign (binContents h) /\
    (forall id', id' <> id -> bb st' id' = bb st id') /\
    ccdb st' = ccdb st /\ files st' = files st.
Proof.
  intros Hlen Hloc Hwf. unfold resolve, bind.
  assert (Ht : exists b st1,
             setValues_table id (Particle id) (bbParameters cfg) st = Done b st1 /\
             (forall id', id' <> id -> bb st1 id' = bb st id') /\
             ccdb st1 = ccdb st /\ files st1 = files st).
  { destruct (F32.ltb (get (bbParameters cfg) (Particle id) "Set parameters")
                F32.one_and_a_half) eqn:Hflag.
    - rewrite setValues_table_below by exact Hflag. eexists _, _.
      split; [reflexivity |]. repeat split.
    - rewrite setValues_table_not_below by exact Hflag. eexists _, _.
      split; [reflexivity |]. repeat split.
      intros id' Hne. cbn [bb with_log with_bb]. apply upd_other, Hne. }
  destruct Ht as (b & st1 & Hrun1 & Hb1 & Hc1 & Hf1). rewrite Hrun1.
  destruct (setValues_cfg_wellFormed id ("filePparamBb" +:+ Particle id)
              (fileParamBb cfg id) h st1 Hlen) as (st2 & Hrun2 & Hb2 & Hc2 & Hf2);
    [rewrite (locate_same_services _ _ _ Hc1 Hf1); exact Hloc | exact Hwf |].
  rewrite Hrun2. exists st2. split; [reflexivity |].
  rewrite Hb2. split; [apply upd_same |].
  split; [| split; congruence].
  intros id' Hne. rewrite upd_other by exact Hne. apply Hb1, Hne.
Qed.

Lemma substring_all (s : string) : String.substring 0 (String.length s) s = s.
Proof. induction s as [| c s IH]; [reflexivity |]. cbn. rewrite IH. reflexivity. Qed.

(** The key that the manager is asked for is the locator without its
    first 7 characters. *)
Lemma ccdb_key (key : string) :
  String.prefix "ccdb://" ("ccdb://" +:+ key) = true /\
  String.substring 7 (String.length ("ccdb://" +:+ key) - 7) ("ccdb://" +:+ key) = key /\
  (String.length ("ccdb://" +:+ key) <=? 1)%nat = false.
Proof.
  cbv [String.append].
  split; [cbn; destruct key; reflexivity |].
  split; [| reflexivity].
  cbn [String.length Nat.sub String.substring].
  rewrite Nat.sub_0_r. apply substring_all.
Qed.

(** X10.  An external source that is found and rejected leaves what the
    table step produced: when the lookups grow the histogram that the
    locator leads to, or the file opens and holds no [hpar], resolution
    ends normally, with the table's 8 values for the species when its "Set
    parameters" flag is not below 1.5 and with every parameter as before
    when it is. *)
Theorem rejected_source_leaves_the_table_values (cfg : Config) id st :
  (1 < String.length (fileParamBb cfg id))%nat ->
  (exists h, locate (fileParamBb cfg id) st = Some h /\
             GetNbinsX (snd (readBins bbLabels h)) <> GetNbinsX h) \/
  (String.prefix "ccdb://" (fileParamBb cfg id) = false /\
   exists f : TFile, files st !! fileParamBb cfg id = Some f /\ f !! "hpar"%string = None) ->
  exists st',
    resolve cfg id st = Done tt st' /\
    bb st' =
      (if F32.ltb (get (bbParameters cfg) (Particle id) "Set parameters") F32.one_and_a_half
       then bb st
       else upd id (fromTable (bbParameters cfg) (Particle id)) (bb st)).
Proof.
  intros Hlen Hsrc. unfold resolve, bind.
  change (fromTable (bbParameters cfg) (Particle id))
    with (assign (map (get (bbParameters cfg) (Particle id)) bbLabels)).
  assert (Ht : exists b st1,
             setValues_table id (Particle id) (bbParameters cfg) st = Done b st1 /\
             bb st1 =
               (if F32.ltb (get (bbParameters cfg) (Particle id) "Set parameters")
                     F32.one_and_a_half
                then bb st
                else upd id (assign (map (get (bbParameters cfg) (Particle id)) bbLabels))
                       (bb st)) /\
             ccdb st1 = ccdb st /\ files st1 = files st).
  { destruct (F32.ltb (get (bbParameters cfg) (Particle id) "Set parameters")
                F32.one_and_a_half) eqn:Hflag.
    - rewrite setValues_table_below by exact Hflag. eexists _, _.
      split; [reflexivity |]. repeat split.
    - rewrite setValues_table_not_below by exact Hflag. eexists _, _.
      split; [reflexivity |]. repeat split. }
  destruct Ht as (b & st1 & Hrun1 & Hb1 & Hc1 & Hf1). rewrite Hrun1, <- Hb1.
  destruct Hsrc as [(h & Hloc & Hn) | (Hpre & f & Hf & Hh)].
  - destruct (setValues_cfg_grown id ("filePparamBb" +:+ Particle id)
                (fileParamBb cfg id) h st1 Hlen) as (st2 & Hrun2 & Hb2);
      [rewrite (locate_same_services _ _ _ Hc1 Hf1); exact Hloc | exact Hn |].
    rewrite Hrun2. eauto.
  - destruct (setValues_cfg_no_hpar id ("filePparamBb" +:+ Particle id)
                (fileParamBb cfg id) f st1 Hlen Hpre) as (st2 & Hrun2 & Hb2 & _);
      [rewrite Hf1; exact Hf | exact Hh |].
    rewrite Hrun2. eauto.
Qed.

(** X11.  Reading a well-formed source does not change it: two species
    whose locators are the same and lead to a well-formed histogram end,
    one resolved after the other, with the same parameters, each constant
    the content of the bin labelled with its name, whatever their rows of
    the table hold, and the
    manager and the files are as before. *)
Theorem shared_source_gives_equal_parameters (cfg : Config) (id1 id2 : ID) h st :
  fileParamBb cfg id2 = fileParamBb cfg id1 ->
  (1 < String.length (fileParamBb cfg id1))%nat ->
  locate (fileParamBb cfg id1) st = Some h ->
  wellFormed h ->
  exists st1 st2,
    resolve cfg id1 st = Done tt st1 /\
    resolve cfg id2 st1 = Done tt st2 /\
    bb st2 id1 = fromHistogram h /\
    bb st2 id2 = fromHistogram h /\
    ccdb st2 = ccdb st /\ files st2 = files st.
Proof.
  intros Hsame Hlen Hloc Hwf.
  change (fromHistogram h) with (assign (binContents h)).
  destruct (resolve_wellFormed cfg id1 h st Hlen Hloc Hwf)
    as (st1 & Hrun1 & Hown1 & _ & Hc1 & Hf1).
  destruct (resolve_wellFormed cfg id2 h st1)
    as (st2 & Hrun2 & Hown2 & Hother2 & Hc2 & Hf2).
  { rewrite Hsame. exact Hlen. }
  { rewrite Hsame, (locate_same_services _ _ _ Hc1 Hf1). exact Hloc. }
  { exact Hwf. }
  exists st1, st2. split; [exact Hrun1 |]. split; [exact Hrun2 |].
  split; [| split; [exact Hown2 | split; congruence]].
  destruct (decide (id1 = id2)) as [-> | Hne]; [exact Hown2 |].
  rewrite Hother2 by exact Hne. exact Hown1.
Qed.

(** X12.  A locator that starts with "ccdb://" is served by the manager,
    under the key that follows these 7 characters, and never by a file:
    with no object under that key a member is called through the null
    pointer, and with one the call answers whether the lookups left its
    number of bins alone, the manager then holds the histogram as the
    lookups left it, and the files are as before.  A call for a locator
    that does not start so and that ends normally has left the manager as
    it is. *)
Theorem ccdb_locator_is_served_by_the_manager this name (key : string) st :
  match objects (ccdb st) !! key with
  | None =>
      exists st',
        setValues_cfg this name ("ccdb://" +:+ key) st = Aborted NullDereference st'
  | Some h =>
      exists st',
        setValues_cfg this name ("ccdb://" +:+ key) st
          = Done (GetNbinsX (snd (readBins bbLabels h)) =? GetNbinsX h)%Z st' /\
        objects (ccdb st') = <[key := snd (readBins bbLabels h)]> (objects (ccdb st)) /\
        files st' = files st
  end /\
  forall value b st',
    String.prefix "ccdb://" value = false ->
    setValues_cfg this name value st = Done b st' ->
    ccdb st' = ccdb st.
Proof.
  split.
  - destruct (ccdb_key key) as (Hpre & Hkey & Hlen).
    unfold setValues_cfg. rewrite Hlen, Hpre, Hkey.
    destruct (objects (ccdb st) !! key) as [h |] eqn:Hobj;
      step_LOG; unfold bind at 1; unfold ccdb_get; cbn [ccdb with_log]; rewrite Hobj.
    + unfold bind at 1.
      destruct (Z.eqb_spec (GetNbinsX (snd (readBins bbLabels h))) (GetNbinsX h)) as [E | E].
      * rewrite setValues_TH1F_accepted by exact E.
        eexists. split; [reflexivity |]. split; reflexivity.
      * rewrite setValues_TH1F_rejected by exact E.
        eexists. split; [reflexivity |]. split; reflexivity.
    + eexists. reflexivity.
  - intros value b st' Hpre. unfold setValues_cfg. rewrite Hpre.
    destruct (String.length value <=? 1)%nat; [intros [= _ <-]; reflexivity |].
    step_LOG. unfold bind, TFile_Open. cbn [files with_log].
    destruct (files st !! value) as [f |]; [| discriminate].
    destruct (f !! "hpar"%string) as [h |] eqn:Hh.
    + rewrite (setValues_TFile_hpar _ _ _ _ Hh).
      destruct (setValues_TH1F_some this h
                  (with_log ((log st ++ [line info ("Loading parameters " +:+ name +:+ " from file " +:+ value)])
                               ++ [line info "Setting parameters from file"])
                     (with_log (log st ++ [line info ("Loading parameters " +:+ name +:+ " from file " +:+ value)]) st)))
        as (b1 & st1 & Hrun & _ & Hc & _).
      cbn [log with_log] in *. rewrite Hrun. intros [= _ <-]. exact Hc.
    + rewrite (setValues_TFile_no_hpar _ _ _ Hh). intros [= _ <-]. reflexivity.
Qed.

End Sources.

(** ** The models at the edges of single precision *)

Lemma mul_nan_r (x : float) : F32.mul x F32.nan = F32.nan.
Proof. destruct x; reflexivity. Qed.

Lemma add_nan_r (x : float) : F32.add x F32.nan = F32.nan.
Proof. destruct x; reflexivity. Qed.

Lemma sqrt_negative (x : float) : isNegative x = true -> F32.sqrt x = F32.nan.
Proof. destruct x as [s | [] | | [] m e]; try discriminate; reflexivity. Qed.

(** A number minus itself is +0. *)
Lemma sub_diag (x : float) : isFinite x = true -> F32.sub x x = F32.zero.
Proof.
  destruct x as [[] | s | | s m e]; try discriminate; intros _; try reflexivity.
  unfold F32.sub, SFsub. rewrite Z.min_id. unfold shl_align.
  rewrite Z.sub_diag. reflexivity.
Qed.

(** +0 divided by an absolute value. *)
Lemma div_zero_abs (y : float) :
  F32.div F32.zero (F32.abs y) =
  if isZero (F32.abs y) || F32.is_nan (F32.abs y) then F32.nan else F32.zero.
Proof. destruct y as [s | s | | s m e]; reflexivity. Qed.

Section Model_edges.
Context {C : Collaborators}.

(** X13.  A track whose signal is exactly the expected one, a number, has
    the residual +0 when the expected resolution is neither 0 nor a NaN,
    and a NaN residual when the expected resolution is 0 or a NaN: the
    process functions divide without a guard. *)
Theorem exact_signal_has_zero_or_nan_residual (id : ID) (trk : Track) (params : bbParams) :
  tpcSignal trk = BetheBlochLf id trk params ->
  isFinite (BetheBlochLf id trk params) = true ->
  nSigma id trk params =
  if isZero (BetheBlochResolutionLf id trk params)
     || F32.is_nan (BetheBlochResolutionLf id trk params)
  then F32.nan else F32.zero.
Proof.
  intros Hsig Hfin. unfold nSigma. rewrite Hsig, sub_diag by exact Hfin.
  unfold BetheBlochResolutionLf. apply div_zero_abs.
Qed.

(** X14.  For a negative expected signal the square root is a NaN, and
    with it deltaP and bgDelta: the expected resolution is then the
    distance of the expected signal from the curve at a NaN argument, and
    depends neither on the resolution parameter nor on the full mass. *)
Theorem resolution_of_negative_signal (id : ID) (track : Track) (params : bbParams) :
  isNegative (BetheBlochLf id track params) = true ->
  BetheBlochResolutionLf id track params =
  F32.abs
    (F32.sub
       (F32.mul
          (F32.mul (mip params)
             (BetheBlochAleph F32.nan (bb1 params) (bb2 params) (bb3 params)
                (bb4 params) (bb5 params)))
          (pow (charge id) (exp params)))
       (BetheBlochLf id track params)).
Proof.
  intros Hneg. unfold BetheBlochResolutionLf.
  rewrite (sqrt_negative _ Hneg), mul_nan_r, add_nan_r, mul_nan_r, mul_nan_l.
  reflexivity.
Qed.

End Model_edges.

(** ** init, block by block *)

Section Init_blocks.
Context {H : Type} {HL : HistLike H} {C : Collaborators}.
Implicit Types (st : St (H := H)) (this id : ID) (h : H).

(** A well-formed histogram stays where it is located, whatever else is
    loaded: reading it does not change it, and reading another object
    changes that object only. *)
Lemma setValues_cfg_keeps_wellFormed this name value (v : string) h st :
  locate v st = Some h -> wellFormed h ->
  locate v (final (setValues_cfg this name value st)) = Some h.
Proof.
  intros Hloc Hwf. unfold setValues_cfg.
  destruct (String.length value <=? 1)%nat; [exact Hloc |].
  step_LOG.
  set (st0 := with_log _ st).
  assert (Hloc0 : locate v st0 = Some h) by exact Hloc.
  clearbody st0. clear Hloc.
  destruct (String.prefix "ccdb://" value).
  - set (key := String.substring 7 (String.length value - 7) value).
    unfold bind at 1. unfold ccdb_get.
    destruct (objects (ccdb st0) !! key) as [h' |] eqn:Hobj; [| exact Hloc0].
    unfold bind at 1.
    destruct (setValues_TH1F_some this h' st0) as (b & st1 & Hrun & _ & Hc & Hf).
    rewrite Hrun. unfold bind, ccdb_put, ret. cbn [final snd].
    unfold locate in *. cbn [ccdb files objects with_ccdb]. rewrite Hc, Hf.
    destruct (String.prefix "ccdb://" v); [| exact Hloc0].
    destruct (decide (String.substring 7 (String.length v - 7) v = key)) as [E | E].
    + rewrite E in *. rewrite lookup_insert_eq.
      assert (h' = h) as -> by congruence.
      rewrite (wellFormed_readBins h Hwf). reflexivity.
    + rewrite lookup_insert_ne by congruence. exact Hloc0.
  - unfold bind, TFile_Open.
    destruct (files st0 !! value) as [f |]; [| exact Hloc0].
    destruct (f !! "hpar"%string) as [h' |] eqn:Hh.
    + rewrite (setValues_TFile_hpar _ _ _ _ Hh).
      destruct (setValues_TH1F_some this h'
                  (with_log (log st0 ++ [line info "Setting parameters from file"]) st0))
        as (b & st1 & Hrun & _ & Hc & Hf).
      rewrite Hrun. cbn [final]. rewrite (locate_same_services _ _ _ Hc Hf). exact Hloc0.
    + rewrite (setValues_TFile_no_hpar _ _ _ Hh). exact Hloc0.
Qed.

(** The table step: its answer, the parameters it leaves, and the
    services, which it does not use. *)
Lemma setValues_table_step this particle (p : LabeledArray) st :
  exists st1,
    setValues_table this particle p st
      = Done (negb (F32.ltb (get p particle "Set parameters") F32.one_and_a_half)) st1 /\
    bb st1 =
      (if F32.ltb (get p particle "Set parameters") F32.one_and_a_half
       then bb st
       else upd this (assign (map (get p particle) bbLabels)) (bb st)) /\
    ccdb st1 = ccdb st /\ files st1 = files st /\
    exists first l, log st1 = log st ++ first :: l /\
      first = line info
        (if F32.ltb (get p particle "Set parameters") F32.one_and_a_half
         then "Using default for " +:+ particle +:+ " input vector size < 1.5"
         else "Setting custom Bethe-Bloch parameters for mass hypothesis " +:+ particle).
Proof.
  destruct (F32.ltb (get p particle "Set parameters") F32.one_and_a_half) eqn:Hflag.
  - rewrite setValues_table_below by exact Hflag. eexists.
    split; [reflexivity |]. repeat split. eexists _, []. split; reflexivity.
  - rewrite setValues_table_not_below by exact Hflag. eexists.
    split; [reflexivity |]. repeat split. eexists _, [_; _].
    cbn [log with_log]. rewrite <- !app_assoc. split; reflexivity.
Qed.

Lemma resolve_keeps_wellFormed (cfg : Config) id (v : string) h st :
  locate v st = Some h -> wellFormed h ->
  locate v (final (resolve cfg id st)) = Some h.
Proof.
  intros Hloc Hwf. unfold resolve. unfold bind at 1.
  destruct (setValues_table_step id (Particle id) (bbParameters cfg) st)
    as (st1 & Hrun1 & _ & Hc1 & Hf1 & _).
  rewrite Hrun1.
  pose proof (setValues_cfg_keeps_wellFormed id ("filePparamBb" +:+ Particle id)
                (fileParamBb cfg id) v h st1) as Hkeep.
  rewrite (locate_same_services _ _ _ Hc1 Hf1) in Hkeep.
  specialize (Hkeep Hloc Hwf). unfold bind.
  destruct (setValues_cfg id _ (fileParamBb cfg id) st1) as [b s | why s]; exact Hkeep.
Qed.

Lemma init_species_keeps_wellFormed initContext (cfg : Config) id (v : string) h st :
  locate v st = Some h -> wellFormed h ->
  locate v (final (init_species initContext cfg id st)) = Some h.
Proof.
  intros Hloc Hwf. unfold init_species.
  destruct (doprocess cfg id || doprocessFull cfg id).
  - unfold bind at 1.
    destruct id; unfold LOG, ret; cbn match;
      apply resolve_keeps_wellFormed; assumption.
  - unfold bind, LOG at 1. cbn match.
    destruct (_ || _); exact Hloc.
Qed.

(** What resolution leaves for its own species when the locator is at
    most one character long. *)
Lemma resolve_short (cfg : Config) id st :
  (String.length (fileParamBb cfg id) <= 1)%nat ->
  exists st',
    resolve cfg id st = Done tt st' /\
    bb st' =
      (if F32.ltb (get (bbParameters cfg) (Particle id) "Set parameters") F32.one_and_a_half
       then bb st
       else upd id (assign (map (get (bbParameters cfg) (Particle id)) bbLabels)) (bb st)).
Proof.
  intros Hlen. unfold resolve, bind.
  destruct (setValues_table_step id (Particle id) (bbParameters cfg) st)
    as (st1 & Hrun1 & Hb1 & _).
  rewrite Hrun1, setValues_cfg_short by exact Hlen. eauto.
Qed.

(** The block of an enabled species is its resolution, after the
    "Enabling" line if there is one. *)
Lemma init_species_enabled initContext (cfg : Config) id st :
  enabled cfg id = true ->
  exists st0,
    init_species initContext cfg id st = resolve cfg id st0 /\
    bb st0 = bb st /\ ccdb st0 = ccdb st /\ files st0 = files st /\
    log st0 =
      log st ++
      match id with
      | Alpha => []
      | _ => [line info ("Enabling " +:+ longName id)]
      end.
Proof.
  intros Hen. unfold init_species. fold (enabled cfg id). rewrite Hen.
  unfold bind at 1.
  destruct id; unfold LOG, ret; cbn match; eexists; (split; [reflexivity |]);
    cbn [bb ccdb files log with_log]; rewrite ?app_nil_r; repeat split.
Qed.

(** In a run of blocks that ends normally, the block of a species that
    occurs once among them starts from that species' parameters as they
    were, with every well-formed source still in its place, and leaves
    them as they are at the end. *)
Lemma init_blocks_own initContext (cfg : Config) (ids : list ID) id st st' :
  NoDup ids -> In id ids ->
  init_blocks initContext cfg ids st = Done tt st' ->
  exists s0 s1,
    init_species initContext cfg id s0 = Done tt s1 /\
    bb s0 id = bb st id /\
    bb st' id = bb s1 id /\
    (forall (v : string) h, locate v st = Some h -> wellFormed h -> locate v s0 = Some h).
Proof.
  revert st. induction ids as [| id0 ids IH]; intros st Hnd Hin Hrun; [destruct Hin |].
  apply NoDup_cons in Hnd. destruct Hnd as [Hnotin Hnd].
  cbn [init_blocks] in Hrun. unfold bind in Hrun.
  pose proof (init_species_frame initContext cfg id0 st) as Hf.
  pose proof (fun v h => init_species_keeps_wellFormed initContext cfg id0 v h st) as Hk.
  destruct (init_species initContext cfg id0 st) as [[] st1 | why st1] eqn:Hrun0;
    [| discriminate].
  cbn [final] in Hf, Hk.
  destruct (decide (id = id0)) as [-> | Hne].
  - exists st, st1. split; [exact Hrun0 |]. split; [reflexivity |].
    split; [| auto].
    pose proof (init_blocks_frame initContext cfg ids st1) as Hrest.
    rewrite Hrun in Hrest. cbn [final] in Hrest. destruct Hrest as (B & _).
    apply B. intros [Hin' _]. apply Hnotin, list_elem_of_In, Hin'.
  - destruct Hin as [-> | Hin]; [contradiction |].
    destruct (IH st1 Hnd Hin Hrun) as (s0 & s1 & Hown & Hb0 & Hb1 & Hlocs).
    exists s0, s1. split; [exact Hown |].
    destruct Hf as (B & _).
    split; [rewrite Hb0; apply B; intros [E _]; contradiction |].
    split; [exact Hb1 |].
    intros v h Hloc Hwf. apply Hlocs; [apply Hk |]; assumption.
Qed.

(** X17.  When [init] returns, an enabled species whose locator leads to
    a well-formed histogram has, for each of its 8 constants, the content
    of the bin labelled with its name, whatever the table holds and whatever the other eight blocks loaded. *)
Theorem init_loads_the_located_histogram (initContext : InitContext) (cfg : Config)
    id h st st' :
  init initContext cfg st = Done tt st' ->
  enabled cfg id = true ->
  (1 < String.length (fileParamBb cfg id))%nat ->
  locate (fileParamBb cfg id) st = Some h ->
  wellFormed h ->
  bb st' id = fromHistogram h.
Proof.
  intros Hrun Hen Hlen Hloc Hwf. unfold init, bind in Hrun.
  change (fromHistogram h) with (assign (binContents h)).
  destruct (init_blocks initContext cfg allSpecies st) as [[] st1 | why st1] eqn:Hblocks;
    [| discriminate].
  destruct (ccdb_setup_settings cfg st1)
    as (st2 & Hrun2 & _ & _ & _ & _ & _ & _ & B2 & _).
  rewrite Hrun2 in Hrun. injection Hrun as <-. rewrite B2.
  destruct (init_blocks_own initContext cfg allSpecies id st st1
              NoDup_allSpecies (In_allSpecies id) Hblocks)
    as (s0 & s1 & Hown & _ & Hb1 & Hlocs).
  destruct (init_species_enabled initContext cfg id s0 Hen)
    as (s0' & Hres & _ & Hc & Hf & _).
  rewrite Hres in Hown.
  destruct (resolve_wellFormed cfg id h s0' Hlen) as (s1' & Hrun1 & Hbb & _);
    [rewrite (locate_same_services _ _ _ Hc Hf); apply Hlocs; assumption | exact Hwf |].
  rewrite Hb1. congruence.
Qed.

(** X18.  When [init] returns, an enabled species whose locator is at
    most one character long has the 8 values of its row of the table when
    the row's "Set parameters" flag is not below 1.5, and the parameters
    it had before [init] when the flag is below 1.5. *)
Theorem init_without_locator_takes_the_table (initContext : InitContext) (cfg : Config)
    id st st' :
  init initContext cfg st = Done tt st' ->
  enabled cfg id = true ->
  (String.length (fileParamBb cfg id) <= 1)%nat ->
  bb st' id =
    (if F32.ltb (get (bbParameters cfg) (Particle id) "Set parameters") F32.one_and_a_half
     then bb st id
     else fromTable (bbParameters cfg) (Particle id)).
Proof.
  intros Hrun Hen Hlen. unfold init, bind in Hrun.
  change (fromTable (bbParameters cfg) (Particle id))
    with (assign (map (get (bbParameters cfg) (Particle id)) bbLabels)).
  destruct (init_blocks initContext cfg allSpecies st) as [[] st1 | why st1] eqn:Hblocks;
    [| discriminate].
  destruct (ccdb_setup_settings cfg st1)
    as (st2 & Hrun2 & _ & _ & _ & _ & _ & _ & B2 & _).
  rewrite Hrun2 in Hrun. injection Hrun as <-. rewrite B2.
  destruct (init_blocks_own initContext cfg allSpecies id st st1
              NoDup_allSpecies (In_allSpecies id) Hblocks)
    as (s0 & s1 & Hown & Hb0 & Hb1 & _).
  destruct (init_species_enabled initContext cfg id s0 Hen) as (s0' & Hres & Hb & _).
  rewrite Hres in Hown.
  destruct (resolve_short cfg id s0' Hlen) as (s1' & Hrun1 & Hbb).
  rewrite Hb1. assert (s1 = s1') as -> by congruence. rewrite Hbb.
  destruct (F32.ltb _ _); [congruence | apply upd_same].
Qed.

(** X19.  A block of [init] that ends normally or on its fatal line has
    first written one info line: "Skipping" and the name of a species
    whose two switches are off, "Enabling" and the name of an enabled
    species other than Alpha.  The Alpha block has no such line: the
    first line of an enabled Alpha is the one of the table step. *)
Theorem first_line_of_a_block (initContext : InitContext) (cfg : Config) id st :
  match init_species initContext cfg id st with
  | Aborted NullDereference _ => True
  | Done _ st' | Aborted FatalLog st' =>
      exists l,
        log st' =
        log st ++
        line info
          (if enabled cfg id then
             match id with
             | Alpha =>
                 if F32.ltb (get (bbParameters cfg) "Al" "Set parameters") F32.one_and_a_half
                 then "Using default for Al input vector size < 1.5"
                 else "Setting custom Bethe-Bloch parameters for mass hypothesis Al"
             | _ => "Enabling " +:+ longName id
             end
           else "Skipping " +:+ longName id) :: l
  end.
Proof.
  assert (Hfinal : exists l,
             log (final (init_species initContext cfg id st)) =
             log st ++
             line info
               (if enabled cfg id then
                  match id with
                  | Alpha =>
                      if F32.ltb (get (bbParameters cfg) "Al" "Set parameters")
                           F32.one_and_a_half
                      then "Using default for Al input vector size < 1.5"
                      else "Setting custom Bethe-Bloch parameters for mass hypothesis Al"
                  | _ => "Enabling " +:+ longName id
                  end
                else "Skipping " +:+ longName id) :: l).
  { destruct (enabled cfg id) eqn:Hen.
    - destruct (init_species_enabled initContext cfg id st Hen)
        as (s0 & Hres & _ & _ & _ & Hl0).
      rewrite Hres.
      pose proof (resolve_frame cfg id s0) as (_ & _ & _ & _ & _ & l & Hl).
      destruct id;
        try (exists l; rewrite Hl, Hl0, <- app_assoc; reflexivity).
      unfold resolve in *. unfold bind at 1.
      destruct (setValues_table_step Alpha (Particle Alpha) (bbParameters cfg) s0)
        as (s1 & Hrun1 & _ & _ & _ & first & l1 & Hl1 & Hfirst).
      rewrite Hrun1.
      pose proof (setValues_cfg_frame Alpha ("filePparamBb" +:+ Particle Alpha)
                    (fileParamBb cfg Alpha) s1) as (_ & _ & _ & _ & _ & l2 & Hl2).
      assert (Hlog : log (final (bind (setValues_cfg Alpha ("filePparamBb" +:+ Particle Alpha)
                                         (fileParamBb cfg Alpha))
                                   (fun _ => ret tt) s1)) = log s1 ++ l2).
      { unfold bind.
        destruct (setValues_cfg Alpha _ (fileParamBb cfg Alpha) s1) as [b s | why s];
          exact Hl2. }
      exists (l1 ++ l2). rewrite Hlog, Hl1, Hl0, app_nil_r, Hfirst, <- app_assoc. reflexivity.
    - unfold init_species. fold (enabled cfg id). rewrite Hen.
      unfold bind, LOG at 1. cbn match.
      destruct (_ || _); unfold LOG, ret; cbn [final log with_log].
      + eexists [_]. rewrite <- app_assoc. reflexivity.
      + exists []. reflexivity. }
  destruct (init_species initContext cfg id st) as [[] st' | [] st'];
    cbn [final] in Hfinal; [exact Hfinal | exact Hfinal | exact I].
Qed.

(** X20.  With every process switch off and no table requested, [init]
    loads nothing: it returns with every parameter set and the objects of
    the manager as they were, having written one "Skipping" line per
    species, in the order of the blocks, and the line about the fixed
    timestamp unless that is 0. *)
Theorem init_with_nothing_enabled (initContext : InitContext) (cfg : Config) st :
  (forall id, enabled cfg id = false) ->
  (forall id, requested initContext id = false) ->
  exists st',
    init initContext cfg st = Done tt st' /\
    bb st' = bb st /\
    objects (ccdb st') = objects (ccdb st) /\
    log st' =
      log st
      ++ map (fun id => line info ("Skipping " +:+ longName id)) allSpecies
      ++ (if (ccdbTimestamp cfg =? 0)%Z then []
          else [line info "Initialising LF TPC PID response for fixed timestamp"]).
Proof.
  intros Hoff Hnone.
  assert (Hblocks : forall ids st,
             exists st1,
               init_blocks initContext cfg ids st = Done tt st1 /\
               bb st1 = bb st /\ ccdb st1 = ccdb st /\
               log st1 = log st ++ map (fun id => line info ("Skipping " +:+ longName id)) ids).
  { induction ids as [| id ids IH]; intros s.
    - exists s. cbn. rewrite app_nil_r. repeat split.
    - cbn [init_blocks]. unfold bind at 1. unfold init_species.
      fold (enabled cfg id). fold (requested initContext id).
      rewrite Hoff, Hnone. unfold bind at 1. unfold LOG at 1. cbn match. unfold ret at 1.
      match goal with
      | |- context [init_blocks initContext cfg ids ?s0] =>
          destruct (IH s0) as (st1 & Hrun & Hb & Hc & Hl)
      end.
      exists st1. split; [exact Hrun |]. rewrite Hb, Hc, Hl.
      cbn [bb ccdb log with_log map]. rewrite <- app_assoc. repeat split. }
  unfold init, bind.
  destruct (Hblocks allSpecies st) as (st1 & Hrun1 & Hb1 & Hc1 & Hl1). rewrite Hrun1.
  destruct (ccdb_setup_settings cfg st1)
    as (st2 & Hrun2 & _ & _ & _ & _ & _ & Ho2 & B2 & _ & _ & _ & L2).
  rewrite Hrun2. exists st2. split; [reflexivity |].
  rewrite B2, Ho2, L2, Hb1, Hc1, Hl1, <- app_assoc. repeat split.
Qed.

End Init_blocks.

(** ** The cells of the table *)

Lemma labelIndex_lt (l : string) (ls : list string) :
  In l ls -> (labelIndex l ls < length ls)%nat.
Proof.
  induction ls as [| x ls IH]; [intros [] |].
  intros Hin. cbn [labelIndex length].
  destruct (String.eqb_spec l x) as [_ | Hne]; [lia |].
  destruct Hin as [-> | Hin]; [contradiction |].
  specialize (IH Hin). lia.
Qed.

Lemma labelIndex_inj (l l' : string) (ls : list string) :
  In l ls -> In l' ls -> labelIndex l ls = labelIndex l' ls -> l = l'.
Proof.
  induction ls as [| x ls IH]; [intros [] |].
  intros Hin Hin'. cbn [labelIndex].
  destruct (String.eqb_spec l x) as [-> | Hne], (String.eqb_spec l' x) as [-> | Hne'];
    try discriminate; [reflexivity |].
  intros E. injection E as E.
  destruct Hin as [-> | Hin]; [contradiction |].
  destruct Hin' as [-> | Hin']; [contradiction |].
  apply IH; assumption.
Qed.

Lemma Particle_In (id : ID) : In (Particle id) particleNames.
Proof. destruct id; cbn; tauto. Qed.

Lemma Particle_inj (id id' : ID) : Particle id = Particle id' -> id = id'.
Proof. destruct id, id'; cbn; intros E; try reflexivity; discriminate E. Qed.

(** X21.  The labels that the task passes to the table are labels of the
    table: for every species and every parameter name the cell read lies
    within the 9 x 11 values, and two different pairs of a species and a
    parameter name read different cells. *)
Theorem table_cells_are_in_range_and_distinct :
  length particleNames = nSpecies /\ length parameterNames = nParameters /\
  (forall id, In (Particle id) particleNames) /\
  Forall (fun l => In l parameterNames)
    (["Use default tiny"; "Use default full"; "Set parameters"]%string ++ bbLabels) /\
  (forall id (l : string), In l parameterNames ->
     (labelIndex (Particle id) particleNames * nParameters + labelIndex l parameterNames
      < nSpecies * nParameters)%nat) /\
  (forall id id' (l l' : string), In l parameterNames -> In l' parameterNames ->
     (labelIndex (Particle id) particleNames * nParameters + labelIndex l parameterNames
      = labelIndex (Particle id') particleNames * nParameters + labelIndex l' parameterNames)%nat ->
     id = id' /\ l = l').
Proof.
  split; [reflexivity |]. split; [reflexivity |].
  split; [apply Particle_In |].
  split; [repeat (constructor; [cbn; tauto |]); constructor |].
  assert (Hrow : forall id, (labelIndex (Particle id) particleNames < nSpecies)%nat)
    by (intros id; apply (labelIndex_lt _ _ (Particle_In id))).
  assert (Hcol : forall l, In l parameterNames ->
                           (labelIndex l parameterNames < nParameters)%nat)
    by (intros l Hin; apply (labelIndex_lt _ _ Hin)).
  split.
  - intros id l Hin. specialize (Hrow id). specialize (Hcol l Hin).
    unfold nSpecies, nParameters in *. lia.
  - intros id id' l l' Hin Hin' E.
    pose proof (Hcol l Hin) as Hc. pose proof (Hcol l' Hin') as Hc'.
    unfold nParameters in *.
    assert (labelIndex (Particle id) particleNames = labelIndex (Particle id') particleNames
            /\ labelIndex l parameterNames = labelIndex l' parameterNames) as [Er Ec] by lia.
    split.
    + apply Particle_inj.
      exact (labelIndex_inj _ _ _ (Particle_In id) (Particle_In id') Er).
    + exact (labelIndex_inj _ _ _ Hin Hin' Ec).
Qed.

(** ** The further statements at concrete inputs *)

Section Concrete_further.

(** X1 at two tracks and the declared table, whose flags are all 0. *)
Lemma compact_rows_are_computed_witness :
  F32.geb (get (bbParameters defaultConfig) "Ka" "Use default tiny") F32.one_and_a_half = false /\
  exists st',
    processParticle (C := sampleCollaborators) defaultConfig Kaon sampleTracks sampleState
      = Done tt st' /\
    length (tablePID st' Kaon) = 2%nat /\
    modelCalls st' = 4%nat.
Proof.
  split; [vm_compute; reflexivity |].
  destruct (compact_rows_are_computed (C := sampleCollaborators)
              defaultConfig Kaon sampleTracks sampleState) as (st' & Hrun & Hrow & Hcalls).
  - vm_compute. reflexivity.
  - exists st'. split; [exact Hrun |].
    split; [rewrite Hrow; reflexivity | exact Hcalls].
Defined.

(** X2 at the same input. *)
Lemma full_rows_are_computed_witness :
  F32.geb (get (bbParameters defaultConfig) "Ka" "Use default full") F32.one_and_a_half = false /\
  exists st',
    processFullParticle (C := sampleCollaborators) defaultConfig Kaon sampleTracks sampleState
      = Done tt st' /\
    length (tablePIDFull st' Kaon) = 2%nat /\
    modelCalls st' = 6%nat.
Proof.
  split; [vm_compute; reflexivity |].
  destruct (full_rows_are_computed (C := sampleCollaborators)
              defaultConfig Kaon sampleTracks sampleState) as (st' & Hrun & Hrow & Hcalls).
  - vm_compute. reflexivity.
  - exists st'. split; [exact Hrun |].
    split; [rewrite Hrow; reflexivity | exact Hcalls].
Defined.

(** X15 at the same input. *)
Lemma compact_rows_are_the_packed_full_rows_witness :
  exists sc sf rows,
    processParticle (C := sampleCollaborators) defaultConfig Kaon sampleTracks sampleState
      = Done tt sc /\
    processFullParticle (C := sampleCollaborators) defaultConfig Kaon sampleTracks sampleState
      = Done tt sf /\
    tablePIDFull sf Kaon = rows /\
    tablePID sc Kaon = map (fun r => truncate (snd r)) rows.
Proof.
  apply (compact_rows_are_the_packed_full_rows (C := sampleCollaborators)
           defaultConfig Kaon sampleTracks sampleState); vm_compute; reflexivity.
Defined.

(** X16 at the same input. *)
Lemma computed_resolutions_are_not_negative_witness :
  exists st' rows,
    processFullParticle (C := sampleCollaborators) defaultConfig Kaon sampleTracks sampleState
      = Done tt st' /\
    tablePIDFull st' Kaon = rows /\
    length rows = 2%nat /\
    Forall (fun r => F32.ltb (fst r) F32.zero = false /\
                     (F32.is_nan (fst r) = true \/ F32.geb (fst r) F32.zero = true)) rows.
Proof.
  apply (computed_resolutions_are_not_negative (C := sampleCollaborators)
           defaultConfig Kaon sampleTracks sampleState); vm_compute; reflexivity.
Defined.

(** X5 at the declared configuration. *)
Lemma resolving_touches_one_species_witness :
  exists st',
    resolve defaultConfig Kaon sampleState = Done tt st' /\
    (forall id', id' <> Kaon -> bb st' id' = bb sampleState id') /\
    tablePID st' = tablePID sampleState /\
    sameSettings (ccdb sampleState) (ccdb st').
Proof.
  assert (Hrun : exists st', resolve defaultConfig Kaon sampleState = Done tt st')
    by (eexists; vm_compute; reflexivity).
  destruct Hrun as (st' & Hrun). exists st'. split; [exact Hrun |].
  destruct (resolving_touches_one_species defaultConfig Kaon sampleState st' Hrun)
    as (B & T & _ & _ & _ & _ & S & _).
  split; [exact B |]. split; [exact T | exact S].
Defined.

(** X9 at the declared configuration when the compact Kaon table is
    requested: the blocks of electrons, muons and pions are passed and
    the one of kaons ends [init]. *)
Lemma first_failing_block_ends_init_witness :
  passes kaonRequested defaultConfig sampleState Kaon = false /\
  exists st',
    init kaonRequested defaultConfig sampleState = Aborted FatalLog st' /\
    last (log st') =
      Some (line fatal "Requested Kaon table but not enabled in configuration") /\
    (forall id', In id' [Proton; Deuteron; Triton; Helium3; Alpha] ->
                 bb st' id' = bb sampleState id').
Proof.
  split; [vm_compute; reflexivity |].
  destruct (first_failing_block_ends_init kaonRequested defaultConfig
              [Electron; Muon; Pion] [Proton; Deuteron; Triton; Helium3; Alpha]
              Kaon sampleState) as (st' & Hrun & Hrest).
  - reflexivity.
  - intros id' [<- | [<- | [<- | []]]]; vm_compute; reflexivity.
  - vm_compute. reflexivity.
  - exists st'. split; [exact Hrun |].
    destruct Hrest as (Hlast & Hpost & _); [reflexivity |].
    split; [exact Hlast | exact Hpost].
Defined.

(** X10 at the Kaon table with flag 2 and the histogram with a misspelt
    label: the table's values stay. *)
Lemma rejected_source_leaves_the_table_values_witness :
  locate "misspelt.root" sampleState = Some hpar_misspelt /\
  exists st',
    resolve (kaonConfig tableKaonSet "misspelt.root" true) Kaon sampleState = Done tt st' /\
    bb st' Kaon =
      {| bb1 := F32.decimal 1 2; bb2 := F32.decimal 20 0; bb3 := F32.decimal 3 0;
         bb4 := F32.decimal 27 1; bb5 := F32.decimal 6 0; mip := F32.decimal 45 0;
         exp := F32.decimal 23 1; res := F32.decimal 4 3 |}.
Proof.
  split; [vm_compute; reflexivity |].
  destruct (rejected_source_leaves_the_table_values
              (kaonConfig tableKaonSet "misspelt.root" true) Kaon sampleState)
    as (st' & Hrun & Hbb).
  - cbn. lia.
  - left. exists hpar_misspelt. split; [vm_compute; reflexivity | vm_compute; discriminate].
  - exists st'. split; [exact Hrun |]. rewrite Hbb. vm_compute. reflexivity.
Defined.

(** X11 for pions and kaons that share the manager's Kaon object. *)
Lemma shared_source_gives_equal_parameters_witness :
  locate "ccdb://Analysis/PID/TPC/Ka" sampleState = Some hpar_good /\
  exists st1 st2,
    resolve (sharedConfig "ccdb://Analysis/PID/TPC/Ka") Pion sampleState = Done tt st1 /\
    resolve (sharedConfig "ccdb://Analysis/PID/TPC/Ka") Kaon st1 = Done tt st2 /\
    bb st2 Pion = bb st2 Kaon /\
    mip (bb st2 Kaon) = F32.decimal 60 0 /\
    ccdb st2 = ccdb sampleState.
Proof.
  split; [vm_compute; reflexivity |].
  destruct (shared_source_gives_equal_parameters
              (sharedConfig "ccdb://Analysis/PID/TPC/Ka") Pion Kaon hpar_good sampleState)
    as (st1 & st2 & Hrun1 & Hrun2 & Hb1 & Hb2 & Hc & _).
  - reflexivity.
  - cbn. lia.
  - vm_compute. reflexivity.
  - exact hpar_good_wellFormed.
  - exists st1, st2. split; [exact Hrun1 |]. split; [exact Hrun2 |].
    split; [congruence |]. split; [rewrite Hb2; vm_compute; reflexivity | exact Hc].
Defined.

(** X13 at a track whose signal is the expected pion signal. *)
Lemma exact_signal_has_zero_or_nan_residual_witness :
  isFinite (BetheBlochLf (C := sampleCollaborators) Pion exactTrack bbParams_default) = true /\
  nSigma (C := sampleCollaborators) Pion exactTrack bbParams_default = F32.zero.
Proof.
  split; [vm_compute; reflexivity |].
  rewrite (exact_signal_has_zero_or_nan_residual (C := sampleCollaborators)
             Pion exactTrack bbParams_default).
  - vm_compute. reflexivity.
  - vm_compute. reflexivity.
  - vm_compute. reflexivity.
Defined.

(** X14 at a negative scale constant. *)
Lemma resolution_of_negative_signal_witness :
  isNegative (BetheBlochLf (C := sampleCollaborators) Pion unitTrack negativeParams) = true /\
  BetheBlochResolutionLf (C := sampleCollaborators) Pion unitTrack negativeParams =
  F32.abs
    (F32.sub
       (F32.mul
          (F32.mul (mip negativeParams)
             (BetheBlochAleph (Collaborators := sampleCollaborators) F32.nan
                (bb1 negativeParams) (bb2 negativeParams) (bb3 negativeParams)
                (bb4 negativeParams) (bb5 negativeParams)))
          (pow (Collaborators := sampleCollaborators) (charge Pion) (exp negativeParams)))
       (BetheBlochLf (C := sampleCollaborators) Pion unitTrack negativeParams)).
Proof.
  split; [vm_compute; reflexivity |].
  apply (resolution_of_negative_signal (C := sampleCollaborators) Pion unitTrack negativeParams).
  vm_compute. reflexivity.
Defined.

(** X17 for kaons enabled with the well-formed [hpar] of good.root. *)
Lemma init_loads_the_located_histogram_witness :
  exists st',
    init nothingRequested (kaonConfig tableKaonSet "good.root" true) sampleState = Done tt st' /\
    bb st' Kaon =
      {| bb1 := F32.decimal 1 1; bb2 := F32.decimal 2 0; bb3 := F32.decimal 3 0;
         bb4 := F32.decimal 4 0; bb5 := F32.decimal 5 0; mip := F32.decimal 60 0;
         exp := F32.decimal 2 0; res := F32.decimal 1 2 |}.
Proof.
  assert (Hrun : exists st',
             init nothingRequested (kaonConfig tableKaonSet "good.root" true) sampleState
               = Done tt st') by (eexists; vm_compute; reflexivity).
  destruct Hrun as (st' & Hrun). exists st'. split; [exact Hrun |].
  rewrite (init_loads_the_located_histogram nothingRequested
             (kaonConfig tableKaonSet "good.root" true) Kaon hpar_good sampleState st' Hrun).
  - vm_compute. reflexivity.
  - reflexivity.
  - cbn. lia.
  - vm_compute. reflexivity.
  - exact hpar_good_wellFormed.
Defined.

(** X18 for kaons enabled without a locator, at the table with flag 2. *)
Lemma init_without_locator_takes_the_table_witness :
  exists st',
    init nothingRequested (kaonConfig tableKaonSet EmptyString true) sampleState = Done tt st' /\
    bb st' Kaon =
      {| bb1 := F32.decimal 1 2; bb2 := F32.decimal 20 0; bb3 := F32.decimal 3 0;
         bb4 := F32.decimal 27 1; bb5 := F32.decimal 6 0; mip := F32.decimal 45 0;
         exp := F32.decimal 23 1; res := F32.decimal 4 3 |}.
Proof.
  assert (Hrun : exists st',
             init nothingRequested (kaonConfig tableKaonSet EmptyString true) sampleState
               = Done tt st') by (eexists; vm_compute; reflexivity).
  destruct Hrun as (st' & Hrun). exists st'. split; [exact Hrun |].
  rewrite (init_without_locator_takes_the_table nothingRequested
             (kaonConfig tableKaonSet EmptyString true) Kaon sampleState st' Hrun).
  - vm_compute. reflexivity.
  - reflexivity.
  - cbn. lia.
Defined.

(** X20 at the declared configuration. *)
Lemma init_with_nothing_enabled_witness :
  exists st',
    init nothingRequested defaultConfig sampleState = Done tt st' /\
    bb st' = bb sampleState /\
    objects (ccdb st') = objects (ccdb sampleState) /\
    length (log st') = 10%nat.
Proof.
  destruct (init_with_nothing_enabled nothingRequested defaultConfig sampleState)
    as (st' & Hrun & Hbb & Hobj & Hlog).
  - intros id. reflexivity.
  - intros id. destruct id; vm_compute; reflexivity.
  - exists st'. split; [exact Hrun |]. split; [exact Hbb |]. split; [exact Hobj |].
    rewrite Hlog. reflexivity.
Defined.

End Concrete_further.
